(** * Document-Processing-Agent: a shallow embedding of the multi-file pipeline

    The development follows the Python sources:
    - [src/core/text_processor.py]   (module [TextProcessor])
    - [src/core/file_handler.py]     (module [FileHandler])
    - [src/agents/multi_file_state.py], [multi_file_processor.py],
      [multi_file_summarizer.py], [multi_file_qa.py]

    Python strings are sequences of Unicode code points: [pystr] is a list
    of code points.  The Unicode tables behind [\w], [\s] and [str.strip]
    belong to the interpreter, so the text functions take them as section
    variables together with the few facts about them that the proofs use. *)

From Stdlib Require Import String Ascii DecimalString.
From Stdlib Require Import List Bool NArith ZArith QArith Lia.
From Stdlib Require Import Permutation Sorted.
Import ListNotations.
Close Scope Q_scope.

Set Implicit Arguments.

(** ** Python values *)

Definition pystr := list N.

(** A string literal of the source, as code points. *)
Definition str (s : string) : pystr :=
  map N_of_ascii (list_ascii_of_string s).
Arguments str s%_string.

Fixpoint pystr_eqb (a b : pystr) : bool :=
  match a, b with
  | [], [] => true
  | x :: a', y :: b' => N.eqb x y && pystr_eqb a' b'
  | _, _ => false
  end.

(** The line feed, which a literal cannot hold. *)
Definition NL : N := 10.

(** [str(n)] for a natural number. *)
Definition show_nat (n : nat) : pystr :=
  str (NilZero.string_of_uint (Nat.to_uint n)).

(** Truthiness of a string: [if text:] *)
Definition truthy (s : pystr) : bool :=
  match s with [] => false | _ :: _ => true end.

(** [sep.join(parts)] *)
Fixpoint join (sep : pystr) (parts : list pystr) : pystr :=
  match parts with
  | [] => []
  | [p] => p
  | p :: rest => p ++ sep ++ join sep rest
  end.

(** [xs[:k]] for an integer [k] of either sign. *)
Definition slice_to (A : Type) (k : Z) (xs : list A) : list A :=
  if (0 <=? k)%Z then firstn (Z.to_nat k) xs
  else firstn (length xs - Z.to_nat (- k)) xs.

(** [enumerate(xs)] *)
Fixpoint enumerate_from (A : Type) (i : nat) (xs : list A) : list (nat * A) :=
  match xs with
  | [] => []
  | x :: t => (i, x) :: enumerate_from (S i) t
  end.

Definition enumerate (A : Type) (xs : list A) : list (nat * A) :=
  enumerate_from 0 xs.

(** A [dict] keeps its keys in insertion order; assigning to a key that is
    present replaces the value in place, a new key goes to the end. *)
Section Dict.
Variable V : Type.

Definition dict := list (pystr * V).

Fixpoint dict_get (k : pystr) (d : dict) : option V :=
  match d with
  | [] => None
  | (k', v) :: t => if pystr_eqb k k' then Some v else dict_get k t
  end.

Fixpoint dict_set (k : pystr) (v : V) (d : dict) : dict :=
  match d with
  | [] => [(k, v)]
  | (k', v') :: t =>
      if pystr_eqb k k' then (k', v) :: t else (k', v') :: dict_set k v t
  end.

Definition keys (d : dict) : list pystr := map fst d.
Definition values (d : dict) : list V := map snd d.
End Dict.

(** A raised [Exception]: what [str(e)] gives. *)
Inductive result (A : Type) : Type :=
| Ok (a : A)
| Raise (msg : pystr).
Arguments Ok {A} a.
Arguments Raise {A} msg.

(** ** src/core/text_processor.py *)

Module TextProcessor.

Definition SP : N := 32.      (* ' ' *)
Definition ZERO : N := 48.    (* '0' *)
Definition ONE : N := 49.     (* '1' *)
Definition LETTER_O : N := 79.
Definition LETTER_I : N := 73.

Section Regex.
(** [Py_UNICODE_ISSPACE], used by [\s], [str.strip] and [str.split]. *)
Variable is_space : N -> bool.
(** [\w]: alphanumeric in the Unicode sense, or the underscore. *)
Variable is_word : N -> bool.

(** [re.sub(r'\s+', ' ', text)]: every maximal run of white space
    becomes one space.  [in_run] tells that the previous character was
    white space, already replaced. *)
Fixpoint sub_ws_from (in_run : bool) (s : pystr) : pystr :=
  match s with
  | [] => []
  | c :: t =>
      if is_space c
      then (if in_run then sub_ws_from true t else SP :: sub_ws_from true t)
      else c :: sub_ws_from false t
  end.

Definition sub_ws (s : pystr) : pystr := sub_ws_from false s.

(** The class [[\w\s.,!?;:()\-\'""]]. *)
Definition punctuation : list N :=
  [46; 44; 33; 63; 59; 58; 40; 41; 45; 39; 34]%N.

Definition allowed (c : N) : bool :=
  is_word c || is_space c || existsb (N.eqb c) punctuation.

(** [re.sub(r'[^\w\s.,!?;:()\-\'""]', ' ', text)] *)
Definition sub_special (s : pystr) : pystr :=
  map (fun c => if allowed c then c else SP) s.

Definition next_is_word (s : pystr) : bool :=
  match s with [] => false | c :: _ => is_word c end.

(** [\b d \b] at the head of [c :: t], [prev_word] telling whether the
    character before is a word character (false at the start). *)
Definition lone_at (d : N) (prev_word : bool) (c : N) (t : pystr) : bool :=
  N.eqb c d && xorb prev_word (is_word c) && xorb (is_word c) (next_is_word t).

(** [re.sub(r'\bd\b', r, text)] for a one-character pattern [d]: the
    matches are found on the text as it was given. *)
Fixpoint sub_lone (d r : N) (prev_word : bool) (s : pystr) : pystr :=
  match s with
  | [] => []
  | c :: t =>
      (if lone_at d prev_word c t then r else c) :: sub_lone d r (is_word c) t
  end.

(** [_fix_common_ocr_errors]: the three substitutions of [fixes], in the
    order the dict lists them. *)
Definition _fix_common_ocr_errors (text : pystr) : pystr :=
  sub_ws (sub_lone ONE LETTER_I false (sub_lone ZERO LETTER_O false text)).

Fixpoint lstrip (s : pystr) : pystr :=
  match s with
  | [] => []
  | c :: t => if is_space c then lstrip t else s
  end.

Fixpoint rstrip (s : pystr) : pystr :=
  match s with
  | [] => []
  | c :: t =>
      match rstrip t with
      | [] => if is_space c then [] else [c]
      | t' => c :: t'
      end
  end.

Definition strip (s : pystr) : pystr := rstrip (lstrip s).

(** [clean_text] *)
Definition clean_text (text : pystr) : pystr :=
  if truthy text
  then strip (_fix_common_ocr_errors (sub_special (sub_ws text)))
  else [].

(** [len(text.split())]: the number of maximal runs of characters that
    are not white space. *)
Fixpoint count_words_from (in_word : bool) (s : pystr) : nat :=
  match s with
  | [] => 0
  | c :: t =>
      if is_space c then count_words_from false t
      else (if in_word then 0 else 1) + count_words_from true t
  end.

Definition count_words (s : pystr) : nat := count_words_from false s.

(** One chunk of [create_chunks]. *)
Record ChunkData : Type := {
  content : pystr;
  chunk_id : nat;
  word_count : nat;
  char_count : nat
}.

(** [RecursiveCharacterTextSplitter.split_text] of LangChain, configured
    in [__init__] with the chunk size, the overlap, [len] and the
    separators [["\n\n"; "\n"; " "; ""]]: a library outside the
    repository. *)
Variable split_text : Z -> Z -> pystr -> list pystr.

(** [create_chunks] of a processor built with [chunk_size] and
    [chunk_overlap]. *)
Definition create_chunks (chunk_size chunk_overlap : Z) (text : pystr)
  : list ChunkData :=
  if truthy text
  then map (fun ic =>
              {| content := snd ic;
                 chunk_id := fst ic;
                 word_count := count_words (snd ic);
                 char_count := length (snd ic) |})
           (enumerate (split_text chunk_size chunk_overlap text))
  else [].

(** [len(re.findall(r'[.!?]+', text))] *)
Definition is_terminal (c : N) : bool :=
  existsb (N.eqb c) [46; 33; 63]%N.

Fixpoint count_runs (p : N -> bool) (in_run : bool) (s : pystr) : nat :=
  match s with
  | [] => 0
  | c :: t =>
      if p c then (if in_run then 0 else 1) + count_runs p true t
      else count_runs p false t
  end.

(** [len(text.split('\n\n'))] is one more than the number of
    occurrences of the separator found from left to right without
    overlap; without any occurrence both branches of the source give 1. *)
Fixpoint count_blank_lines (s : pystr) : nat :=
  match s with
  | c :: ((c' :: t') as t) =>
      if N.eqb c 10 && N.eqb c' 10 then S (count_blank_lines t')
      else count_blank_lines t
  | _ => 0
  end.

Record DocMetadata : Type := {
  md_word_count : nat;
  character_count : nat;
  sentence_count : nat;
  paragraph_count : nat;
  estimated_reading_time : nat
}.

(** [get_document_metadata]; [None] is the empty dict. *)
Definition get_document_metadata (text : pystr) : option DocMetadata :=
  if truthy text
  then Some {| md_word_count := count_words text;
               character_count := length text;
               sentence_count := count_runs is_terminal false text;
               paragraph_count := S (count_blank_lines text);
               estimated_reading_time := Nat.max 1 (count_words text / 200) |}
  else None.

End Regex.
End TextProcessor.

(** ** src/agents/multi_file_state.py *)

Inductive ProcessingStatus : Type :=
| IDLE | UPLOADING | UPLOADED | PROCESSING | OCR_COMPLETE | SUMMARIZED | READY | ERROR.

Definition status_eqb (a b : ProcessingStatus) : bool :=
  match a, b with
  | IDLE, IDLE | UPLOADING, UPLOADING | UPLOADED, UPLOADED
  | PROCESSING, PROCESSING | OCR_COMPLETE, OCR_COMPLETE
  | SUMMARIZED, SUMMARIZED | READY, READY | ERROR, ERROR => true
  | _, _ => false
  end.

(** The dataclass [FileInfo].  Its three container fields are never [None]
    after [__post_init__]. *)
Module FileInfo.

Record t : Type := mk {
  file_id : pystr;
  file_name : pystr;
  file_path : pystr;
  file_type : pystr;
  file_size : Z;
  upload_timestamp : Q;
  processing_status : ProcessingStatus;
  error_message : option pystr;
  raw_text : option pystr;
  processed_text : option pystr;
  text_quality_score : option Q;
  document_chunks : list pystr;
  chunk_metadata : list TextProcessor.ChunkData;
  document_metadata : option TextProcessor.DocMetadata;
  individual_summary : option pystr
}.

Definition set_processing_status (v : ProcessingStatus) (r : t) : t :=
  {| file_id := file_id r;
     file_name := file_name r;
     file_path := file_path r;
     file_type := file_type r;
     file_size := file_size r;
     upload_timestamp := upload_timestamp r;
     processing_status := v;
     error_message := error_message r;
     raw_text := raw_text r;
     processed_text := processed_text r;
     text_quality_score := text_quality_score r;
     document_chunks := document_chunks r;
     chunk_metadata := chunk_metadata r;
     document_metadata := document_metadata r;
     individual_summary := individual_summary r |}.

Definition set_error_message (v : option pystr) (r : t) : t :=
  {| file_id := file_id r;
     file_name := file_name r;
     file_path := file_path r;
     file_type := file_type r;
     file_size := file_size r;
     upload_timestamp := upload_timestamp r;
     processing_status := processing_status r;
     error_message := v;
     raw_text := raw_text r;
     processed_text := processed_text r;
     text_quality_score := text_quality_score r;
     document_chunks := document_chunks r;
     chunk_metadata := chunk_metadata r;
     document_metadata := document_metadata r;
     individual_summary := individual_summary r |}.

Definition set_raw_text (v : option pystr) (r : t) : t :=
  {| file_id := file_id r;
     file_name := file_name r;
     file_path := file_path r;
     file_type := file_type r;
     file_size := file_size r;
     upload_timestamp := upload_timestamp r;
     processing_status := processing_status r;
     error_message := error_message r;
     raw_text := v;
     processed_text := processed_text r;
     text_quality_score := text_quality_score r;
     document_chunks := document_chunks r;
     chunk_metadata := chunk_metadata r;
     document_metadata := document_metadata r;
     individual_summary := individual_summary r |}.

Definition set_processed_text (v : option pystr) (r : t) : t :=
  {| file_id := file_id r;
     file_name := file_name r;
     file_path := file_path r;
     file_type := file_type r;
     file_size := file_size r;
     upload_timestamp := upload_timestamp r;
     processing_status := processing_status r;
     error_message := error_message r;
     raw_text := raw_text r;
     processed_text := v;
     text_quality_score := text_quality_score r;
     document_chunks := document_chunks r;
     chunk_metadata := chunk_metadata r;
     document_metadata := document_metadata r;
     individual_summary := individual_summary r |}.

Definition set_text_quality_score (v : option Q) (r : t) : t :=
  {| file_id := file_id r;
     file_name := file_name r;
     file_path := file_path r;
     file_type := file_type r;
     file_size := file_size r;
     upload_timestamp := upload_timestamp r;
     processing_status := processing_status r;
     error_message := error_message r;
     raw_text := raw_text r;
     processed_text := processed_text r;
     text_quality_score := v;
     document_chunks := document_chunks r;
     chunk_metadata := chunk_metadata r;
     document_metadata := document_metadata r;
     individual_summary := individual_summary r |}.

Definition set_document_chunks (v : list pystr) (r : t) : t :=
  {| file_id := file_id r;
     file_name := file_name r;
     file_path := file_path r;
     file_type := file_type r;
     file_size := file_size r;
     upload_timestamp := upload_timestamp r;
     processing_status := processing_status r;
     error_message := error_message r;
     raw_text := raw_text r;
     processed_text := processed_text r;
     text_quality_score := text_quality_score r;
     document_chunks := v;
     chunk_metadata := chunk_metadata r;
     document_metadata := document_metadata r;
     individual_summary := individual_summary r |}.

Definition set_chunk_metadata (v : list TextProcessor.ChunkData) (r : t) : t :=
  {| file_id := file_id r;
     file_name := file_name r;
     file_path := file_path r;
     file_type := file_type r;
     file_size := file_size r;
     upload_timestamp := upload_timestamp r;
     processing_status := processing_status r;
     error_message := error_message r;
     raw_text := raw_text r;
     processed_text := processed_text r;
     text_quality_score := text_quality_score r;
     document_chunks := document_chunks r;
     chunk_metadata := v;
     document_metadata := document_metadata r;
     individual_summary := individual_summary r |}.

Definition set_document_metadata (v : option TextProcessor.DocMetadata) (r : t) : t :=
  {| file_id := file_id r;
     file_name := file_name r;
     file_path := file_path r;
     file_type := file_type r;
     file_size := file_size r;
     upload_timestamp := upload_timestamp r;
     processing_status := processing_status r;
     error_message := error_message r;
     raw_text := raw_text r;
     processed_text := processed_text r;
     text_quality_score := text_quality_score r;
     document_chunks := document_chunks r;
     chunk_metadata := chunk_metadata r;
     document_metadata := v;
     individual_summary := individual_summary r |}.

End FileInfo.

(** An entry of [combined_chunks]: the dict built at lines 204-211 of
    [multi_file_processor.py]; [metadata = None] is the empty dict. *)
Module Chunk.
Record t : Type := mk {
  content : pystr;
  file_id : pystr;
  file_name : pystr;
  file_type : pystr;
  chunk_index : nat;
  metadata : option TextProcessor.ChunkData
}.
End Chunk.

(** A retrieved chunk: the copy of the chunk with ["similarity_score"]
    added.  A score is a finite binary64 number, that is a rational. *)
Record Retrieved : Type := {
  chunk : Chunk.t;
  similarity_score : Q
}.

Inductive Role : Type := user | assistant.

Record ChatEntry : Type := {
  role : Role;
  entry_content : pystr
}.

(** [MultiFileDocumentState]: the keys of the TypedDict that the four
    nodes read or write ([messages], [topic_analysis], [temperature] and
    [max_files] are touched by none of them).  The TypedDict is total, so
    every key is present. *)
Record MultiFileDocumentState : Type := mkState {
  uploaded_file_paths : list (pystr * pystr);
  overall_status : ProcessingStatus;
  current_step : pystr;
  processing_progress : dict Z;
  error_message : option pystr;
  files : dict FileInfo.t;
  file_upload_order : list pystr;
  total_files : nat;
  files_completed : nat;
  combined_text : option pystr;
  combined_chunks : list Chunk.t;
  combined_summary : option pystr;
  suggested_questions : list pystr;
  document_relationships : list pystr;
  current_query : option pystr;
  response : option pystr;
  chat_history : list ChatEntry;
  relevant_chunks : list Retrieved;
  max_chunk_size : Z;
  overlap_size : Z
}.

Definition set_overall_status (v : ProcessingStatus) (r : MultiFileDocumentState) : MultiFileDocumentState :=
  {| uploaded_file_paths := uploaded_file_paths r;
     overall_status := v;
     current_step := current_step r;
     processing_progress := processing_progress r;
     error_message := error_message r;
     files := files r;
     file_upload_order := file_upload_order r;
     total_files := total_files r;
     files_completed := files_completed r;
     combined_text := combined_text r;
     combined_chunks := combined_chunks r;
     combined_summary := combined_summary r;
     suggested_questions := suggested_questions r;
     document_relationships := document_relationships r;
     current_query := current_query r;
     response := response r;
     chat_history := chat_history r;
     relevant_chunks := relevant_chunks r;
     max_chunk_size := max_chunk_size r;
     overlap_size := overlap_size r |}.

Definition set_current_step (v : pystr) (r : MultiFileDocumentState) : MultiFileDocumentState :=
  {| uploaded_file_paths := uploaded_file_paths r;
     overall_status := overall_status r;
     current_step := v;
     processing_progress := processing_progress r;
     error_message := error_message r;
     files := files r;
     file_upload_order := file_upload_order r;
     total_files := total_files r;
     files_completed := files_completed r;
     combined_text := combined_text r;
     combined_chunks := combined_chunks r;
     combined_summary := combined_summary r;
     suggested_questions := suggested_questions r;
     document_relationships := document_relationships r;
     current_query := current_query r;
     response := response r;
     chat_history := chat_history r;
     relevant_chunks := relevant_chunks r;
     max_chunk_size := max_chunk_size r;
     overlap_size := overlap_size r |}.

Definition set_processing_progress (v : dict Z) (r : MultiFileDocumentState) : MultiFileDocumentState :=
  {| uploaded_file_paths := uploaded_file_paths r;
     overall_status := overall_status r;
     current_step := current_step r;
     processing_progress := v;
     error_message := error_message r;
     files := files r;
     file_upload_order := file_upload_order r;
     total_files := total_files r;
     files_completed := files_completed r;
     combined_text := combined_text r;
     combined_chunks := combined_chunks r;
     combined_summary := combined_summary r;
     suggested_questions := suggested_questions r;
     document_relationships := document_relationships r;
     current_query := current_query r;
     response := response r;
     chat_history := chat_history r;
     relevant_chunks := relevant_chunks r;
     max_chunk_size := max_chunk_size r;
     overlap_size := overlap_size r |}.

Definition set_error_message (v : option pystr) (r : MultiFileDocumentState) : MultiFileDocumentState :=
  {| uploaded_file_paths := uploaded_file_paths r;
     overall_status := overall_status r;
     current_step := current_step r;
     processing_progress := processing_progress r;
     error_message := v;
     files := files r;
     file_upload_order := file_upload_order r;
     total_files := total_files r;
     files_completed := files_completed r;
     combined_text := combined_text r;
     combined_chunks := combined_chunks r;
     combined_summary := combined_summary r;
     suggested_questions := suggested_questions r;
     document_relationships := document_relationships r;
     current_query := current_query r;
     response := response r;
     chat_history := chat_history r;
     relevant_chunks := relevant_chunks r;
     max_chunk_size := max_chunk_size r;
     overlap_size := overlap_size r |}.

Definition set_files (v : dict FileInfo.t) (r : MultiFileDocumentState) : MultiFileDocumentState :=
  {| uploaded_file_paths := uploaded_file_paths r;
     overall_status := overall_status r;
     current_step := current_step r;
     processing_progress := processing_progress r;
     error_message := error_message r;
     files := v;
     file_upload_order := file_upload_order r;
     total_files := total_files r;
     files_completed := files_completed r;
     combined_text := combined_text r;
     combined_chunks := combined_chunks r;
     combined_summary := combined_summary r;
     suggested_questions := suggested_questions r;
     document_relationships := document_relationships r;
     current_query := current_query r;
     response := response r;
     chat_history := chat_history r;
     relevant_chunks := relevant_chunks r;
     max_chunk_size := max_chunk_size r;
     overlap_size := overlap_size r |}.

Definition set_file_upload_order (v : list pystr) (r : MultiFileDocumentState) : MultiFileDocumentState :=
  {| uploaded_file_paths := uploaded_file_paths r;
     overall_status := overall_status r;
     current_step := current_step r;
     processing_progress := processing_progress r;
     error_message := error_message r;
     files := files r;
     file_upload_order := v;
     total_files := total_files r;
     files_completed := files_completed r;
     combined_text := combined_text r;
     combined_chunks := combined_chunks r;
     combined_summary := combined_summary r;
     suggested_questions := suggested_questions r;
     document_relationships := document_relationships r;
     current_query := current_query r;
     response := response r;
     chat_history := chat_history r;
     relevant_chunks := relevant_chunks r;
     max_chunk_size := max_chunk_size r;
     overlap_size := overlap_size r |}.

Definition set_total_files (v : nat) (r : MultiFileDocumentState) : MultiFileDocumentState :=
  {| uploaded_file_paths := uploaded_file_paths r;
     overall_status := overall_status r;
     current_step := current_step r;
     processing_progress := processing_progress r;
     error_message := error_message r;
     files := files r;
     file_upload_order := file_upload_order r;
     total_files := v;
     files_completed := files_completed r;
     combined_text := combined_text r;
     combined_chunks := combined_chunks r;
     combined_summary := combined_summary r;
     suggested_questions := suggested_questions r;
     document_relationships := document_relationships r;
     current_query := current_query r;
     response := response r;
     chat_history := chat_history r;
     relevant_chunks := relevant_chunks r;
     max_chunk_size := max_chunk_size r;
     overlap_size := overlap_size r |}.

Definition set_files_completed (v : nat) (r : MultiFileDocumentState) : MultiFileDocumentState :=
  {| uploaded_file_paths := uploaded_file_paths r;
     overall_status := overall_status r;
     current_step := current_step r;
     processing_progress := processing_progress r;
     error_message := error_message r;
     files := files r;
     file_upload_order := file_upload_order r;
     total_files := total_files r;
     files_completed := v;
     combined_text := combined_text r;
     combined_chunks := combined_chunks r;
     combined_summary := combined_summary r;
     suggested_questions := suggested_questions r;
     document_relationships := document_relationships r;
     current_query := current_query r;
     response := response r;
     chat_history := chat_history r;
     relevant_chunks := relevant_chunks r;
     max_chunk_size := max_chunk_size r;
     overlap_size := overlap_size r |}.

Definition set_combined_text (v : option pystr) (r : MultiFileDocumentState) : MultiFileDocumentState :=
  {| uploaded_file_paths := uploaded_file_paths r;
     overall_status := overall_status r;
     current_step := current_step r;
     processing_progress := processing_progress r;
     error_message := error_message r;
     files := files r;
     file_upload_order := file_upload_order r;
     total_files := total_files r;
     files_completed := files_completed r;
     combined_text := v;
     combined_chunks := combined_chunks r;
     combined_summary := combined_summary r;
     suggested_questions := suggested_questions r;
     document_relationships := document_relationships r;
     current_query := current_query r;
     response := response r;
     chat_history := chat_history r;
     relevant_chunks := relevant_chunks r;
     max_chunk_size := max_chunk_size r;
     overlap_size := overlap_size r |}.

Definition set_combined_chunks (v : list Chunk.t) (r : MultiFileDocumentState) : MultiFileDocumentState :=
  {| uploaded_file_paths := uploaded_file_paths r;
     overall_status := overall_status r;
     current_step := current_step r;
     processing_progress := processing_progress r;
     error_message := error_message r;
     files := files r;
     file_upload_order := file_upload_order r;
     total_files := total_files r;
     files_completed := files_completed r;
     combined_text := combined_text r;
     combined_chunks := v;
     combined_summary := combined_summary r;
     suggested_questions := suggested_questions r;
     document_relationships := document_relationships r;
     current_query := current_query r;
     response := response r;
     chat_history := chat_history r;
     relevant_chunks := relevant_chunks r;
     max_chunk_size := max_chunk_size r;
     overlap_size := overlap_size r |}.

Definition set_combined_summary (v : option pystr) (r : MultiFileDocumentState) : MultiFileDocumentState :=
  {| uploaded_file_paths := uploaded_file_paths r;
     overall_status := overall_status r;
     current_step := current_step r;
     processing_progress := processing_progress r;
     error_message := error_message r;
     files := files r;
     file_upload_order := file_upload_order r;
     total_files := total_files r;
     files_completed := files_completed r;
     combined_text := combined_text r;
     combined_chunks := combined_chunks r;
     combined_summary := v;
     suggested_questions := suggested_questions r;
     document_relationships := document_relationships r;
     current_query := current_query r;
     response := response r;
     chat_history := chat_history r;
     relevant_chunks := relevant_chunks r;
     max_chunk_size := max_chunk_size r;
     overlap_size := overlap_size r |}.

Definition set_suggested_questions (v : list pystr) (r : MultiFileDocumentState) : MultiFileDocumentState :=
  {| uploaded_file_paths := uploaded_file_paths r;
     overall_status := overall_status r;
     current_step := current_step r;
     processing_progress := processing_progress r;
     error_message := error_message r;
     files := files r;
     file_upload_order := file_upload_order r;
     total_files := total_files r;
     files_completed := files_completed r;
     combined_text := combined_text r;
     combined_chunks := combined_chunks r;
     combined_summary := combined_summary r;
     suggested_questions := v;
     document_relationships := document_relationships r;
     current_query := current_query r;
     response := response r;
     chat_history := chat_history r;
     relevant_chunks := relevant_chunks r;
     max_chunk_size := max_chunk_size r;
     overlap_size := overlap_size r |}.

Definition set_document_relationships (v : list pystr) (r : MultiFileDocumentState) : MultiFileDocumentState :=
  {| uploaded_file_paths := uploaded_file_paths r;
     overall_status := overall_status r;
     current_step := current_step r;
     processing_progress := processing_progress r;
     error_message := error_message r;
     files := files r;
     file_upload_order := file_upload_order r;
     total_files := total_files r;
     files_completed := files_completed r;
     combined_text := combined_text r;
     combined_chunks := combined_chunks r;
     combined_summary := combined_summary r;
     suggested_questions := suggested_questions r;
     document_relationships := v;
     current_query := current_query r;
     response := response r;
     chat_history := chat_history r;
     relevant_chunks := relevant_chunks r;
     max_chunk_size := max_chunk_size r;
     overlap_size := overlap_size r |}.

Definition set_response (v : option pystr) (r : MultiFileDocumentState) : MultiFileDocumentState :=
  {| uploaded_file_paths := uploaded_file_paths r;
     overall_status := overall_status r;
     current_step := current_step r;
     processing_progress := processing_progress r;
     error_message := error_message r;
     files := files r;
     file_upload_order := file_upload_order r;
     total_files := total_files r;
     files_completed := files_completed r;
     combined_text := combined_text r;
     combined_chunks := combined_chunks r;
     combined_summary := combined_summary r;
     suggested_questions := suggested_questions r;
     document_relationships := document_relationships r;
     current_query := current_query r;
     response := v;
     chat_history := chat_history r;
     relevant_chunks := relevant_chunks r;
     max_chunk_size := max_chunk_size r;
     overlap_size := overlap_size r |}.

Definition set_chat_history (v : list ChatEntry) (r : MultiFileDocumentState) : MultiFileDocumentState :=
  {| uploaded_file_paths := uploaded_file_paths r;
     overall_status := overall_status r;
     current_step := current_step r;
     processing_progress := processing_progress r;
     error_message := error_message r;
     files := files r;
     file_upload_order := file_upload_order r;
     total_files := total_files r;
     files_completed := files_completed r;
     combined_text := combined_text r;
     combined_chunks := combined_chunks r;
     combined_summary := combined_summary r;
     suggested_questions := suggested_questions r;
     document_relationships := document_relationships r;
     current_query := current_query r;
     response := response r;
     chat_history := v;
     relevant_chunks := relevant_chunks r;
     max_chunk_size := max_chunk_size r;
     overlap_size := overlap_size r |}.

Definition set_relevant_chunks (v : list Retrieved) (r : MultiFileDocumentState) : MultiFileDocumentState :=
  {| uploaded_file_paths := uploaded_file_paths r;
     overall_status := overall_status r;
     current_step := current_step r;
     processing_progress := processing_progress r;
     error_message := error_message r;
     files := files r;
     file_upload_order := file_upload_order r;
     total_files := total_files r;
     files_completed := files_completed r;
     combined_text := combined_text r;
     combined_chunks := combined_chunks r;
     combined_summary := combined_summary r;
     suggested_questions := suggested_questions r;
     document_relationships := document_relationships r;
     current_query := current_query r;
     response := response r;
     chat_history := chat_history r;
     relevant_chunks := v;
     max_chunk_size := max_chunk_size r;
     overlap_size := overlap_size r |}.

Definition set_max_chunk_size (v : Z) (r : MultiFileDocumentState) : MultiFileDocumentState :=
  {| uploaded_file_paths := uploaded_file_paths r;
     overall_status := overall_status r;
     current_step := current_step r;
     processing_progress := processing_progress r;
     error_message := error_message r;
     files := files r;
     file_upload_order := file_upload_order r;
     total_files := total_files r;
     files_completed := files_completed r;
     combined_text := combined_text r;
     combined_chunks := combined_chunks r;
     combined_summary := combined_summary r;
     suggested_questions := suggested_questions r;
     document_relationships := document_relationships r;
     current_query := current_query r;
     response := response r;
     chat_history := chat_history r;
     relevant_chunks := relevant_chunks r;
     max_chunk_size := v;
     overlap_size := overlap_size r |}.

Definition set_overlap_size (v : Z) (r : MultiFileDocumentState) : MultiFileDocumentState :=
  {| uploaded_file_paths := uploaded_file_paths r;
     overall_status := overall_status r;
     current_step := current_step r;
     processing_progress := processing_progress r;
     error_message := error_message r;
     files := files r;
     file_upload_order := file_upload_order r;
     total_files := total_files r;
     files_completed := files_completed r;
     combined_text := combined_text r;
     combined_chunks := combined_chunks r;
     combined_summary := combined_summary r;
     suggested_questions := suggested_questions r;
     document_relationships := document_relationships r;
     current_query := current_query r;
     response := response r;
     chat_history := chat_history r;
     relevant_chunks := relevant_chunks r;
     max_chunk_size := max_chunk_size r;
     overlap_size := v |}.


Definition set_uploaded_file_paths (v : list (pystr * pystr)) (r : MultiFileDocumentState) : MultiFileDocumentState :=
  {| uploaded_file_paths := v;
     overall_status := overall_status r;
     current_step := current_step r;
     processing_progress := processing_progress r;
     error_message := error_message r;
     files := files r;
     file_upload_order := file_upload_order r;
     total_files := total_files r;
     files_completed := files_completed r;
     combined_text := combined_text r;
     combined_chunks := combined_chunks r;
     combined_summary := combined_summary r;
     suggested_questions := suggested_questions r;
     document_relationships := document_relationships r;
     current_query := current_query r;
     response := response r;
     chat_history := chat_history r;
     relevant_chunks := relevant_chunks r;
     max_chunk_size := max_chunk_size r;
     overlap_size := overlap_size r |}.

Definition set_current_query (v : option pystr) (r : MultiFileDocumentState) : MultiFileDocumentState :=
  {| uploaded_file_paths := uploaded_file_paths r;
     overall_status := overall_status r;
     current_step := current_step r;
     processing_progress := processing_progress r;
     error_message := error_message r;
     files := files r;
     file_upload_order := file_upload_order r;
     total_files := total_files r;
     files_completed := files_completed r;
     combined_text := combined_text r;
     combined_chunks := combined_chunks r;
     combined_summary := combined_summary r;
     suggested_questions := suggested_questions r;
     document_relationships := document_relationships r;
     current_query := v;
     response := response r;
     chat_history := chat_history r;
     relevant_chunks := relevant_chunks r;
     max_chunk_size := max_chunk_size r;
     overlap_size := overlap_size r |}.

(** The dict that [MultiFileDocumentState.__init__] lists, with no
    submitted files. *)
Definition initial_state : MultiFileDocumentState :=
  {| uploaded_file_paths := [];
     overall_status := IDLE;
     current_step := str "upload";
     processing_progress := [(str "overall", 0%Z)];
     error_message := None;
     files := [];
     file_upload_order := [];
     total_files := 0;
     files_completed := 0;
     combined_text := None;
     combined_chunks := [];
     combined_summary := None;
     suggested_questions := [];
     document_relationships := [];
     current_query := None;
     response := None;
     chat_history := [];
     relevant_chunks := [];
     max_chunk_size := 1000;
     overlap_size := 200 |}.

(** ** src/config/settings.py *)

Module Config.
Definition MAX_FILE_SIZE : Z := 50 * 1024 * 1024.
Definition ALLOWED_EXTENSIONS : list pystr :=
  [str ".pdf"; str ".png"; str ".jpg"; str ".jpeg"; str ".tiff"; str ".docx"].
Definition MAX_CHUNK_SIZE : Z := 1000.
Definition CHUNK_OVERLAP : Z := 200.
End Config.

(** ** src/core/file_handler.py *)

Module FileHandler.
Section FileSystem.
Variable is_word : N -> bool.
(** [Path(p).exists()] and [Path(p).stat().st_size]: [None] when the
    path does not resolve. *)
Variable stat_size : pystr -> option Z.
(** [Path(p).suffix], [str.lower], [os.path.splitext]. *)
Variable suffix : pystr -> pystr.
Variable lower : pystr -> pystr.
Variable splitext : pystr -> pystr * pystr.
(** [f"{file_size / 1024 / 1024:.1f}"], a float formatting. *)
Variable format_mb : Z -> pystr.
(** [str(self.upload_dir / name)] *)
Variable upload_dir_join : pystr -> pystr.
(** [shutil.copy2(src, dst)] followed by [dst.stat().st_size]: the size
    of the copy, or the exception either of them raises. *)
Variable copy2 : pystr -> pystr -> result Z.

Definition mem (x : pystr) (xs : list pystr) : bool :=
  existsb (pystr_eqb x) xs.

(** [validate_file] *)
Definition validate_file (file_path : pystr) (max_size : Z)
           (allowed_extensions : list pystr) : bool * pystr :=
  match stat_size file_path with
  | None => (false, str "File does not exist")
  | Some file_size =>
      if (max_size <? file_size)%Z
      then (false, str "File size (" ++ format_mb file_size
                     ++ str "MB) exceeds maximum allowed size")
      else if negb (mem (lower (suffix file_path)) allowed_extensions)
      then (false, str "File type " ++ suffix file_path ++ str " not supported")
      else (true, [])
  end.

(** [_generate_safe_filename]; [timestamp] is [str(int(time.time()))]. *)
Definition _generate_safe_filename (timestamp : pystr) (filename : pystr)
  : pystr :=
  let safe_name :=
    map (fun c => if is_word c || existsb (N.eqb c) [45; 95; 46]%N
                  then c else 95%N) filename in
  let '(name, ext) := splitext safe_name in
  name ++ str "_" ++ timestamp ++ ext.

(** [_determine_file_type] *)
Definition _determine_file_type (file_path : pystr) : pystr :=
  let extension := lower (suffix file_path) in
  if pystr_eqb extension (str ".pdf") then str "pdf"
  else if mem extension [str ".png"; str ".jpg"; str ".jpeg"; str ".tiff"; str ".bmp"]
  then str "image"
  else if pystr_eqb extension (str ".docx") then str "docx"
  else str "unknown".

(** [save_uploaded_file] *)
Definition save_uploaded_file (timestamp : pystr)
           (file_path original_filename : pystr)
  : result (pystr * pystr * Z) :=
  let safe_filename := _generate_safe_filename timestamp original_filename in
  let dest_path := upload_dir_join safe_filename in
  match copy2 file_path dest_path with
  | Raise e => Raise (str "Error saving file: " ++ e)
  | Ok file_size => Ok (dest_path, _determine_file_type dest_path, file_size)
  end.

End FileSystem.
End FileHandler.

(** ** src/agents/multi_file_processor.py *)

Module Processor.
Section Nodes.
Variable is_space : N -> bool.
Variable is_word : N -> bool.
Variable split_text : Z -> Z -> pystr -> list pystr.

Variable stat_size : pystr -> option Z.
Variable suffix : pystr -> pystr.
Variable lower : pystr -> pystr.
Variable splitext : pystr -> pystr * pystr.
Variable format_mb : Z -> pystr.
Variable upload_dir_join : pystr -> pystr.
Variable copy2 : pystr -> pystr -> result Z.

(** [str(uuid.uuid4())], [str(int(time.time()))] inside
    [save_uploaded_file] and [time.time()], each at the [i]-th turn of
    the upload loop. *)
Variable uuid4 : nat -> pystr.
Variable save_clock : nat -> pystr.
Variable upload_clock : nat -> Q.

(** [OCREngine.extract_text file_path file_type]: the text and the
    confidence, or the exception it lets through. *)
Variable extract_text : pystr -> pystr -> result (pystr * Q).

(** [int((completed_files / total_files) * 60) + 20], computed on
    floats. *)
Variable loop_progress : nat -> nat -> Z.

Definition validate_file := FileHandler.validate_file stat_size suffix lower format_mb.
Definition save_uploaded_file :=
  FileHandler.save_uploaded_file is_word suffix lower splitext upload_dir_join copy2.
Definition clean_text := TextProcessor.clean_text is_space is_word.
Definition create_chunks := TextProcessor.create_chunks is_space split_text.
Definition get_document_metadata := TextProcessor.get_document_metadata is_space.

(** The handler of lines 94-98. *)
Definition upload_failed (e : pystr) (state : MultiFileDocumentState)
  : MultiFileDocumentState :=
  set_error_message (Some (str "File upload failed: " ++ e))
    (set_overall_status ERROR state).

(** Lines 44-71 for one submitted file: the record of an admitted file;
    [None] when validation fails ([continue]) or the copy raises. *)
Definition new_file_info (i : nat) (file_path file_name : pystr)
  : option FileInfo.t :=
  let file_id := uuid4 i in
  let '(is_valid, _) :=
    validate_file file_path Config.MAX_FILE_SIZE Config.ALLOWED_EXTENSIONS in
  if negb is_valid then None
  else
    match save_uploaded_file (save_clock i) file_path file_name with
    | Raise _ => None
    | Ok (saved_path, file_type, file_size) =>
        Some (FileInfo.mk file_id file_name saved_path file_type file_size
                          (upload_clock i) UPLOADED
                          None None None None [] [] None None)
    end.

(** One turn of the loop of lines 43-82; a file that is not admitted
    leaves the state as it is. *)
Definition upload_one (i : nat) (file_path file_name : pystr)
           (state : MultiFileDocumentState) : MultiFileDocumentState :=
  match new_file_info i file_path file_name with
  | None => state
  | Some file_info =>
      let file_id := FileInfo.file_id file_info in
      set_file_upload_order (file_upload_order state ++ [file_id])
        (set_files (dict_set file_id file_info (files state)) state)
  end.

Fixpoint upload_loop (i : nat) (uploaded_files : list (pystr * pystr))
         (state : MultiFileDocumentState) : MultiFileDocumentState :=
  match uploaded_files with
  | [] => state
  | (file_path, file_name) :: rest =>
      upload_loop (S i) rest (upload_one i file_path file_name state)
  end.

(** [upload_multiple_files].  Building the [FileHandler] makes the two
    directories with [exist_ok=True] and is taken to succeed. *)
Definition upload_multiple_files (state : MultiFileDocumentState)
  : MultiFileDocumentState :=
  if status_eqb (overall_status state) SUMMARIZED then state
  else
    let state := set_current_step (str "upload")
                   (set_overall_status UPLOADING state) in
    let uploaded_files := uploaded_file_paths state in
    match uploaded_files with
    | [] => upload_failed (str "No files provided for upload") state
    | _ :: _ =>
        let state := set_files_completed 0
                       (set_total_files (length uploaded_files) state) in
        let state := set_file_upload_order [] (set_files [] state) in
        let state := upload_loop 0 uploaded_files state in
        match files state with
        | [] => upload_failed (str "No files were successfully uploaded") state
        | _ :: _ =>
            set_processing_progress [(str "overall", 20%Z)]
              (set_overall_status UPLOADED state)
        end
    end.

Definition is_complete (f : FileInfo.t) : bool :=
  status_eqb (FileInfo.processing_status f) OCR_COMPLETE.

(** The handler of lines 155-159. *)
Definition file_failed (e : pystr) (file_info : FileInfo.t) : FileInfo.t :=
  FileInfo.set_error_message (Some e)
    (FileInfo.set_processing_status ERROR file_info).

(** [process_single_file] of a processor built with [chunk_size] and
    [chunk_overlap]; the file id is passed through unchanged. *)
Definition process_single_file (chunk_size chunk_overlap : Z)
           (file_info : FileInfo.t) : FileInfo.t :=
  let file_info := FileInfo.set_processing_status PROCESSING file_info in
  match extract_text (FileInfo.file_path file_info)
                     (FileInfo.file_type file_info) with
  | Raise e => file_failed e file_info
  | Ok (raw_text, confidence) =>
      if negb (truthy (TextProcessor.strip is_space raw_text))
      then file_failed (str "No text could be extracted") file_info
      else
        let processed_text := clean_text raw_text in
        let document_chunks :=
          create_chunks chunk_size chunk_overlap processed_text in
        let metadata := get_document_metadata processed_text in
        FileInfo.set_processing_status OCR_COMPLETE
          (FileInfo.set_document_metadata metadata
            (FileInfo.set_chunk_metadata document_chunks
              (FileInfo.set_document_chunks
                 (map TextProcessor.content document_chunks)
                (FileInfo.set_text_quality_score (Some confidence)
                  (FileInfo.set_processed_text (Some processed_text)
                    (FileInfo.set_raw_text (Some raw_text) file_info))))))
  end.

(** The loop of lines 165-178 over [files.items()]. *)
Fixpoint process_files (chunk_size chunk_overlap : Z)
         (items : list (pystr * FileInfo.t)) (completed_files total_files : nat)
         (state : MultiFileDocumentState) : MultiFileDocumentState :=
  match items with
  | [] => state
  | (file_id, file_info) :: rest =>
      let updated_file_info :=
        process_single_file chunk_size chunk_overlap file_info in
      let state := set_files (dict_set file_id updated_file_info (files state))
                     state in
      let completed_files := S completed_files in
      let progress := loop_progress completed_files total_files in
      let state :=
        set_processing_progress
          (dict_set file_id
             (if is_complete updated_file_info then 100%Z else 0%Z)
             (dict_set (str "overall") progress (processing_progress state)))
          state in
      process_files chunk_size chunk_overlap rest completed_files total_files
                    state
  end.

(** The text of one file in [combined_texts]; files whose processed text
    is [None] or empty add nothing. *)
Definition file_text (file_info : FileInfo.t) : list pystr :=
  match FileInfo.processed_text file_info with
  | Some text =>
      if truthy text
      then [str "=== " ++ FileInfo.file_name file_info
              ++ str " ===" ++ [NL] ++ text]
      else []
  | None => []
  end.

(** The chunks of one file in [combined_chunks]. *)
Definition file_chunks (file_info : FileInfo.t) : list Chunk.t :=
  map (fun ic =>
         Chunk.mk (snd ic)
                  (FileInfo.file_id file_info)
                  (FileInfo.file_name file_info)
                  (FileInfo.file_type file_info)
                  (fst ic)
                  (nth_error (FileInfo.chunk_metadata file_info) (fst ic)))
      (enumerate (FileInfo.document_chunks file_info)).

(** The handler of lines 224-228. *)
Definition ocr_failed (e : pystr) (state : MultiFileDocumentState)
  : MultiFileDocumentState :=
  set_error_message (Some (str "OCR processing failed: " ++ e))
    (set_overall_status ERROR state).

Definition gate_message (failed_files : list pystr) : pystr :=
  str "All files must be successfully processed. Failed files: "
    ++ join (str ", ") failed_files.

(** [process_all_files_ocr] *)
Definition process_all_files_ocr (state : MultiFileDocumentState)
  : MultiFileDocumentState :=
  let state := set_current_step (str "ocr")
                 (set_overall_status PROCESSING state) in
  match files state with
  | [] => ocr_failed (str "No files to process") state
  | _ :: _ =>
      let state := set_overlap_size 250%Z (set_max_chunk_size 2000%Z state) in
      let total_files := length (files state) in
      let state :=
        process_files (max_chunk_size state) (overlap_size state)
                      (files state) 0 total_files state in
      let successful_files := filter is_complete (values (files state)) in
      if negb (Nat.eqb (length successful_files) total_files)
      then
        let failed_files :=
          map FileInfo.file_name
              (filter (fun f => negb (is_complete f)) (values (files state))) in
        ocr_failed (gate_message failed_files) state
      else
        let combined_texts := flat_map file_text successful_files in
        let combined_chunks := flat_map file_chunks successful_files in
        set_processing_progress
          (dict_set (str "overall") 80%Z (processing_progress state))
          (set_overall_status OCR_COMPLETE
            (set_files_completed (length successful_files)
              (set_combined_chunks combined_chunks
                (set_combined_text (Some (join [NL; NL] combined_texts))
                   state))))
  end.

End Nodes.
End Processor.

(** ** src/agents/multi_file_summarizer.py *)

Module Summarizer.
Section Nodes.
Variable is_space : N -> bool.
(** [str.upper] and [repr] (the text of a [KeyError]). *)
Variable upper : pystr -> pystr.
Variable repr : pystr -> pystr.
(** [init_chat_model(Config.MODEL_NAME)]: [Some e] when building the
    client raises [e]. *)
Variable init_chat_model : option pystr.
(** [self.llm.invoke([HumanMessage(content=prompt)]).content] *)
Variable llm_invoke : pystr -> result pystr.
(** [PromptTemplate.format] on the two templates. *)
Variable format_summary_prompt : nat -> pystr -> pystr -> pystr.
Variable format_questions_prompt : nat -> pystr -> pystr -> pystr.
(** [_parse_questions], which no statement below looks into. *)
Variable _parse_questions : pystr -> list pystr.

Definition is_complete (f : FileInfo.t) : bool :=
  status_eqb (FileInfo.processing_status f) OCR_COMPLETE.

(** The comprehension over [file_upload_order] shared by the prompts:
    [files[file_id]] raises a [KeyError] at the first unknown id. *)
Fixpoint docs_info (line : FileInfo.t -> pystr) (files : dict FileInfo.t)
         (order : list pystr) : result (list pystr) :=
  match order with
  | [] => Ok []
  | file_id :: rest =>
      match dict_get file_id files with
      | None => Raise (repr file_id)
      | Some file_info =>
          match docs_info line files rest with
          | Raise e => Raise e
          | Ok lines =>
              Ok (if is_complete file_info then line file_info :: lines
                  else lines)
          end
      end
  end.

Definition metadata_get (field : TextProcessor.DocMetadata -> nat)
           (m : option TextProcessor.DocMetadata) : pystr :=
  match m with
  | Some m => show_nat (field m)
  | None => str "Unknown"
  end.

Definition summary_line (file_info : FileInfo.t) : pystr :=
  let metadata := FileInfo.document_metadata file_info in
  str "- **" ++ FileInfo.file_name file_info ++ str "** ("
    ++ upper (FileInfo.file_type file_info) ++ str "): "
    ++ metadata_get TextProcessor.md_word_count metadata ++ str " words, "
    ++ metadata_get TextProcessor.paragraph_count metadata
    ++ str " paragraphs".

Definition question_line (file_info : FileInfo.t) : pystr :=
  str "- " ++ FileInfo.file_name file_info ++ str " ("
    ++ upper (FileInfo.file_type file_info) ++ str ")".

(** The [try] block of [generate_combined_summary]. *)
Definition combined_summary_body (state : MultiFileDocumentState)
  : result pystr :=
  match combined_text state with
  | Some ((_ :: _) as combined_text) =>
      match docs_info summary_line (files state) (file_upload_order state) with
      | Raise e => Raise e
      | Ok lines =>
          let documents_info := join [NL] lines in
          let combined_text_sample := firstn 4000 combined_text in
          let prompt := format_summary_prompt (length lines) documents_info
                                              combined_text_sample in
          match llm_invoke prompt with
          | Raise e => Raise e
          | Ok content => Ok (TextProcessor.strip is_space content)
          end
      end
  | _ => Raise (str "No combined text available for summarization")
  end.

(** [generate_combined_summary]: every exception becomes a text. *)
Definition generate_combined_summary (state : MultiFileDocumentState)
  : pystr :=
  match combined_summary_body state with
  | Ok summary => summary
  | Raise e => str "Error generating summary: " ++ e
  end.

Definition default_questions : list pystr :=
  [str "What are the main topics covered across all documents?";
   str "How do these documents relate to each other?";
   str "What are the key findings from this document collection?";
   str "Which document provides the most detailed information on [topic]?";
   str "Are there any contradictions between the documents?";
   str "What common themes appear in multiple documents?";
   str "What unique insights does each document provide?";
   str "What conclusions can be drawn from this collection?"].

(** [generate_collection_questions] *)
Definition generate_collection_questions (combined_summary : pystr)
           (state : MultiFileDocumentState) : list pystr :=
  match docs_info question_line (files state) (file_upload_order state) with
  | Raise _ => default_questions
  | Ok lines =>
      let prompt := format_questions_prompt (length lines) combined_summary
                                            (join [NL] lines) in
      match llm_invoke prompt with
      | Raise _ => default_questions
      | Ok content => _parse_questions content
      end
  end.

(** The handler of lines 210-214. *)
Definition summarization_failed (e : pystr) (state : MultiFileDocumentState)
  : MultiFileDocumentState :=
  set_error_message (Some (str "Summarization failed: " ++ e))
    (set_overall_status ERROR state).

(** [generate_multi_document_summary] *)
Definition generate_multi_document_summary (state : MultiFileDocumentState)
  : MultiFileDocumentState :=
  let state := set_current_step (str "summarize") state in
  if negb (status_eqb (overall_status state) OCR_COMPLETE)
  then summarization_failed
         (str "OCR processing must be complete before summarization") state
  else
    match init_chat_model with
    | Some e => summarization_failed e state
    | None =>
        let combined_summary := generate_combined_summary state in
        let questions := generate_collection_questions combined_summary state in
        set_processing_progress
          (dict_set (str "overall") 100%Z (processing_progress state))
          (set_overall_status SUMMARIZED
            (set_document_relationships []
              (set_suggested_questions questions
                (set_combined_summary (Some combined_summary) state))))
    end.

End Nodes.
End Summarizer.

(** ** src/agents/multi_file_qa.py *)

Module QA.

(** The literal [0.1] is the binary64 number 3602879701896397 / 2^55. *)
Definition threshold : Q := 3602879701896397 # 36028797018963968.

Section Agent.
Variable is_space : N -> bool.
Variable upper : pystr -> pystr.
Variable repr : pystr -> pystr.
Variable init_chat_model : option pystr.
Variable llm_invoke : pystr -> result pystr.
(** [self.multi_doc_qa_prompt.format(question, relevant_chunks,
    collection_summary, file_list, num_files, combined_text)] *)
Variable format_qa_prompt :
  pystr -> pystr -> option pystr -> pystr -> nat -> option pystr -> pystr.

(** The matrix of [TfidfVectorizer.fit_transform] (which also fixes the
    vocabulary), and [cosine_similarity(vectorizer.transform([query]),
    chunk_vectors).flatten()]: scikit-learn. *)
Variable Vectors : Type.
Variable fit_transform : list pystr -> result Vectors.
Variable similarities : Vectors -> pystr -> result (list Q).
(** [np.argsort] *)
Variable argsort : list Q -> list nat.

(** The two attributes of [MultiFileQAAgent] that change. *)
Record MultiFileQAAgent : Type := {
  chunk_vectors : option Vectors;
  chunks_with_metadata : option (list Chunk.t)
}.

Definition new_agent : MultiFileQAAgent :=
  {| chunk_vectors := None; chunks_with_metadata := None |}.

(** [prepare_multi_file_index]: [chunks_with_metadata] is assigned
    before the vectors are computed. *)
Definition prepare_multi_file_index (agent : MultiFileQAAgent)
           (state : MultiFileDocumentState) : MultiFileQAAgent :=
  match combined_chunks state with
  | [] => agent
  | (_ :: _) as chunks =>
      let agent := {| chunk_vectors := chunk_vectors agent;
                      chunks_with_metadata := Some chunks |} in
      match fit_transform (map Chunk.content chunks) with
      | Raise _ => agent
      | Ok vectors => {| chunk_vectors := Some vectors;
                         chunks_with_metadata := chunks_with_metadata agent |}
      end
  end.

(** [similarities[idx] > 0.1] *)
Definition above_threshold (s : Q) : bool := negb (Qle_bool s threshold).

(** The loop of lines 101-106; [None] when an index is out of range. *)
Fixpoint collect (sims : list Q) (chunks : list Chunk.t)
         (top_indices : list nat) : option (list Retrieved) :=
  match top_indices with
  | [] => Some []
  | idx :: rest =>
      match nth_error sims idx with
      | None => None
      | Some s =>
          if above_threshold s
          then match nth_error chunks idx with
               | None => None
               | Some c =>
                   match collect sims chunks rest with
                   | None => None
                   | Some l => Some ({| chunk := c; similarity_score := s |} :: l)
                   end
               end
          else collect sims chunks rest
      end
  end.

(** [list.sort(key=..., reverse=True)]: stable, equal keys keep their
    order. *)
Fixpoint insert_desc (x : Retrieved) (l : list Retrieved) : list Retrieved :=
  match l with
  | [] => [x]
  | y :: t =>
      if Qle_bool (similarity_score y) (similarity_score x)
      then x :: l
      else y :: insert_desc x t
  end.

Fixpoint sort_desc (l : list Retrieved) : list Retrieved :=
  match l with
  | [] => []
  | x :: t => insert_desc x (sort_desc t)
  end.

(** [retrieve_relevant_chunks] *)
Definition retrieve_relevant_chunks (agent : MultiFileQAAgent)
           (query : pystr) (top_k : Z) : list Retrieved :=
  match chunks_with_metadata agent, chunk_vectors agent with
  | Some ((_ :: _) as chunks), Some vectors =>
      match similarities vectors query with
      | Raise _ => []
      | Ok sims =>
          let top_indices := slice_to top_k (rev (argsort sims)) in
          match collect sims chunks top_indices with
          | None => []
          | Some relevant_chunks => sort_desc relevant_chunks
          end
      end
  | _, _ => []
  end.

Definition is_complete (f : FileInfo.t) : bool :=
  status_eqb (FileInfo.processing_status f) OCR_COMPLETE.

(** The comprehension of lines 142-144. *)
Fixpoint file_names (files : dict FileInfo.t) (order : list pystr)
  : result (list pystr) :=
  match order with
  | [] => Ok []
  | file_id :: rest =>
      match dict_get file_id files with
      | None => Raise (repr file_id)
      | Some file_info =>
          match file_names files rest with
          | Raise e => Raise e
          | Ok lines =>
              Ok (if is_complete file_info
                  then (str "- " ++ FileInfo.file_name file_info ++ str " ("
                          ++ upper (FileInfo.file_type file_info) ++ str ")")
                         :: lines
                  else lines)
          end
      end
  end.

Definition context_part (r : Retrieved) : pystr :=
  str "[From: " ++ Chunk.file_name (chunk r) ++ str "]" ++ [NL]
    ++ Chunk.content (chunk r).

Definition relevant_context (relevant_chunks : list Retrieved) : pystr :=
  let context_parts := map context_part relevant_chunks in
  let context :=
    match context_parts with
    | [] => str "No specific relevant context found."
    | _ :: _ => join [NL; NL] context_parts
    end in
  if Nat.ltb 4000 (length context)
  then firstn 4000 context ++ [NL; NL] ++ str "[Context truncated...]"
  else context.

Definition truthy_chunks (c : option (list Chunk.t)) : bool :=
  match c with Some (_ :: _) => true | _ => false end.

(** [answer_multi_document_question]: the answer and the agent, whose
    index the call may have prepared. *)
Definition answer_multi_document_question (agent : MultiFileQAAgent)
           (question : pystr) (state : MultiFileDocumentState)
  : pystr * MultiFileQAAgent :=
  let agent := if truthy_chunks (chunks_with_metadata agent) then agent
               else prepare_multi_file_index agent state in
  let relevant_chunks := retrieve_relevant_chunks agent question 6 in
  let context := relevant_context relevant_chunks in
  let apology e :=
    str "I apologize, but I encountered an error while processing your question about the document collection: " ++ e in
  match file_names (files state) (file_upload_order state) with
  | Raise e => (apology e, agent)
  | Ok names =>
      let prompt := format_qa_prompt question context (combined_summary state)
                      (join [NL] names) (length names) (combined_text state) in
      match llm_invoke prompt with
      | Raise e => (apology e, agent)
      | Ok content => (TextProcessor.strip is_space content, agent)
      end
  end.

Definition not_ready_response : pystr :=
  str "Documents are not ready for questions yet. Please wait for processing to complete.".

(** [process_multi_document_question] *)
Definition process_multi_document_question (state : MultiFileDocumentState)
  : MultiFileDocumentState :=
  match current_query state with
  | Some ((_ :: _) as current_query) =>
      if negb (status_eqb (overall_status state) SUMMARIZED)
      then set_response (Some not_ready_response) state
      else
        match init_chat_model with
        | Some e =>
            set_response
              (Some (str "I apologize, but I encountered an error while processing your question: " ++ e))
              state
        | None =>
            let '(answer, qa_agent) :=
              answer_multi_document_question new_agent current_query state in
            let relevant_chunks :=
              retrieve_relevant_chunks qa_agent current_query 5 in
            let state := set_relevant_chunks relevant_chunks
                           (set_response (Some answer) state) in
            let state :=
              set_chat_history
                (chat_history state
                   ++ [ {| role := user; entry_content := current_query |};
                        {| role := assistant; entry_content := answer |} ])
                state in
            if truthy_chunks (chunks_with_metadata qa_agent)
            then set_relevant_chunks
                   (retrieve_relevant_chunks qa_agent current_query 5) state
            else state
        end
  | _ => set_response (Some (str "No question provided.")) state
  end.

End Agent.
End QA.

(** ** The tables on ASCII

    The Unicode tables restricted to the code points below 128, where they
    are the classes of C: used to run the functions on concrete texts. *)

Module AsciiTables.
Definition is_space (c : N) : bool :=
  ((9 <=? c) && (c <=? 13) || (28 <=? c) && (c <=? 32))%N.

Definition is_word (c : N) : bool :=
  ((48 <=? c) && (c <=? 57) || (65 <=? c) && (c <=? 90)
   || (97 <=? c) && (c <=? 122) || (c =? 95))%N.
End AsciiTables.

(** * Properties *)

Unset Implicit Arguments.

(** ** Text cleaning *)

Module TextProcessorFacts.
Import TextProcessor.

Section Cleaning.
Variable is_space : N -> bool.
Variable is_word : N -> bool.

(** What the proofs use of the tables: the space is white space, white
    space is never a word character, and the four characters of the OCR
    fixes are word characters. *)
Hypothesis space_is_space : is_space SP = true.
Hypothesis space_not_word : forall c, is_space c = true -> is_word c = false.
Hypothesis word_zero : is_word ZERO = true.
Hypothesis word_one : is_word ONE = true.
Hypothesis word_O : is_word LETTER_O = true.
Hypothesis word_I : is_word LETTER_I = true.

Local Abbreviation sub_ws_from := (TextProcessor.sub_ws_from is_space).
Local Abbreviation sub_ws := (TextProcessor.sub_ws is_space).
Local Abbreviation allowed := (TextProcessor.allowed is_space is_word).
Local Abbreviation sub_special := (TextProcessor.sub_special is_space is_word).
Local Abbreviation next_is_word := (TextProcessor.next_is_word is_word).
Local Abbreviation lone_at := (TextProcessor.lone_at is_word).
Local Abbreviation sub_lone := (TextProcessor.sub_lone is_word).
Local Abbreviation lstrip := (TextProcessor.lstrip is_space).
Local Abbreviation rstrip := (TextProcessor.rstrip is_space).
Local Abbreviation strip := (TextProcessor.strip is_space).
Local Abbreviation fix_ocr := (TextProcessor._fix_common_ocr_errors is_space is_word).
Local Abbreviation clean_text := (TextProcessor.clean_text is_space is_word).

(** *** Normal forms

    Each step of [clean_text] has a set of texts it leaves alone,
    described by a boolean test on the text. *)

(** White space is single spaces only; [prev_ws] tells that the
    character before was white space. *)
Fixpoint ws_ok (prev_ws : bool) (s : pystr) : bool :=
  match s with
  | [] => true
  | c :: t =>
      if is_space c then N.eqb c SP && negb prev_ws && ws_ok true t
      else ws_ok false t
  end.

(** Some [\b d \b] matches in the text. *)
Fixpoint lone (d : N) (prev_word : bool) (s : pystr) : bool :=
  match s with
  | [] => false
  | c :: t => lone_at d prev_word c t || lone d (is_word c) t
  end.

Definition head_ok (s : pystr) : bool :=
  match s with [] => true | c :: _ => negb (is_space c) end.

(** *** The steps on their normal forms *)

Lemma sub_ws_from_fixed : forall s b,
  ws_ok b s = true -> sub_ws_from b s = s.
Proof.
  induction s as [|c t IH]; intros b H; simpl in *; [reflexivity|].
  destruct (is_space c) eqn:Ec.
  - apply andb_true_iff in H as [H Ht].
    apply andb_true_iff in H as [Hc Hb].
    apply N.eqb_eq in Hc. apply negb_true_iff in Hb. subst b c.
    now rewrite (IH true Ht).
  - now rewrite (IH false H).
Qed.

Lemma sub_special_fixed : forall s,
  forallb allowed s = true -> sub_special s = s.
Proof.
  induction s as [|c t IH]; simpl; intros H; [reflexivity|].
  apply andb_true_iff in H as [Hc Ht].
  unfold TextProcessor.sub_special in *. simpl.
  now rewrite Hc, (IH Ht).
Qed.

Lemma sub_lone_fixed : forall d r s pw,
  lone d pw s = false -> sub_lone d r pw s = s.
Proof.
  induction s as [|c t IH]; simpl; intros pw H; [reflexivity|].
  apply orb_false_iff in H as [Hc Ht].
  now rewrite Hc, (IH _ Ht).
Qed.

Lemma lstrip_fixed : forall s, head_ok s = true -> lstrip s = s.
Proof.
  intros [|c t]; simpl; [reflexivity|].
  intros H. apply negb_true_iff in H. now rewrite H.
Qed.

(** *** Each step reaches its normal form *)

Lemma ws_ok_sub_ws_from : forall s b, ws_ok b (sub_ws_from b s) = true.
Proof.
  induction s as [|c t IH]; intros b; simpl; [reflexivity|].
  destruct (is_space c) eqn:Ec.
  - destruct b; [apply IH|].
    simpl. rewrite space_is_space. simpl. apply IH.
  - simpl. rewrite Ec. apply IH.
Qed.

Lemma ws_ok_weaken : forall s, ws_ok true s = true -> ws_ok false s = true.
Proof.
  intros [|c t]; simpl; [reflexivity|].
  destruct (is_space c); [|tauto].
  rewrite andb_false_r. discriminate.
Qed.

Lemma allowed_space : allowed SP = true.
Proof.
  unfold TextProcessor.allowed. now rewrite space_is_space, orb_true_r.
Qed.

Lemma allowed_word : forall c, is_word c = true -> allowed c = true.
Proof. intros c H. unfold TextProcessor.allowed. now rewrite H. Qed.

Lemma allowed_sub_special : forall s, forallb allowed (sub_special s) = true.
Proof.
  induction s as [|c t IH]; simpl; [reflexivity|].
  fold (sub_special t). rewrite IH, andb_true_r.
  destruct (allowed c) eqn:E; [exact E | apply allowed_space].
Qed.

Lemma head_ok_lstrip : forall s, head_ok (lstrip s) = true.
Proof.
  induction s as [|c t IH]; simpl; [reflexivity|].
  destruct (is_space c) eqn:E; [exact IH|]. simpl. now rewrite E.
Qed.

Lemma rstrip_cons : forall c t,
  rstrip (c :: t) =
  if is_space c && negb (truthy (rstrip t)) then [] else c :: rstrip t.
Proof.
  intros c t. simpl. destruct (rstrip t); simpl.
  - now rewrite andb_true_r.
  - now rewrite andb_false_r.
Qed.

Lemma rstrip_idem : forall s, rstrip (rstrip s) = rstrip s.
Proof.
  induction s as [|c t IH]; [reflexivity|].
  rewrite rstrip_cons.
  destruct (is_space c && negb (truthy (rstrip t))) eqn:E; [reflexivity|].
  now rewrite rstrip_cons, IH, E.
Qed.

Lemma head_ok_rstrip : forall s, head_ok s = true -> head_ok (rstrip s) = true.
Proof.
  intros [|c t]; [reflexivity|].
  intros H. rewrite rstrip_cons. simpl in H.
  apply negb_true_iff in H. rewrite H. simpl. now rewrite H.
Qed.

(** *** White space and word boundaries *)

Lemma space_differs : forall d c,
  is_word d = true -> is_space c = true -> N.eqb c d = false.
Proof.
  intros d c Hd Hc. apply N.eqb_neq. intros ->.
  rewrite (space_not_word _ Hc) in Hd. discriminate.
Qed.

Lemma lone_at_differs : forall d pw c t,
  N.eqb c d = false -> lone_at d pw c t = false.
Proof. intros d pw c t H. unfold TextProcessor.lone_at. now rewrite H. Qed.

Lemma lone_at_head : forall d pw c t,
  lone_at d pw c t = true -> c = d.
Proof.
  intros d pw c t H. unfold TextProcessor.lone_at in H.
  apply andb_true_iff in H as [H _]. apply andb_true_iff in H as [H _].
  now apply N.eqb_eq.
Qed.

Lemma is_word_replaced : forall d r pw c t,
  is_word r = is_word d ->
  is_word (if lone_at d pw c t then r else c) = is_word c.
Proof.
  intros d r pw c t Hr. destruct (lone_at d pw c t) eqn:E; [|reflexivity].
  apply lone_at_head in E. now subst.
Qed.

Lemma next_is_word_sub_lone : forall d r pw t,
  is_word r = is_word d ->
  next_is_word (sub_lone d r pw t) = next_is_word t.
Proof.
  intros d r pw [|c t] Hr; simpl; [reflexivity|].
  now apply is_word_replaced.
Qed.

Lemma next_is_word_sub_ws : forall t,
  next_is_word (sub_ws_from false t) = next_is_word t.
Proof.
  intros [|c t]; simpl; [reflexivity|].
  destruct (is_space c) eqn:E; simpl; [|reflexivity].
  now rewrite (space_not_word _ E), (space_not_word _ space_is_space).
Qed.

Lemma next_is_word_rstrip : forall t,
  next_is_word (rstrip t) = next_is_word t.
Proof.
  intros [|c t]; [reflexivity|].
  rewrite rstrip_cons.
  destruct (is_space c && negb (truthy (rstrip t))) eqn:E; [|reflexivity].
  apply andb_true_iff in E as [E _]. simpl. now rewrite (space_not_word _ E).
Qed.

(** *** The OCR fixes leave no match behind, and the later steps make
    no new one *)

Lemma lone_sub_lone_same : forall d r,
  N.eqb r d = false -> is_word r = is_word d ->
  forall s pw, lone d pw (sub_lone d r pw s) = false.
Proof.
  intros d r Hne Hr. induction s as [|c t IH]; intros pw; simpl; [reflexivity|].
  rewrite (is_word_replaced d r pw c t Hr), IH, orb_false_r.
  unfold TextProcessor.lone_at at 1.
  rewrite (next_is_word_sub_lone d r _ _ Hr), (is_word_replaced d r pw c t Hr).
  destruct (lone_at d pw c t) eqn:E.
  - now rewrite Hne.
  - exact E.
Qed.

Lemma lone_sub_lone_other : forall d d' r',
  N.eqb d' d = false -> N.eqb r' d = false -> is_word r' = is_word d' ->
  forall s pw, lone d pw (sub_lone d' r' pw s) = lone d pw s.
Proof.
  intros d d' r' Hd Hr Hw. induction s as [|c t IH]; intros pw; simpl;
    [reflexivity|].
  rewrite (is_word_replaced d' r' pw c t Hw), IH. f_equal.
  destruct (lone_at d' pw c t) eqn:E.
  - apply lone_at_head in E. subst c.
    now rewrite !lone_at_differs.
  - unfold TextProcessor.lone_at.
    now rewrite (next_is_word_sub_lone d' r' _ _ Hw).
Qed.

Lemma lone_sub_ws_from : forall d, is_word d = true ->
  forall s b pw, (b = true -> pw = false) ->
  lone d pw (sub_ws_from b s) = lone d pw s.
Proof.
  intros d Hd. induction s as [|c t IH]; intros b pw Hb; simpl; [reflexivity|].
  destruct (is_space c) eqn:Ec.
  - rewrite (lone_at_differs d pw c t (space_differs d c Hd Ec)).
    rewrite (space_not_word _ Ec). simpl.
    destruct b.
    + rewrite (Hb eq_refl). now apply IH.
    + simpl.
      rewrite (lone_at_differs d pw SP _ (space_differs d SP Hd space_is_space)).
      rewrite (space_not_word _ space_is_space). simpl. now apply IH.
  - simpl. rewrite IH by discriminate. f_equal.
    unfold TextProcessor.lone_at. now rewrite next_is_word_sub_ws.
Qed.

Lemma lone_lstrip : forall d, is_word d = true ->
  forall s, lone d false (lstrip s) = lone d false s.
Proof.
  intros d Hd. induction s as [|c t IH]; simpl; [reflexivity|].
  destruct (is_space c) eqn:Ec; [|reflexivity].
  rewrite (lone_at_differs d false c t (space_differs d c Hd Ec)).
  now rewrite (space_not_word _ Ec).
Qed.

Lemma lone_rstrip : forall d, is_word d = true ->
  forall s pw, lone d pw (rstrip s) = lone d pw s.
Proof.
  intros d Hd. induction s as [|c t IH]; intros pw; [reflexivity|].
  rewrite rstrip_cons.
  destruct (is_space c && negb (truthy (rstrip t))) eqn:E.
  - apply andb_true_iff in E as [Ec Et]. simpl.
    rewrite (lone_at_differs d pw c t (space_differs d c Hd Ec)). simpl.
    rewrite <- IH. destruct (rstrip t); [reflexivity|discriminate].
  - simpl. rewrite IH. f_equal.
    unfold TextProcessor.lone_at. now rewrite next_is_word_rstrip.
Qed.

(** *** The later steps keep the earlier normal forms *)

Lemma allowed_sub_lone : forall d r, allowed r = true ->
  forall s pw, forallb allowed s = true ->
  forallb allowed (sub_lone d r pw s) = true.
Proof.
  intros d r Hr. induction s as [|c t IH]; intros pw H; simpl in *;
    [reflexivity|].
  apply andb_true_iff in H as [Hc Ht]. rewrite (IH _ Ht), andb_true_r.
  now destruct (lone_at d pw c t).
Qed.

Lemma allowed_sub_ws_from : forall s b,
  forallb allowed s = true -> forallb allowed (sub_ws_from b s) = true.
Proof.
  induction s as [|c t IH]; intros b H; simpl in *; [reflexivity|].
  apply andb_true_iff in H as [Hc Ht].
  destruct (is_space c); [destruct b|]; simpl;
    rewrite ?allowed_space, ?Hc; simpl; now apply IH.
Qed.

Lemma allowed_lstrip : forall s,
  forallb allowed s = true -> forallb allowed (lstrip s) = true.
Proof.
  induction s as [|c t IH]; intros H; simpl in *; [reflexivity|].
  destruct (is_space c); [|exact H].
  apply andb_true_iff in H as [_ Ht]. now apply IH.
Qed.

Lemma allowed_rstrip : forall s,
  forallb allowed s = true -> forallb allowed (rstrip s) = true.
Proof.
  induction s as [|c t IH]; intros H; [reflexivity|].
  rewrite rstrip_cons. simpl in H. apply andb_true_iff in H as [Hc Ht].
  destruct (is_space c && negb (truthy (rstrip t))); [reflexivity|].
  simpl. now rewrite Hc, (IH Ht).
Qed.

Lemma ws_ok_lstrip : forall s b,
  ws_ok b s = true -> ws_ok false (lstrip s) = true.
Proof.
  induction s as [|c t IH]; intros b H; simpl in *; [reflexivity|].
  destruct (is_space c) eqn:Ec.
  - apply andb_true_iff in H as [_ Ht]. now apply (IH true).
  - simpl. now rewrite Ec.
Qed.

Lemma ws_ok_rstrip : forall s b,
  ws_ok b s = true -> ws_ok b (rstrip s) = true.
Proof.
  induction s as [|c t IH]; intros b H; [reflexivity|].
  rewrite rstrip_cons.
  destruct (is_space c && negb (truthy (rstrip t))); [reflexivity|].
  simpl in *. destruct (is_space c).
  - apply andb_true_iff in H as [H Ht]. now rewrite H, (IH _ Ht).
  - now apply IH.
Qed.

(** *** The normal form of [clean_text] *)

Record normal (y : pystr) : Prop := {
  normal_ws : ws_ok false y = true;
  normal_allowed : forallb allowed y = true;
  normal_zero : lone ZERO false y = false;
  normal_one : lone ONE false y = false;
  normal_head : head_ok y = true;
  normal_tail : rstrip y = y
}.

Lemma clean_text_normal : forall x, normal (clean_text x).
Proof.
  intros x. unfold TextProcessor.clean_text.
  destruct (truthy x); [|now constructor].
  unfold TextProcessor.strip, TextProcessor._fix_common_ocr_errors,
    TextProcessor.sub_ws.
  set (s2 := sub_special (sub_ws_from false x)).
  constructor.
  - apply ws_ok_rstrip, (ws_ok_lstrip _ false), ws_ok_sub_ws_from.
  - apply allowed_rstrip, allowed_lstrip, allowed_sub_ws_from.
    apply allowed_sub_lone; [now apply allowed_word|].
    apply allowed_sub_lone; [now apply allowed_word|].
    apply allowed_sub_special.
  - rewrite lone_rstrip, lone_lstrip, lone_sub_ws_from by (auto; discriminate).
    rewrite lone_sub_lone_other by (reflexivity || congruence).
    apply lone_sub_lone_same; [reflexivity | congruence].
  - rewrite lone_rstrip, lone_lstrip, lone_sub_ws_from by (auto; discriminate).
    apply lone_sub_lone_same; [reflexivity | congruence].
  - apply head_ok_rstrip, head_ok_lstrip.
  - apply rstrip_idem.
Qed.

Lemma clean_text_fixed : forall y, normal y -> clean_text y = y.
Proof.
  intros y [Hws Hal H0 H1 Hh Ht]. unfold TextProcessor.clean_text.
  destruct y as [|c t]; [reflexivity|]. simpl truthy. cbv iota.
  unfold TextProcessor.strip, TextProcessor._fix_common_ocr_errors,
    TextProcessor.sub_ws.
  rewrite (sub_ws_from_fixed _ _ Hws), (sub_special_fixed _ Hal).
  rewrite (sub_lone_fixed _ LETTER_O _ _ H0), (sub_lone_fixed _ LETTER_I _ _ H1).
  now rewrite (sub_ws_from_fixed _ _ Hws), (lstrip_fixed _ Hh).
Qed.

(** C9.  Cleaning is idempotent: for every text [x],
    [clean_text (clean_text x)] is [clean_text x], whatever the Unicode
    tables are, as long as the space is white space, white space is
    disjoint from the word characters and [0], [1], [O], [I] are word
    characters. *)
Theorem clean_text_idempotent : forall x,
  clean_text (clean_text x) = clean_text x.
Proof. intros x. apply clean_text_fixed, clean_text_normal. Qed.

End Cleaning.

(** [create_chunks] hands on what the splitter returns, chunk by chunk:
    where the chunks begin and end is decided in the library. *)
Lemma create_chunks_contents :
  forall is_space split_text chunk_size chunk_overlap text,
  text <> [] ->
  map content (create_chunks is_space split_text chunk_size chunk_overlap text)
  = split_text chunk_size chunk_overlap text.
Proof.
  intros is_space split_text cs co text Hne. unfold create_chunks.
  destruct text as [|c t]; [contradiction|]. cbn [truthy].
  unfold enumerate. generalize 0.
  induction (split_text cs co (c :: t)) as [|x l IH]; intros n; simpl;
    [reflexivity|].
  now rewrite IH.
Qed.

End TextProcessorFacts.

Module TextProcessorChecks.
Import TextProcessor.

Definition clean := clean_text AsciiTables.is_space AsciiTables.is_word.

Lemma ascii_space_not_word : forall c,
  AsciiTables.is_space c = true -> AsciiTables.is_word c = false.
Proof.
  intros c H. unfold AsciiTables.is_space, AsciiTables.is_word in *.
  rewrite orb_true_iff, !andb_true_iff, !N.leb_le in H.
  rewrite !orb_false_iff, !andb_false_iff, !N.leb_gt, N.eqb_neq. lia.
Qed.

Example clean_page : clean (str "  Page 1 of 0 #  10% done ") = str "Page I of O 10 done".
Proof. vm_compute. reflexivity. Qed.
Example metadata_two_paragraphs :
  get_document_metadata AsciiTables.is_space
    (str "Hello world. How are you?" ++ [NL; NL] ++ str "Fine!!")
  = Some {| md_word_count := 6; character_count := 33; sentence_count := 3;
            paragraph_count := 2; estimated_reading_time := 1 |}.
Proof. vm_compute. reflexivity. Qed.

Example chunks_of_a_split :
  create_chunks AsciiTables.is_space
                (fun _ _ _ => [str "one two"; str "two three"]) 2000 250
                (str "one two three")
  = [ {| content := str "one two"; chunk_id := 0; word_count := 2;
         char_count := 7 |};
      {| content := str "two three"; chunk_id := 1; word_count := 2;
         char_count := 9 |} ].
Proof. vm_compute. reflexivity. Qed.

Lemma clean_text_idempotent_witness :
  clean (clean (str "  Page 1 of 0 #  10% done ")) =
  clean (str "  Page 1 of 0 #  10% done ").
Proof.
  apply (TextProcessorFacts.clean_text_idempotent
           AsciiTables.is_space AsciiTables.is_word).
  - reflexivity.
  - exact ascii_space_not_word.
  - reflexivity.
  - reflexivity.
  - reflexivity.
  - reflexivity.
Defined.
End TextProcessorChecks.

(** ** Dictionaries *)

Lemma pystr_eqb_eq : forall a b, pystr_eqb a b = true <-> a = b.
Proof.
  induction a as [|x a IH]; intros [|y b]; simpl; split; intros H;
    try reflexivity; try discriminate.
  - apply andb_true_iff in H as [Hx Ha].
    apply N.eqb_eq in Hx. apply IH in Ha. now subst.
  - injection H as -> ->. rewrite N.eqb_refl. now apply IH.
Qed.

Lemma pystr_eqb_refl : forall a, pystr_eqb a a = true.
Proof. intros a. now apply pystr_eqb_eq. Qed.

Lemma pystr_eqb_neq : forall a b, a <> b -> pystr_eqb a b = false.
Proof.
  intros a b H. destruct (pystr_eqb a b) eqn:E; [|reflexivity].
  now apply pystr_eqb_eq in E.
Qed.

Section DictFacts.
Variable V : Type.
Implicit Types (d : dict V) (k : pystr) (v : V).

Lemma dict_set_keys : forall d k v,
  In k (keys d) -> keys (dict_set k v d) = keys d.
Proof.
  induction d as [|[k' v'] d IH]; intros k v H; simpl in *; [contradiction|].
  destruct (pystr_eqb k k') eqn:E; simpl; [reflexivity|].
  f_equal. apply IH. destruct H as [H|H]; [|exact H].
  subst k'. now rewrite pystr_eqb_refl in E.
Qed.

Lemma dict_set_fresh : forall d k v,
  ~ In k (keys d) -> dict_set k v d = d ++ [(k, v)].
Proof.
  induction d as [|[k' v'] d IH]; intros k v H; simpl in *; [reflexivity|].
  rewrite pystr_eqb_neq by (intros ->; apply H; now left).
  f_equal. apply IH. intros Hin. apply H. now right.
Qed.

Lemma dict_set_middle : forall pre k v0 v rest,
  ~ In k (keys pre) ->
  dict_set k v (pre ++ (k, v0) :: rest) = pre ++ (k, v) :: rest.
Proof.
  induction pre as [|[k' v'] pre IH]; intros k v0 v rest H; simpl in *.
  - now rewrite pystr_eqb_refl.
  - rewrite pystr_eqb_neq by (intros ->; apply H; now left).
    f_equal. apply IH. intros Hin. apply H. now right.
Qed.

Lemma dict_get_set_same : forall d k v, dict_get k (dict_set k v d) = Some v.
Proof.
  induction d as [|[k' v'] d IH]; intros k v; simpl.
  - now rewrite pystr_eqb_refl.
  - destruct (pystr_eqb k k') eqn:E; simpl; rewrite E; [reflexivity|apply IH].
Qed.

Lemma values_length : forall d, length (values d) = length d.
Proof. intros d. apply length_map. Qed.
End DictFacts.

(** ** The extraction stage *)

Module ProcessorFacts.
Import Processor.

Section Extraction.
Variable is_space : N -> bool.
Variable is_word : N -> bool.
Variable split_text : Z -> Z -> pystr -> list pystr.
Variable extract_text : pystr -> pystr -> result (pystr * Q).
Variable loop_progress : nat -> nat -> Z.

Local Abbreviation process_single_file :=
  (Processor.process_single_file is_space is_word split_text extract_text).
Local Abbreviation process_files :=
  (Processor.process_files is_space is_word split_text extract_text
                           loop_progress).
Local Abbreviation process_all_files_ocr :=
  (Processor.process_all_files_ocr is_space is_word split_text extract_text
                                   loop_progress).

(** The state on which the loop starts, and the state it ends on. *)
Definition before_loop (st : MultiFileDocumentState) : MultiFileDocumentState :=
  set_overlap_size 250%Z
    (set_max_chunk_size 2000%Z
      (set_current_step (str "ocr") (set_overall_status PROCESSING st))).

Definition after_loop (st : MultiFileDocumentState) : MultiFileDocumentState :=
  process_files 2000 250 (files st) 0 (length (files st)) (before_loop st).

Definition failed_names (st : MultiFileDocumentState) : list pystr :=
  map FileInfo.file_name
      (filter (fun f => negb (is_complete f)) (values (files st))).

(** The state the stage returns when the gate lets it through. *)
Definition gate_passed (st : MultiFileDocumentState) : MultiFileDocumentState :=
  let successful_files := filter is_complete (values (files st)) in
  set_processing_progress
    (dict_set (str "overall") 80%Z (processing_progress st))
    (set_overall_status OCR_COMPLETE
      (set_files_completed (length successful_files)
        (set_combined_chunks (flat_map file_chunks successful_files)
          (set_combined_text
             (Some (join [NL; NL] (flat_map file_text successful_files)))
             st)))).

Lemma process_all_files_ocr_empty : forall st,
  files st = [] ->
  process_all_files_ocr st =
  ocr_failed (str "No files to process")
    (set_current_step (str "ocr") (set_overall_status PROCESSING st)).
Proof.
  intros st H. unfold Processor.process_all_files_ocr.
  cbn [files set_current_step set_overall_status]. now rewrite H.
Qed.

Lemma process_all_files_ocr_nonempty : forall st,
  files st <> [] ->
  process_all_files_ocr st =
  if Nat.eqb (length (filter is_complete (values (files (after_loop st)))))
             (length (files st))
  then gate_passed (after_loop st)
  else ocr_failed (gate_message (failed_names (after_loop st))) (after_loop st).
Proof.
  intros st H. unfold Processor.process_all_files_ocr.
  unfold after_loop, before_loop, gate_passed, failed_names.
  cbn [files set_current_step set_overall_status].
  destruct (files st) as [|kv rest] eqn:E; [contradiction|].
  rewrite <- E.
  cbn [files max_chunk_size overlap_size set_overlap_size set_max_chunk_size
       set_current_step set_overall_status].
  match goal with |- context [Nat.eqb ?a ?b] => destruct (Nat.eqb a b) end;
    reflexivity.
Qed.

(** The loop rewrites values of keys that are present: the keys stay. *)
Lemma process_files_keys : forall cs co items k n st,
  (forall kv, In kv items -> In (fst kv) (keys (files st))) ->
  keys (files (process_files cs co items k n st)) = keys (files st).
Proof.
  induction items as [|[id fi] rest IH]; intros k n st H; simpl;
    [reflexivity|].
  rewrite IH; cbn [files set_processing_progress set_files].
  - apply dict_set_keys. apply (H (id, fi)). now left.
  - intros kv Hkv. rewrite dict_set_keys.
    + apply H. now right.
    + apply (H (id, fi)). now left.
Qed.

Lemma after_loop_length : forall st,
  length (files (after_loop st)) = length (files st).
Proof.
  intros st. unfold after_loop.
  rewrite <- (length_map fst (files (process_files _ _ _ _ _ _))).
  fold (keys (files (process_files 2000 250 (files st) 0 (length (files st))
                                   (before_loop st)))).
  rewrite process_files_keys.
  - unfold keys. now rewrite length_map.
  - intros kv Hkv. unfold keys. now apply in_map.
Qed.

Lemma filter_all_length : forall (A : Type) (p : A -> bool) (l : list A),
  length (filter p l) = length l <-> forallb p l = true.
Proof.
  intros A p. induction l as [|x l IH]; simpl; [tauto|].
  destruct (p x) eqn:E; simpl.
  - rewrite <- IH. lia.
  - pose proof (filter_length_le p l). split; [lia|discriminate].
Qed.

Lemma gate_decides : forall st,
  Nat.eqb (length (filter is_complete (values (files (after_loop st)))))
          (length (files st))
  = forallb is_complete (values (files (after_loop st))).
Proof.
  intros st. rewrite <- after_loop_length, <- (values_length _ (files _)).
  destruct (forallb _ _) eqn:E.
  - apply Nat.eqb_eq. now apply filter_all_length.
  - apply Nat.eqb_neq. intros H. apply filter_all_length in H. congruence.
Qed.

Lemma status_eqb_eq : forall a b, status_eqb a b = true <-> a = b.
Proof. intros [] []; simpl; split; congruence. Qed.

Lemma is_complete_iff : forall f,
  is_complete f = true <-> FileInfo.processing_status f = OCR_COMPLETE.
Proof. intros f. apply status_eqb_eq. Qed.

Lemma filter_all : forall (A : Type) (p : A -> bool) (l : list A),
  forallb p l = true -> filter p l = l.
Proof.
  intros A p. induction l as [|x l IH]; simpl; [reflexivity|].
  intros H. apply andb_true_iff in H as [Hx Hl]. now rewrite Hx, IH.
Qed.


(** *** What the gate lets through *)




(** The chunk of [combined_chunks] made of the [i]-th chunk of [f]. *)
Definition tagged (f : FileInfo.t) (i : nat) (text : pystr) : Chunk.t :=
  Chunk.mk text (FileInfo.file_id f) (FileInfo.file_name f)
           (FileInfo.file_type f) i
           (nth_error (FileInfo.chunk_metadata f) i).


Lemma in_enumerate_from : forall (A : Type) (l : list A) k i x,
  In (i, x) (enumerate_from k l) <->
  k <= i /\ nth_error l (i - k) = Some x.
Proof.
  intros A. induction l as [|y l IH]; intros k i x; simpl.
  - split; [contradiction|]. intros [_ H]. now destruct (i - k).
  - rewrite IH. split.
    + intros [H|[Hle H]].
      * injection H as -> ->. rewrite Nat.sub_diag. now split.
      * split; [lia|]. replace (i - k) with (S (i - S k)) by lia. exact H.
    + intros [Hle H]. destruct (i - k) as [|n] eqn:E.
      * left. injection H as ->. f_equal. lia.
      * right. split; [lia|]. now replace (i - S k) with n by lia.
Qed.

Lemma in_file_chunks : forall f c,
  In c (file_chunks f) <->
  exists i text, nth_error (FileInfo.document_chunks f) i = Some text
                 /\ c = tagged f i text.
Proof.
  intros f c. unfold file_chunks, enumerate. rewrite in_map_iff. split.
  - intros [[i text] [Hc Hin]]. apply in_enumerate_from in Hin as [_ Hin].
    rewrite Nat.sub_0_r in Hin. exists i, text. now split.
  - intros [i [text [Hin Hc]]]. exists (i, text). split; [now subst|].
    apply in_enumerate_from. rewrite Nat.sub_0_r. split; [lia|exact Hin].
Qed.


(** *** The chunking configuration *)

Lemma process_files_max_chunk_size : forall cs co items k n st,
  max_chunk_size (process_files cs co items k n st) = max_chunk_size st.
Proof.
  induction items as [|[id fi] rest IH]; intros k n st; simpl; [reflexivity|].
  now rewrite IH.
Qed.

Lemma process_files_overlap_size : forall cs co items k n st,
  overlap_size (process_files cs co items k n st) = overlap_size st.
Proof.
  induction items as [|[id fi] rest IH]; intros k n st; simpl; [reflexivity|].
  now rewrite IH.
Qed.

Definition process_entry (cs co : Z) (kv : pystr * FileInfo.t)
  : pystr * FileInfo.t :=
  (fst kv, process_single_file cs co (snd kv)).

(** With distinct keys, the loop maps [process_single_file] over the
    values, entry by entry. *)
Lemma process_files_files : forall cs co items pre k n st,
  files st = pre ++ items ->
  NoDup (keys (pre ++ items)) ->
  files (process_files cs co items k n st)
  = pre ++ map (process_entry cs co) items.
Proof.
  induction items as [|[id fi] rest IH]; intros pre k n st Hf Hnd; simpl.
  - now rewrite Hf.
  - assert (Hfresh : ~ In id (keys pre)).
    { unfold keys in *. rewrite map_app in Hnd. simpl in Hnd.
      apply NoDup_remove_2 in Hnd. intros H. apply Hnd, in_or_app. now left. }
    rewrite (IH (pre ++ [(id, process_single_file cs co fi)])).
    + now rewrite <- app_assoc.
    + cbn [files set_processing_progress set_files].
      rewrite Hf, dict_set_middle by assumption. now rewrite <- app_assoc.
    + rewrite <- app_assoc. simpl.
      unfold keys in *. rewrite map_app in *. exact Hnd.
Qed.

(** A file that the processor completes has, as chunks, what the
    splitter built with [chunk_size] and [chunk_overlap] returns on the
    processed text of the file. *)
Lemma process_single_file_chunks : forall cs co f0 text,
  FileInfo.processing_status (process_single_file cs co f0) = OCR_COMPLETE ->
  FileInfo.processed_text (process_single_file cs co f0) = Some text ->
  text <> [] ->
  FileInfo.document_chunks (process_single_file cs co f0)
  = split_text cs co text.
Proof.
  intros cs co f0 text. unfold Processor.process_single_file.
  destruct (extract_text _ _) as [[raw confidence]|e]; [|discriminate].
  destruct (truthy (TextProcessor.strip is_space raw)); cbn [negb];
    [|discriminate].
  intros _ [= <-] Hne.
  now apply TextProcessorFacts.create_chunks_contents.
Qed.

(** C10, as the code has it.  When the batch has files the stage sets
    [max_chunk_size] to 2000 and [overlap_size] to 250 whatever they
    were, and every file goes through a text processor built with these
    two values: the chunks of every file that ends [ocr_complete] are
    what the splitter returns when it is called with 2000 and 250 on the
    processed text, so the defaults 1000 and 200 of [Config] take no
    part.  When the batch has no file the stage raises before the two
    assignments: it ends in [error] with the text [No files to process]
    and the two sizes are as they were. *)
Theorem extraction_overrides_chunk_config : forall st,
  NoDup (keys (files st)) ->
  let st' := process_all_files_ocr st in
  (files st <> [] ->
   max_chunk_size st' = 2000%Z
   /\ overlap_size st' = 250%Z
   /\ files st' = map (process_entry 2000 250) (files st)
   /\ Forall (fun f =>
                FileInfo.processing_status f = OCR_COMPLETE ->
                forall text,
                  FileInfo.processed_text f = Some text ->
                  text <> [] ->
                  FileInfo.document_chunks f = split_text 2000 250 text)
             (values (files st')))
  /\ (files st = [] ->
      overall_status st' = ERROR
      /\ error_message st' = Some (str "OCR processing failed: No files to process")
      /\ max_chunk_size st' = max_chunk_size st
      /\ overlap_size st' = overlap_size st).
Proof.
  intros st Hnd st'. subst st'. split.
  - intros Hne.
    rewrite process_all_files_ocr_nonempty by assumption.
    assert (Hfiles : files (after_loop st)
                     = map (process_entry 2000 250) (files st)).
    { unfold after_loop. now rewrite (process_files_files _ _ _ []). }
    pose proof (process_files_max_chunk_size 2000 250 (files st) 0
                  (length (files st)) (before_loop st)) as H1.
    pose proof (process_files_overlap_size 2000 250 (files st) 0
                  (length (files st)) (before_loop st)) as H2.
    fold (after_loop st) in H1, H2.
    assert (Hchunks :
              Forall (fun f =>
                        FileInfo.processing_status f = OCR_COMPLETE ->
                        forall text,
                          FileInfo.processed_text f = Some text ->
                          text <> [] ->
                          FileInfo.document_chunks f = split_text 2000 250 text)
                     (values (map (process_entry 2000 250) (files st)))).
    { apply Forall_forall. intros f Hin. unfold values in Hin.
      rewrite map_map in Hin. apply in_map_iff in Hin as [[id f0] [<- _]].
      unfold process_entry. cbn [fst snd].
      intros Hs text. now apply process_single_file_chunks. }
    destruct (Nat.eqb _ _); unfold gate_passed, ocr_failed;
      cbn [max_chunk_size overlap_size files set_processing_progress
           set_overall_status set_files_completed set_combined_chunks
           set_combined_text set_error_message];
      rewrite H1, H2, Hfiles; now repeat split.
  - intros Hempty. rewrite process_all_files_ocr_empty by assumption.
    now repeat split.
Qed.

End Extraction.
(** *** The upload stage *)

Section Upload.
Variable is_word : N -> bool.
Variable stat_size : pystr -> option Z.
Variable suffix : pystr -> pystr.
Variable lower : pystr -> pystr.
Variable splitext : pystr -> pystr * pystr.
Variable format_mb : Z -> pystr.
Variable upload_dir_join : pystr -> pystr.
Variable copy2 : pystr -> pystr -> result Z.
Variable uuid4 : nat -> pystr.
Variable save_clock : nat -> pystr.
Variable upload_clock : nat -> Q.

(** Two calls of [uuid4] never give the same identifier. *)
Hypothesis uuid4_fresh : forall i j, uuid4 i = uuid4 j -> i = j.

Local Abbreviation validate_file :=
  (Processor.validate_file stat_size suffix lower format_mb).
Local Abbreviation new_file_info :=
  (Processor.new_file_info is_word stat_size suffix lower splitext format_mb
                           upload_dir_join copy2 uuid4 save_clock upload_clock).
Local Abbreviation upload_one :=
  (Processor.upload_one is_word stat_size suffix lower splitext format_mb
                        upload_dir_join copy2 uuid4 save_clock upload_clock).
Local Abbreviation upload_loop :=
  (Processor.upload_loop is_word stat_size suffix lower splitext format_mb
                         upload_dir_join copy2 uuid4 save_clock upload_clock).
Local Abbreviation upload_multiple_files :=
  (Processor.upload_multiple_files is_word stat_size suffix lower splitext
                                   format_mb upload_dir_join copy2 uuid4
                                   save_clock upload_clock).

(** The records of the submitted files that are admitted, the [i]-th
    turn of the loop taking the first of [items]: each file stands or
    falls by itself. *)
Fixpoint admitted_from (i : nat) (items : list (pystr * pystr))
  : dict FileInfo.t :=
  match items with
  | [] => []
  | (file_path, file_name) :: rest =>
      match new_file_info i file_path file_name with
      | Some file_info => (uuid4 i, file_info) :: admitted_from (S i) rest
      | None => admitted_from (S i) rest
      end
  end.

Lemma new_file_info_id : forall i p n fi,
  new_file_info i p n = Some fi -> FileInfo.file_id fi = uuid4 i.
Proof.
  intros i p n fi. unfold Processor.new_file_info.
  destruct (Processor.validate_file _ _ _ _ _ _ _) as [[|] msg]; simpl;
    [|discriminate].
  destruct (Processor.save_uploaded_file _ _ _ _ _ _ _ _ _)
    as [[[saved ftype] fsize]|e]; [|discriminate].
  now intros [= <-].
Qed.

Lemma invalid_file_excluded : forall i p n,
  fst (validate_file p Config.MAX_FILE_SIZE Config.ALLOWED_EXTENSIONS) = false ->
  new_file_info i p n = None.
Proof.
  intros i p n H. unfold Processor.new_file_info.
  destruct (Processor.validate_file _ _ _ _ _ _ _) as [valid msg].
  simpl in H. now subst valid.
Qed.

Lemma upload_loop_files : forall items i st,
  (forall k, In k (keys (files st)) -> exists j, j < i /\ k = uuid4 j) ->
  files (upload_loop i items st) = files st ++ admitted_from i items
  /\ file_upload_order (upload_loop i items st)
     = file_upload_order st ++ keys (admitted_from i items).
Proof.
  induction items as [|[p n] rest IH]; intros i st Hinv.
  - simpl. now rewrite !app_nil_r.
  - cbn [Processor.upload_loop admitted_from]. unfold Processor.upload_one.
    destruct (new_file_info i p n) as [fi|] eqn:E.
    + rewrite (new_file_info_id _ _ _ _ E).
      assert (Hfresh : ~ In (uuid4 i) (keys (files st))).
      { intros Hin. destruct (Hinv _ Hin) as [j [Hj Heq]].
        apply uuid4_fresh in Heq. lia. }
      destruct (IH (S i)
                   (set_file_upload_order (file_upload_order st ++ [uuid4 i])
                      (set_files (dict_set (uuid4 i) fi (files st)) st)))
        as [H1 H2].
      * cbn [files set_file_upload_order set_files].
        rewrite dict_set_fresh by assumption.
        intros k Hk. unfold keys in Hk. rewrite map_app in Hk.
        apply in_app_or in Hk as [Hk|[<-|[]]].
        -- destruct (Hinv _ Hk) as [j [Hj Heq]]. exists j. split; [lia|exact Heq].
        -- exists i. split; [lia|reflexivity].
      * rewrite H1, H2. cbn [files file_upload_order set_file_upload_order set_files keys map].
        rewrite dict_set_fresh by assumption.
        now rewrite <- !app_assoc.
    + apply IH. intros k Hk. destruct (Hinv _ Hk) as [j [Hj Heq]].
      exists j. split; [lia|exact Heq].
Qed.

(** C4.  The upload stage, entered in a state that is not [summarized]:
    a file that fails validation gets no record; the records kept are
    those of the submitted files that are admitted, each decided by
    itself and in the order of submission; the stage ends in [error]
    exactly when no file was admitted, and with at least one admitted
    file it ends in [uploaded] with [progress.overall = 20]. *)
Theorem upload_isolates_invalid_files : forall st,
  overall_status st <> SUMMARIZED ->
  let st' := upload_multiple_files st in
  let admitted := admitted_from 0 (uploaded_file_paths st) in
  (forall i p n,
      fst (validate_file p Config.MAX_FILE_SIZE Config.ALLOWED_EXTENSIONS)
      = false ->
      new_file_info i p n = None)
  /\ (uploaded_file_paths st <> [] ->
      files st' = admitted /\ file_upload_order st' = keys admitted)
  /\ (overall_status st' = ERROR <-> admitted = [])
  /\ (admitted <> [] ->
      overall_status st' = UPLOADED
      /\ processing_progress st' = [(str "overall", 20%Z)]).
Proof.
  intros st Hst st' admitted. split; [exact invalid_file_excluded|].
  subst st' admitted. unfold Processor.upload_multiple_files.
  destruct (status_eqb (overall_status st) SUMMARIZED) eqn:Es.
  { apply status_eqb_eq in Es. contradiction. }
  cbn [uploaded_file_paths set_current_step set_overall_status].
  destruct (uploaded_file_paths st) as [|item rest] eqn:Eu.
  { cbn [admitted_from]. split; [congruence|].
    split; [now split | congruence]. }
  match goal with
  | |- context [Processor.upload_loop _ _ _ _ _ _ _ _ _ _ _ 0 _ ?s] =>
      destruct (upload_loop_files (item :: rest) 0 s) as [H1 H2]
  end.
  { intros k []. }
  cbn [files file_upload_order set_file_upload_order set_files app] in H1, H2.
  match type of H1 with files ?l = _ => set (looped := l) in * end.
  rewrite <- H1 in H2 |- *. clear H1.
  destruct (files looped) as [|r rs] eqn:Ef;
    unfold Processor.upload_failed;
    cbn [overall_status files file_upload_order processing_progress
         set_error_message set_overall_status set_processing_progress];
    rewrite ?Ef.
  - split; [now split|]. split; [now split | congruence].
  - split; [now split|].
    split; [split; discriminate | now split].
Qed.

End Upload.
End ProcessorFacts.

(** ** The extraction stage on concrete batches *)

Module ProcessorChecks.
Import Processor ProcessorFacts.

(** A splitter that returns the text as a single chunk, and an
    extraction service that knows three paths. *)
Definition one_chunk (chunk_size chunk_overlap : Z) (text : pystr)
  : list pystr := [text].

Definition ocr_stub (file_path file_type : pystr) : result (pystr * Q) :=
  if pystr_eqb file_path (str "symbols.pdf") then Ok (str "#", 1%Q)
  else if pystr_eqb file_path (str "broken.pdf")
       then Raise (str "cannot open file")
       else Ok (str "hello   world", 1%Q).

Definition int_progress (completed total : nat) : Z :=
  Z.of_nat (completed * 60 / total) + 20.

Definition run : MultiFileDocumentState -> MultiFileDocumentState :=
  process_all_files_ocr AsciiTables.is_space AsciiTables.is_word one_chunk
                        ocr_stub int_progress.

Definition uploaded_file (id name : pystr) : pystr * FileInfo.t :=
  (id, FileInfo.mk id name name (str "pdf") 10%Z 0%Q UPLOADED
                   None None None None [] [] None None).

Definition batch (entries : list (pystr * FileInfo.t))
  : MultiFileDocumentState :=
  set_processing_progress [(str "overall", 20%Z)]
    (set_overall_status UPLOADED (set_files entries initial_state)).

Definition mixed_batch : MultiFileDocumentState :=
  batch [uploaded_file (str "id-1") (str "report.pdf");
         uploaded_file (str "id-2") (str "broken.pdf")].

Definition good_batch : MultiFileDocumentState :=
  batch [uploaded_file (str "id-1") (str "report.pdf")].


Example mixed_batch_message :
  error_message (run mixed_batch)
  = Some (str "OCR processing failed: All files must be successfully processed. Failed files: broken.pdf").
Proof. vm_compute. reflexivity. Qed.

Example good_batch_text :
  combined_text (run good_batch)
  = Some (str "=== report.pdf ===" ++ [NL] ++ str "hello world").
Proof. vm_compute. reflexivity. Qed.




Lemma chunk_config_witness :
  (max_chunk_size (run good_batch) = 2000%Z
   /\ overlap_size (run good_batch) = 250%Z
   /\ Forall (fun f =>
                FileInfo.processing_status f = OCR_COMPLETE ->
                forall text,
                  FileInfo.processed_text f = Some text ->
                  text <> [] ->
                  FileInfo.document_chunks f = one_chunk 2000 250 text)
             (values (files (run good_batch))))
  /\ (error_message (run initial_state)
      = Some (str "OCR processing failed: No files to process")
      /\ max_chunk_size (run initial_state) = 1000%Z
      /\ overlap_size (run initial_state) = 200%Z).
Proof.
  assert (Hne : files good_batch <> []) by discriminate.
  assert (Hnd : NoDup (keys (files good_batch))).
  { vm_compute. repeat constructor. intros []. }
  assert (Hnd0 : NoDup (keys (files initial_state))) by constructor.
  destruct (extraction_overrides_chunk_config
              AsciiTables.is_space AsciiTables.is_word one_chunk ocr_stub
              int_progress good_batch Hnd) as [H _].
  destruct (extraction_overrides_chunk_config
              AsciiTables.is_space AsciiTables.is_word one_chunk ocr_stub
              int_progress initial_state Hnd0) as [_ H0].
  destruct (H Hne) as [H1 [H2 [_ H3]]].
  destruct (H0 eq_refl) as [_ [H4 [H5 H6]]].
  split; [|split; [exact H4 | split; [exact H5 | exact H6]]].
  split; [exact H1|]. split; [exact H2 | exact H3].
Defined.

(** A disk with two files, one of them above the size limit. *)
Definition disk (p : pystr) : option Z :=
  if pystr_eqb p (str "a.pdf") then Some 10%Z
  else if pystr_eqb p (str "huge.pdf") then Some (60 * 1024 * 1024)%Z
  else None.

Definition last4 (p : pystr) : pystr := skipn (length p - 4) p.
Definition same (p : pystr) : pystr := p.
Definition no_ext (p : pystr) : pystr * pystr := (p, []).
Definition copy_ok (src dst : pystr) : result Z := Ok 10%Z.
Definition xs (i : nat) : pystr := repeat 120%N (S i).

Definition upload : MultiFileDocumentState -> MultiFileDocumentState :=
  upload_multiple_files AsciiTables.is_word disk last4 same no_ext
                        (fun _ => str "60.0") same copy_ok xs
                        (fun _ => str "0") (fun _ => 0%Q).

Definition submission (items : list (pystr * pystr)) : MultiFileDocumentState :=
  set_uploaded_file_paths items initial_state.

Lemma xs_fresh : forall i j, xs i = xs j -> i = j.
Proof.
  intros i j H. apply (f_equal (@length N)) in H. unfold xs in H.
  rewrite !repeat_length in H. lia.
Qed.

Example upload_two :
  let st' := upload (submission [(str "huge.pdf", str "huge.pdf");
                                 (str "a.pdf", str "a.pdf")]) in
  overall_status st' = UPLOADED
  /\ file_upload_order st' = [xs 1]
  /\ map FileInfo.file_name (values (files st')) = [str "a.pdf"].
Proof. vm_compute. repeat split. Qed.

Example upload_only_huge :
  let st' := upload (submission [(str "huge.pdf", str "huge.pdf")]) in
  overall_status st' = ERROR
  /\ error_message st'
     = Some (str "File upload failed: No files were successfully uploaded").
Proof. vm_compute. repeat split. Qed.

Lemma upload_witness :
  let st := submission [(str "huge.pdf", str "huge.pdf");
                        (str "a.pdf", str "a.pdf")] in
  overall_status (upload st) = UPLOADED
  /\ processing_progress (upload st) = [(str "overall", 20%Z)].
Proof.
  intros st.
  assert (Hst : overall_status st <> SUMMARIZED) by discriminate.
  destruct (upload_isolates_invalid_files
              AsciiTables.is_word disk last4 same no_ext
              (fun _ => str "60.0") same copy_ok xs
              (fun _ => str "0") (fun _ => 0%Q) xs_fresh st Hst)
    as [_ [_ [_ H]]].
  apply H. vm_compute. discriminate.
Defined.

(** C10, as the spec words it, fails: with no file in the batch the
    stage raises before it reaches the two assignments. *)
Lemma empty_batch_keeps_chunk_config :
  max_chunk_size (run initial_state) <> 2000%Z.
Proof. vm_compute. discriminate. Qed.

End ProcessorChecks.

(** ** Summarization *)

Module SummarizerFacts.
Import Summarizer.

Section Summary.
Variable is_space : N -> bool.
Variable upper : pystr -> pystr.
Variable repr : pystr -> pystr.
Variable init_chat_model : option pystr.
Variable llm_invoke : pystr -> result pystr.
Variable format_summary_prompt : nat -> pystr -> pystr -> pystr.
Variable format_questions_prompt : nat -> pystr -> pystr -> pystr.
Variable _parse_questions : pystr -> list pystr.

Local Abbreviation generate_combined_summary :=
  (Summarizer.generate_combined_summary is_space upper repr llm_invoke
                                        format_summary_prompt).
Local Abbreviation generate_multi_document_summary :=
  (Summarizer.generate_multi_document_summary
     is_space upper repr init_chat_model llm_invoke format_summary_prompt
     format_questions_prompt _parse_questions).

(** C5, as the code has it.  Without [ocr_complete] at entry, or when the
    summarizer cannot be built, the stage ends in [error].  With
    [ocr_complete] at entry and a summarizer, it ends in [summarized] with
    [progress.overall = 100] whatever the language model does.  The
    summary is the trimmed text of the model or, when anything raises
    where the summary is made, the text [Error generating summary: ]
    followed by the error; the questions are those parsed from a text of
    the model or, when anything raises where they are made, the eight
    default questions.  So with a model whose every call raises, the
    summary is an error text and the questions are the default ones. *)
Theorem summarize_outcomes : forall st,
  let st' := generate_multi_document_summary st in
  (overall_status st <> OCR_COMPLETE ->
   overall_status st' = ERROR
   /\ error_message st' =
      Some (str "Summarization failed: OCR processing must be complete before summarization"))
  /\ (forall e, overall_status st = OCR_COMPLETE ->
                init_chat_model = Some e ->
                overall_status st' = ERROR
                /\ error_message st' = Some (str "Summarization failed: " ++ e))
  /\ (overall_status st = OCR_COMPLETE ->
      init_chat_model = None ->
      overall_status st' = SUMMARIZED
      /\ dict_get (str "overall") (processing_progress st') = Some 100%Z
      /\ combined_summary st'
         = Some (generate_combined_summary
                   (set_current_step (str "summarize") st))
      /\ ((exists prompt content,
              llm_invoke prompt = Ok content
              /\ combined_summary st'
                 = Some (TextProcessor.strip is_space content))
          \/ (exists e, combined_summary st'
                        = Some (str "Error generating summary: " ++ e)))
      /\ ((exists prompt content,
              llm_invoke prompt = Ok content
              /\ suggested_questions st' = _parse_questions content)
          \/ suggested_questions st' = default_questions)
      /\ (forall e, (forall prompt, llm_invoke prompt = Raise e) ->
                    (exists e', combined_summary st'
                                = Some (str "Error generating summary: " ++ e'))
                    /\ suggested_questions st' = default_questions)).
Proof.
  intros st st'. subst st'. unfold Summarizer.generate_multi_document_summary.
  cbn [overall_status set_current_step].
  destruct (status_eqb (overall_status st) OCR_COMPLETE) eqn:E.
  - apply ProcessorFacts.status_eqb_eq in E. split; [congruence|].
    cbn [negb]. split.
    + intros e _ He. rewrite He. now split.
    + intros _ Hnone. rewrite Hnone.
      cbn [overall_status processing_progress combined_summary
           suggested_questions
           set_processing_progress set_overall_status set_document_relationships
           set_suggested_questions set_combined_summary].
      split; [reflexivity|]. split; [apply dict_get_set_same|].
      split; [reflexivity|].
      split; [|split].
      * unfold Summarizer.generate_combined_summary, combined_summary_body.
        destruct (combined_text _) as [[|c t]|];
          try (right; eexists; reflexivity).
        destruct (docs_info _ _ _ _); [|right; eexists; reflexivity].
        match goal with |- context [llm_invoke ?p] =>
          destruct (llm_invoke p) as [content|e] eqn:El
        end.
        -- left. eexists _, content. split; [exact El | reflexivity].
        -- right. eexists. reflexivity.
      * unfold Summarizer.generate_collection_questions.
        destruct (docs_info _ _ _ _); [|now right].
        match goal with |- context [llm_invoke ?p] =>
          destruct (llm_invoke p) as [content|e] eqn:El
        end.
        -- left. eexists _, content. split; [exact El | reflexivity].
        -- now right.
      * intros e Hllm. split.
        -- unfold Summarizer.generate_combined_summary.
           destruct (combined_summary_body _ _ _ _ _ _) as [summary|e'] eqn:Eb;
             [|now exists e'].
           exfalso. unfold combined_summary_body in Eb.
           destruct (combined_text _) as [[|c t]|]; try discriminate.
           destruct (docs_info _ _ _ _); try discriminate.
           rewrite Hllm in Eb. discriminate.
        -- unfold Summarizer.generate_collection_questions.
           destruct (docs_info _ _ _ _); [|reflexivity].
           now rewrite Hllm.
  - cbn [negb]. split.
    + intros _. now split.
    + split; intros; exfalso; [|];
        assert (status_eqb (overall_status st) OCR_COMPLETE = true)
        by (now apply ProcessorFacts.status_eqb_eq); congruence.
Qed.

End Summary.
End SummarizerFacts.

(** ** Questions and retrieval *)

Module QAFacts.
Import QA.

Lemma threshold_above_tenth : (1 # 10 < threshold)%Q.
Proof. reflexivity. Qed.

Lemma above_threshold_iff : forall s,
  above_threshold s = true <-> (threshold < s)%Q.
Proof.
  intros s. unfold above_threshold. rewrite negb_true_iff.
  rewrite <- not_true_iff_false, Qle_bool_iff. split.
  - apply Qnot_le_lt.
  - apply Qlt_not_le.
Qed.

(** Descending scores. *)
Definition score_ge (a b : Retrieved) : Prop :=
  (similarity_score b <= similarity_score a)%Q.

Lemma score_ge_trans : forall a b c, score_ge a b -> score_ge b c -> score_ge a c.
Proof. unfold score_ge. intros a b c H1 H2. eapply Qle_trans; eassumption. Qed.

Lemma insert_desc_perm : forall x l, Permutation (insert_desc x l) (x :: l).
Proof.
  intros x. induction l as [|y t IH]; simpl; [reflexivity|].
  destruct (Qle_bool (similarity_score y) (similarity_score x)); [reflexivity|].
  rewrite IH. apply perm_swap.
Qed.

Lemma sort_desc_perm : forall l, Permutation (sort_desc l) l.
Proof.
  induction l as [|x t IH]; simpl; [reflexivity|].
  rewrite insert_desc_perm. now apply perm_skip.
Qed.

Lemma insert_desc_hd : forall y x l,
  score_ge y x -> HdRel score_ge y l -> HdRel score_ge y (insert_desc x l).
Proof.
  intros y x [|z t] Hx Hl; simpl; [now constructor|].
  destruct (Qle_bool (similarity_score z) (similarity_score x)).
  - now constructor.
  - constructor. now inversion Hl.
Qed.

Lemma insert_desc_sorted : forall x l,
  Sorted score_ge l -> Sorted score_ge (insert_desc x l).
Proof.
  intros x. induction l as [|y t IH]; intros Hs; simpl.
  - repeat constructor.
  - destruct (Qle_bool (similarity_score y) (similarity_score x)) eqn:E.
    + constructor; [exact Hs|]. constructor. now apply Qle_bool_iff.
    + inversion Hs as [|? ? Ht Hhd]; subst. constructor; [now apply IH|].
      apply insert_desc_hd; [|exact Hhd].
      unfold score_ge. apply Qlt_le_weak, Qnot_le_lt. intros H.
      apply Qle_bool_iff in H. congruence.
Qed.

Lemma sort_desc_sorted : forall l, StronglySorted score_ge (sort_desc l).
Proof.
  intros l. apply Sorted_StronglySorted; [exact score_ge_trans|].
  induction l as [|x t IH]; simpl; [constructor|].
  now apply insert_desc_sorted.
Qed.

Lemma collect_above : forall sims chunks idxs l,
  collect sims chunks idxs = Some l ->
  Forall (fun r => above_threshold (similarity_score r) = true) l
  /\ length l <= length idxs.
Proof.
  intros sims chunks. induction idxs as [|idx rest IH]; intros l H; simpl in H.
  - injection H as <-. split; [constructor | apply Nat.le_refl].
  - destruct (nth_error sims idx) as [s|]; [|discriminate].
    destruct (above_threshold s) eqn:Es.
    + destruct (nth_error chunks idx) as [c|]; [|discriminate].
      destruct (collect sims chunks rest) as [l'|]; [|discriminate].
      injection H as <-. destruct (IH l' eq_refl) as [H1 H2].
      split; [constructor; [exact Es | exact H1] | simpl; lia].
    + destruct (IH l H) as [H1 H2]. split; [exact H1 | simpl; lia].
Qed.

Lemma collect_below : forall sims chunks idxs l,
  Forall (fun s => above_threshold s = false) sims ->
  collect sims chunks idxs = Some l -> l = [].
Proof.
  intros sims chunks idxs l Hall. revert l.
  induction idxs as [|idx rest IH]; intros l H; simpl in H.
  - now injection H.
  - destruct (nth_error sims idx) as [s|] eqn:En; [|discriminate].
    rewrite Forall_forall in Hall.
    rewrite (Hall s (nth_error_In _ _ En)) in H. now apply IH.
Qed.

Lemma slice_to_length : forall (A : Type) (k : Z) (l : list A),
  (0 <= k)%Z -> length (slice_to k l) <= Z.to_nat k.
Proof.
  intros A k l Hk. unfold slice_to.
  destruct (0 <=? k)%Z eqn:E; [|apply Z.leb_gt in E; lia].
  rewrite length_firstn. lia.
Qed.

(** *** Sorted lists *)

Lemma sorted_app_cross : forall (A : Type) (R : A -> A -> Prop) l1 l2,
  StronglySorted R (l1 ++ l2) ->
  forall x y, In x l1 -> In y l2 -> R x y.
Proof.
  intros A R. induction l1 as [|a l1 IH]; intros l2 H x y Hx Hy;
    [contradiction|].
  inversion H as [|? ? Hs Hall]; subst. destruct Hx as [->|Hx].
  - rewrite Forall_forall in Hall. apply Hall, in_or_app. now right.
  - now apply (IH l2).
Qed.

Lemma sorted_app_intro : forall (A : Type) (R : A -> A -> Prop) l1 l2,
  StronglySorted R l1 -> StronglySorted R l2 ->
  (forall x y, In x l1 -> In y l2 -> R x y) ->
  StronglySorted R (l1 ++ l2).
Proof.
  intros A R. induction l1 as [|a l1 IH]; intros l2 H1 H2 Hc; [exact H2|].
  inversion H1 as [|? ? Hs Hall]; subst. cbn [app]. constructor.
  - apply IH; [exact Hs | exact H2 |].
    intros x y Hx Hy. apply Hc; [now right | exact Hy].
  - apply Forall_app. split; [exact Hall|].
    apply Forall_forall. intros y Hy. apply Hc; [now left | exact Hy].
Qed.

Lemma sorted_rev : forall (A : Type) (R : A -> A -> Prop) l,
  StronglySorted R l -> StronglySorted (fun a b => R b a) (rev l).
Proof.
  intros A R. induction l as [|a l IH]; intros H; [constructor|].
  inversion H as [|? ? Hs Hall]; subst. cbn [rev].
  apply sorted_app_intro; [now apply IH | repeat constructor |].
  intros x y Hx [<-|[]]. apply in_rev in Hx.
  rewrite Forall_forall in Hall. now apply Hall.
Qed.

(** *** Where the results come from *)

Lemma collect_entries : forall sims chunks idxs l,
  collect sims chunks idxs = Some l ->
  Forall2 (fun i r => nth_error chunks i = Some (chunk r)
                      /\ nth_error sims i = Some (similarity_score r))
          (filter (fun i => match nth_error sims i with
                            | Some s => above_threshold s
                            | None => false
                            end) idxs)
          l.
Proof.
  intros sims chunks. induction idxs as [|idx rest IH]; intros l H; simpl in H.
  - injection H as <-. constructor.
  - cbn [filter]. destruct (nth_error sims idx) as [s|] eqn:Es; [|discriminate].
    destruct (above_threshold s) eqn:Ea.
    + destruct (nth_error chunks idx) as [c|] eqn:Ec; [|discriminate].
      destruct (collect sims chunks rest) as [l'|]; [|discriminate].
      injection H as <-. constructor; [now split | now apply IH].
    + now apply IH.
Qed.

Lemma collect_total : forall sims chunks idxs,
  length chunks = length sims ->
  (forall i, In i idxs -> i < length sims) ->
  exists l, collect sims chunks idxs = Some l.
Proof.
  intros sims chunks idxs Hlen. induction idxs as [|idx rest IH]; intros Hin.
  - now exists [].
  - cbn [collect]. destruct IH as [l Hl]; [intros i Hi; apply Hin; now right|].
    assert (Hidx : idx < length sims) by (apply Hin; now left).
    destruct (nth_error sims idx) as [s|] eqn:Es;
      [|apply nth_error_None in Es; lia].
    destruct (above_threshold s); [|now exists l].
    destruct (nth_error chunks idx) as [c|] eqn:Ec;
      [|apply nth_error_None in Ec; lia].
    rewrite Hl. eexists. reflexivity.
Qed.

Lemma forall2_and_right : forall (A B : Type) (R : A -> B -> Prop)
                                 (P : B -> Prop) l1 l2,
  Forall2 R l1 l2 -> Forall P l2 -> Forall2 (fun a b => R a b /\ P b) l1 l2.
Proof.
  intros A B R P l1 l2 H. induction H as [|a b l1 l2 Hab H IH]; intros Hp;
    [constructor|].
  inversion Hp; subst. constructor; [now split | now apply IH].
Qed.

(** The score at an index. *)
Definition score_at (sims : list Q) (i : nat) : Q := nth i sims 0%Q.

Lemma score_at_nth_error : forall sims i s,
  nth_error sims i = Some s -> score_at sims i = s.
Proof. intros sims i s H. unfold score_at. now apply nth_error_nth. Qed.

(** *** Order of occurrence and stable sorting *)

(** [i] occurs in [l], and [j] occurs after it. *)
Definition before (l : list nat) (i j : nat) : Prop :=
  exists l1 l2 l3, l = l1 ++ i :: l2 ++ j :: l3.

Lemma before_cons : forall x l i j, before l i j -> before (x :: l) i j.
Proof. intros x l i j [l1 [l2 [l3 ->]]]. now exists (x :: l1), l2, l3. Qed.

Lemma before_head : forall i l j, In j l -> before (i :: l) i j.
Proof.
  intros i l j H. apply in_split in H as [l2 [l3 ->]]. now exists [], l2, l3.
Qed.

Lemma before_filter_intro : forall p l i j,
  before l i j -> p i = true -> p j = true -> before (filter p l) i j.
Proof.
  intros p l i j [l1 [l2 [l3 ->]]] Hi Hj.
  exists (filter p l1), (filter p l2), (filter p l3).
  rewrite filter_app. cbn [filter]. rewrite Hi, filter_app. cbn [filter].
  now rewrite Hj.
Qed.

Lemma before_filter_elim : forall p l i j,
  before (filter p l) i j -> before l i j.
Proof.
  intros p. induction l as [|x l IH]; intros i j H.
  - destruct H as [[|a l1] [l2 [l3 H]]]; discriminate.
  - cbn [filter] in H. destruct (p x).
    + destruct H as [[|a l1] [l2 [l3 H]]]; cbn [app] in H.
      * injection H as Hx H. subst x. apply before_head.
        assert (Hin : In j (filter p l)).
        { rewrite H. apply in_or_app. right. now left. }
        now apply filter_In in Hin.
      * injection H as _ H. apply before_cons, IH. now exists l1, l2, l3.
    + now apply before_cons, IH.
Qed.

Lemma before_firstn : forall n l i j,
  before (firstn n l) i j -> before l i j.
Proof.
  intros n l i j [l1 [l2 [l3 H]]]. exists l1, l2, (l3 ++ skipn n l).
  rewrite <- (firstn_skipn n l) at 1. rewrite H.
  rewrite <- app_assoc. cbn [app]. now rewrite <- app_assoc.
Qed.

Lemma before_rev : forall l i j, before (rev l) i j -> before l j i.
Proof.
  intros l i j [l1 [l2 [l3 H]]]. exists (rev l3), (rev l2), (rev l1).
  rewrite <- (rev_involutive l), H.
  rewrite rev_app_distr. cbn [rev]. rewrite rev_app_distr. cbn [rev].
  now rewrite <- !app_assoc.
Qed.

(** A result and the index it was made from: the chunk and the score at
    that index. *)
Definition linked (chunks : list Chunk.t) (sims : list Q) (i : nat)
           (r : Retrieved) : Prop :=
  nth_error chunks i = Some (chunk r)
  /\ nth_error sims i = Some (similarity_score r).

(** The sort of [sort_desc], on the indices the results were made
    from. *)
Fixpoint insert_kept (sims : list Q) (i : nat) (l : list nat) : list nat :=
  match l with
  | [] => [i]
  | j :: t =>
      if Qle_bool (score_at sims j) (score_at sims i) then i :: l
      else j :: insert_kept sims i t
  end.

Fixpoint sort_kept (sims : list Q) (l : list nat) : list nat :=
  match l with
  | [] => []
  | i :: t => insert_kept sims i (sort_kept sims t)
  end.

Lemma insert_kept_linked : forall chunks sims i x ks rs,
  linked chunks sims i x ->
  Forall2 (linked chunks sims) ks rs ->
  Forall2 (linked chunks sims) (insert_kept sims i ks) (insert_desc x rs).
Proof.
  intros chunks sims i x ks rs Hix H.
  induction H as [|j y ks rs Hjy H IH]; cbn [insert_kept insert_desc].
  - constructor; [exact Hix | constructor].
  - rewrite (score_at_nth_error _ _ _ (proj2 Hix)).
    rewrite (score_at_nth_error _ _ _ (proj2 Hjy)).
    destruct (Qle_bool (similarity_score y) (similarity_score x)).
    + constructor; [exact Hix|]. now constructor.
    + now constructor.
Qed.

Lemma sort_kept_linked : forall chunks sims ks rs,
  Forall2 (linked chunks sims) ks rs ->
  Forall2 (linked chunks sims) (sort_kept sims ks) (sort_desc rs).
Proof.
  intros chunks sims ks rs H.
  induction H as [|i x ks rs Hix H IH]; cbn [sort_kept sort_desc];
    [constructor|].
  now apply insert_kept_linked.
Qed.

Lemma insert_kept_perm : forall sims i l,
  Permutation (insert_kept sims i l) (i :: l).
Proof.
  intros sims i. induction l as [|j t IH]; cbn [insert_kept]; [reflexivity|].
  destruct (Qle_bool _ _); [reflexivity|].
  rewrite IH. apply perm_swap.
Qed.

Lemma sort_kept_perm : forall sims l, Permutation (sort_kept sims l) l.
Proof.
  intros sims. induction l as [|i t IH]; cbn [sort_kept]; [reflexivity|].
  rewrite insert_kept_perm. now apply perm_skip.
Qed.

(** The indices whose score is [q]. *)
Definition with_score (sims : list Q) (q : Q) (i : nat) : bool :=
  Qeq_bool (score_at sims i) q.

(** The sort is stable: the indices of one score stay in their order. *)
Lemma insert_kept_stable : forall sims q i l,
  filter (with_score sims q) (insert_kept sims i l)
  = filter (with_score sims q) (i :: l).
Proof.
  intros sims q i. induction l as [|j t IH]; cbn [insert_kept];
    [reflexivity|].
  destruct (Qle_bool (score_at sims j) (score_at sims i)) eqn:E;
    [reflexivity|].
  cbn [filter] in *. rewrite IH.
  destruct (with_score sims q i) eqn:Ei; [|reflexivity].
  destruct (with_score sims q j) eqn:Ej; [|reflexivity].
  exfalso. unfold with_score in Ei, Ej.
  apply Qeq_bool_iff in Ei, Ej.
  assert (H : Qle_bool (score_at sims j) (score_at sims i) = true).
  { apply Qle_bool_iff. rewrite Ei, Ej. apply Qle_refl. }
  congruence.
Qed.

Lemma sort_kept_stable : forall sims q l,
  filter (with_score sims q) (sort_kept sims l)
  = filter (with_score sims q) l.
Proof.
  intros sims q. induction l as [|i t IH]; cbn [sort_kept]; [reflexivity|].
  rewrite insert_kept_stable. cbn [filter]. now rewrite IH.
Qed.

Lemma sort_kept_before : forall sims l i j,
  before (sort_kept sims l) i j ->
  (score_at sims i == score_at sims j)%Q ->
  before l i j.
Proof.
  intros sims l i j H Heq.
  apply (before_filter_elim (with_score sims (score_at sims i))).
  rewrite <- sort_kept_stable. apply before_filter_intro; [exact H | |].
  - apply Qeq_bool_iff. apply Qeq_refl.
  - apply Qeq_bool_iff. now apply Qeq_sym.
Qed.

Section Retrieval.
Variable Vectors : Type.
Variable similarities : Vectors -> pystr -> result (list Q).
Variable argsort : list Q -> list nat.

Local Abbreviation retrieve_relevant_chunks :=
  (@QA.retrieve_relevant_chunks Vectors similarities argsort).

(** The index was built: both attributes are set and there are chunks. *)
Definition built (agent : MultiFileQAAgent Vectors) : Prop :=
  exists chunks vectors,
    chunks <> []
    /\ chunks_with_metadata agent = Some chunks
    /\ chunk_vectors agent = Some vectors.

Lemma retrieve_cases : forall agent query top_k,
  retrieve_relevant_chunks agent query top_k = []
  \/ exists sims chunks vectors l,
       chunks <> []
       /\ chunks_with_metadata agent = Some chunks
       /\ chunk_vectors agent = Some vectors
       /\ similarities vectors query = Ok sims
       /\ collect sims chunks (slice_to top_k (rev (argsort sims))) = Some l
       /\ retrieve_relevant_chunks agent query top_k = sort_desc l.
Proof.
  intros agent query top_k. unfold QA.retrieve_relevant_chunks.
  destruct (chunks_with_metadata agent) as [[|c cs]|]; try (now left).
  destruct (chunk_vectors agent) as [vectors|]; try (now left).
  destruct (similarities vectors query) as [sims|e] eqn:Es; try (now left).
  destruct (collect _ _ _) as [l|] eqn:Ec; try (now left).
  right. exists sims, (c :: cs), vectors, l.
  split; [discriminate|]. repeat split; assumption || reflexivity.
Qed.

(** C2, as the code has it.  For every agent, query and [top_k > 0] the
    retrieval returns at most [top_k] results, each with a score above
    the threshold (the binary64 [0.1], itself above one tenth), in
    descending order of score.  It returns the empty list when the index
    was not built and when no chunk has a score above the threshold.

    On the order among equal scores: take an index built over [chunks],
    with one score per chunk for the query, and an [argsort] that
    returns the indices, each once.  Then the results are the chunks at
    a list [kept] of indices, each with its own score; [kept] holds the
    first [top_k] indices of the reversed [argsort] whose score is above
    the threshold; and two indices of [kept] with equal scores come in
    the order they have in the reversed [argsort].  So when [argsort]
    is stable (equal scores, smaller index first), of two results with
    equal scores the one that is later in the corpus comes first. *)
Theorem retrieve_bounded_sorted : forall agent query top_k,
  (0 < top_k)%Z ->
  let results := retrieve_relevant_chunks agent query top_k in
  length results <= Z.to_nat top_k
  /\ Forall (fun r => (threshold < similarity_score r)%Q
                      /\ (1 # 10 < similarity_score r)%Q) results
  /\ StronglySorted score_ge results
  /\ (~ built agent -> results = [])
  /\ (forall vectors sims,
         chunk_vectors agent = Some vectors ->
         similarities vectors query = Ok sims ->
         Forall (fun s => (s <= threshold)%Q) sims ->
         results = [])
  /\ (forall chunks vectors sims,
         chunks <> [] ->
         chunks_with_metadata agent = Some chunks ->
         chunk_vectors agent = Some vectors ->
         similarities vectors query = Ok sims ->
         length chunks = length sims ->
         Permutation (argsort sims) (seq 0 (length sims)) ->
         exists kept,
           Forall2 (linked chunks sims) kept results
           /\ Permutation kept
                (filter (fun i => above_threshold (score_at sims i))
                        (slice_to top_k (rev (argsort sims))))
           /\ (forall i j,
                  before kept i j ->
                  (score_at sims i == score_at sims j)%Q ->
                  before (rev (argsort sims)) i j)
           /\ ((forall i j,
                   before (argsort sims) i j ->
                   (score_at sims i == score_at sims j)%Q ->
                   i < j) ->
               forall i j,
                 before kept i j ->
                 (score_at sims i == score_at sims j)%Q ->
                 j < i)).
Proof.
  intros agent query top_k Hk results.
  assert (Hfirst :
    length results <= Z.to_nat top_k
    /\ Forall (fun r => (threshold < similarity_score r)%Q
                        /\ (1 # 10 < similarity_score r)%Q) results
    /\ StronglySorted score_ge results
    /\ (~ built agent -> results = [])
    /\ (forall vectors sims,
           chunk_vectors agent = Some vectors ->
           similarities vectors query = Ok sims ->
           Forall (fun s => (s <= threshold)%Q) sims ->
           results = [])).
  { destruct (retrieve_cases agent query top_k)
      as [Hnil | [sims [chunks [vectors [l [Hne [Hch [Hv [Hs [Hc Hr]]]]]]]]]].
    - assert (Hres : results = []) by exact Hnil. rewrite Hres.
      repeat split; try constructor; try apply Nat.le_0_l; reflexivity.
    - assert (Hres : results = sort_desc l) by exact Hr. rewrite Hres.
      destruct (collect_above _ _ _ _ Hc) as [Habove Hlen].
      split.
      { rewrite (Permutation_length (sort_desc_perm l)).
        etransitivity; [exact Hlen|]. apply slice_to_length. lia. }
      split.
      { apply (Permutation_Forall (Permutation_sym (sort_desc_perm l))).
        eapply Forall_impl; [|exact Habove].
        intros r Hr'. apply above_threshold_iff in Hr'. split; [exact Hr'|].
        eapply Qlt_trans; [exact threshold_above_tenth | exact Hr']. }
      split; [apply sort_desc_sorted|].
      split.
      { intros Hnot. exfalso. apply Hnot. now exists chunks, vectors. }
      intros vectors' sims' Hv' Hs' Hall.
      rewrite Hv in Hv'. injection Hv' as <-.
      rewrite Hs in Hs'. injection Hs' as <-.
      assert (Hl : l = []); [|now rewrite Hl].
      eapply collect_below; [|exact Hc].
      eapply Forall_impl; [|exact Hall].
      intros s Hle. unfold above_threshold.
      apply negb_false_iff, Qle_bool_iff, Hle. }
  destruct Hfirst as [H1 [H2 [H3 [H4 H5]]]].
  split; [exact H1|]. split; [exact H2|]. split; [exact H3|].
  split; [exact H4|]. split; [exact H5|].
  clear H1 H2 H3 H4 H5.
  intros chunks vectors sims Hne Hch Hv Hs Hlen Hperm.
  set (order := rev (argsort sims)).
  assert (Hporder : Permutation order (seq 0 (length sims))).
  { subst order. etransitivity; [|exact Hperm].
    apply Permutation_sym, Permutation_rev. }
  assert (Hslice : slice_to top_k order = firstn (Z.to_nat top_k) order).
  { unfold slice_to. destruct (0 <=? top_k)%Z eqn:E; [reflexivity|].
    apply Z.leb_gt in E. lia. }
  set (top := slice_to top_k order).
  assert (Hrange : forall i, In i top -> i < length sims).
  { intros i Hi. subst top. rewrite Hslice in Hi.
    assert (Hio : In i order).
    { rewrite <- (firstn_skipn (Z.to_nat top_k) order).
      apply in_or_app. now left. }
    apply (Permutation_in _ Hporder), in_seq in Hio. lia. }
  destruct (collect_total sims chunks top Hlen Hrange) as [entries Hcol].
  assert (Hres : results = sort_desc entries).
  { subst results. unfold QA.retrieve_relevant_chunks. rewrite Hch, Hv, Hs.
    destruct chunks as [|c cs]; [contradiction|].
    fold order. fold top. now rewrite Hcol. }
  set (keep := fun i => match nth_error sims i with
                        | Some s => above_threshold s
                        | None => false
                        end).
  pose proof (collect_entries _ _ _ _ Hcol) as Hent. fold keep in Hent.
  assert (Hkeep : filter keep top
                  = filter (fun i => above_threshold (score_at sims i)) top).
  { apply filter_ext_in. intros i Hi. unfold keep.
    destruct (nth_error sims i) as [s|] eqn:Es.
    - now rewrite (score_at_nth_error _ _ _ Es).
    - apply nth_error_None in Es. apply Hrange in Hi. lia. }
  exists (sort_kept sims (filter keep top)).
  assert (Htie : forall i j,
             before (sort_kept sims (filter keep top)) i j ->
             (score_at sims i == score_at sims j)%Q ->
             before order i j).
  { intros i j Hb Heq. apply (before_firstn (Z.to_nat top_k)).
    rewrite <- Hslice. fold top. apply (before_filter_elim keep).
    now apply (sort_kept_before sims). }
  split; [rewrite Hres; now apply sort_kept_linked|].
  split; [rewrite <- Hkeep; apply sort_kept_perm|].
  split; [exact Htie|].
  intros Hstable i j Hb Heq.
  apply (Hstable j i); [|now apply Qeq_sym].
  apply before_rev. now apply Htie.
Qed.

End Retrieval.
(** *** The question node *)

Section Questions.
Variable is_space : N -> bool.
Variable upper : pystr -> pystr.
Variable repr : pystr -> pystr.
Variable init_chat_model : option pystr.
Variable llm_invoke : pystr -> result pystr.
Variable format_qa_prompt :
  pystr -> pystr -> option pystr -> pystr -> nat -> option pystr -> pystr.
Variable Vectors : Type.
Variable fit_transform : list pystr -> result Vectors.
Variable similarities : Vectors -> pystr -> result (list Q).
Variable argsort : list Q -> list nat.

Local Abbreviation answer_multi_document_question :=
  (@QA.answer_multi_document_question is_space upper repr llm_invoke
     format_qa_prompt Vectors fit_transform similarities argsort).
Local Abbreviation process_multi_document_question :=
  (@QA.process_multi_document_question is_space upper repr init_chat_model
     llm_invoke format_qa_prompt Vectors fit_transform similarities argsort).

Definition apology : pystr :=
  str "I apologize, but I encountered an error while processing your question about the document collection: ".

(** The answer is what the model returned, trimmed, or the apology
    followed by the text of the error. *)
Lemma answer_shape : forall agent question st,
  let answer := fst (answer_multi_document_question agent question st) in
  (exists prompt content,
      llm_invoke prompt = Ok content
      /\ answer = TextProcessor.strip is_space content)
  \/ (exists e, answer = apology ++ e).
Proof.
  intros agent question st. unfold QA.answer_multi_document_question.
  destruct (file_names _ _ _ _) as [names|e]; [|right; now exists e].
  match goal with |- context [llm_invoke ?p] =>
    destruct (llm_invoke p) as [content|e] eqn:E; [left|right]
  end.
  - eexists _, content. split; [exact E | reflexivity].
  - now exists e.
Qed.

(** C6.  A question asked while the batch is not [summarized] changes
    nothing but [response], which becomes the "not ready" text; in
    particular [chat_history] is as it was. *)
Theorem not_ready_leaves_state : forall st question,
  current_query st = Some question ->
  question <> [] ->
  overall_status st <> SUMMARIZED ->
  let st' := process_multi_document_question st in
  st' = set_response
          (Some (str "Documents are not ready for questions yet. Please wait for processing to complete."))
          st
  /\ chat_history st' = chat_history st.
Proof.
  intros st question Hq Hne Hst st'. subst st'.
  unfold QA.process_multi_document_question. rewrite Hq.
  destruct question as [|c t]; [contradiction|].
  destruct (status_eqb (overall_status st) SUMMARIZED) eqn:E.
  - apply ProcessorFacts.status_eqb_eq in E. contradiction.
  - now split.
Qed.

(** C7, as the code has it.  On a [summarized] batch, with a question:
    when the agent could be built, the node appends two entries to
    [chat_history], the question of the user and then the answer of the
    assistant, whatever retrieval and the model do; the answer is the
    trimmed text of the model or the apology with the text of the error,
    and it is also the [response].  When building the agent raises, the
    node only sets [response], to an apology with the text of the error:
    [chat_history] is as it was. *)
Theorem answer_appends_exchange : forall st question,
  current_query st = Some question ->
  question <> [] ->
  overall_status st = SUMMARIZED ->
  let st' := process_multi_document_question st in
  let answer :=
    fst (answer_multi_document_question (new_agent Vectors) question st) in
  (init_chat_model = None ->
   chat_history st' =
   chat_history st ++ [ {| role := user; entry_content := question |};
                        {| role := assistant; entry_content := answer |} ]
   /\ response st' = Some answer
   /\ ((exists prompt content,
           llm_invoke prompt = Ok content
           /\ answer = TextProcessor.strip is_space content)
       \/ (exists e, answer = apology ++ e)))
  /\ (forall e, init_chat_model = Some e ->
        st' = set_response
                (Some (str "I apologize, but I encountered an error while processing your question: " ++ e))
                st
        /\ response st'
           = Some (str "I apologize, but I encountered an error while processing your question: " ++ e)
        /\ chat_history st' = chat_history st).
Proof.
  intros st question Hq Hne Hst st' answer. split.
  - intros Hinit.
    split; [|split; [|apply answer_shape]]; subst st' answer;
      unfold QA.process_multi_document_question; rewrite Hq, Hst, Hinit;
      destruct question as [|c t]; try contradiction;
      cbn [status_eqb negb];
      destruct (answer_multi_document_question _ _ _) as [answer agent];
      destruct (truthy_chunks _); reflexivity.
  - intros e Hinit. subst st'.
    unfold QA.process_multi_document_question. rewrite Hq, Hst, Hinit.
    destruct question as [|c t]; [contradiction|].
    cbn [status_eqb negb]. now repeat split.
Qed.

End Questions.
End QAFacts.

(** ** Summarization and questions on concrete batches *)

Module PipelineChecks.
Import Summarizer SummarizerFacts QA QAFacts.

Definition same (s : pystr) : pystr := s.
Definition two_parts (n : nat) (a b : pystr) : pystr := a ++ [NL] ++ b.
Definition one_question (content : pystr) : list pystr := [content].

(** A model that answers, and a model whose every call raises. *)
Definition llm_echo (prompt : pystr) : result pystr :=
  Ok (str "  fine  ").
Definition llm_down (prompt : pystr) : result pystr :=
  Raise (str "quota exceeded").

Definition summarize (init : option pystr) (llm : pystr -> result pystr)
  : MultiFileDocumentState -> MultiFileDocumentState :=
  generate_multi_document_summary AsciiTables.is_space same same init llm
                                  two_parts two_parts one_question.

(** A batch after a successful extraction of two chunks. *)
Definition first_chunk : Chunk.t :=
  Chunk.mk (str "first") (str "id-1") (str "a.pdf") (str "pdf") 0 None.
Definition second_chunk : Chunk.t :=
  Chunk.mk (str "second") (str "id-1") (str "a.pdf") (str "pdf") 1 None.

Definition extracted : MultiFileDocumentState :=
  set_combined_chunks [first_chunk; second_chunk]
    (set_combined_text (Some (str "first second"))
      (set_overall_status OCR_COMPLETE initial_state)).

Example summarize_with_model :
  let st' := summarize None llm_echo extracted in
  overall_status st' = SUMMARIZED
  /\ combined_summary st' = Some (str "fine")
  /\ suggested_questions st' = [str "  fine  "].
Proof. vm_compute. repeat split. Qed.

Example summarize_too_early :
  let st' := summarize None llm_echo initial_state in
  overall_status st' = ERROR
  /\ error_message st'
     = Some (str "Summarization failed: OCR processing must be complete before summarization").
Proof. vm_compute. repeat split. Qed.

Lemma summarize_witness :
  overall_status (summarize None llm_down extracted) = SUMMARIZED
  /\ dict_get (str "overall")
              (processing_progress (summarize None llm_down extracted))
     = Some 100%Z
  /\ suggested_questions (summarize None llm_down extracted)
     = default_questions
  /\ overall_status (summarize (Some (str "API key missing")) llm_echo
                               extracted)
     = ERROR
  /\ overall_status (summarize None llm_echo initial_state) = ERROR.
Proof.
  destruct (summarize_outcomes AsciiTables.is_space same same None llm_down
                               two_parts two_parts one_question extracted)
    as [_ [_ H]].
  destruct (H eq_refl eq_refl) as [H1 [H2 [_ [_ [_ H3]]]]].
  destruct (H3 (str "quota exceeded") (fun _ => eq_refl)) as [_ H4].
  destruct (summarize_outcomes AsciiTables.is_space same same
                               (Some (str "API key missing")) llm_echo
                               two_parts two_parts one_question extracted)
    as [_ [H5 _]].
  destruct (H5 (str "API key missing") eq_refl eq_refl) as [H6 _].
  destruct (summarize_outcomes AsciiTables.is_space same same None llm_echo
                               two_parts two_parts one_question initial_state)
    as [H7 _].
  assert (Hidle : overall_status initial_state <> OCR_COMPLETE)
    by discriminate.
  destruct (H7 Hidle) as [H8 _].
  split; [exact H1|]. split; [exact H2|]. split; [exact H4|].
  split; [exact H6 | exact H8].
Defined.

(** C5, as the spec words it, fails: every call of the model raises, and
    the stage still ends in [summarized], with the error as summary. *)
Lemma model_failure_is_not_an_error :
  let st' := summarize None llm_down extracted in
  overall_status st' <> ERROR
  /\ overall_status st' = SUMMARIZED
  /\ combined_summary st'
     = Some (str "Error generating summary: quota exceeded")
  /\ suggested_questions st' = default_questions.
Proof. vm_compute. repeat split. discriminate. Qed.

(** An index whose vectors are the chunk texts; every chunk gets the
    score one half, except against the query [none], where every score
    is zero. *)
Definition fit (contents : list pystr) : result (list pystr) := Ok contents.

Definition half_scores (vectors : list pystr) (query : pystr)
  : result (list Q) :=
  if pystr_eqb query (str "none") then Ok (map (fun _ => 0%Q) vectors)
  else Ok (map (fun _ => (1 # 2)%Q) vectors).

(** A stable ascending sort of the indices, which is what [np.argsort]
    does on short arrays (insertion sort). *)
Fixpoint insert_index (sims : list Q) (i : nat) (l : list nat) : list nat :=
  match l with
  | [] => [i]
  | j :: t =>
      if Qle_bool (nth i sims 0%Q) (nth j sims 0%Q) then i :: l
      else j :: insert_index sims i t
  end.

Definition argsort_stable (sims : list Q) : list nat :=
  fold_right (insert_index sims) [] (seq 0 (length sims)).

Example argsort_stable_321 :
  argsort_stable [(3 # 10)%Q; (1 # 10)%Q; (3 # 10)%Q; (2 # 10)%Q] = [1; 3; 0; 2].
Proof. vm_compute. reflexivity. Qed.

Definition retrieve
  : MultiFileQAAgent (list pystr) -> pystr -> Z -> list Retrieved :=
  @retrieve_relevant_chunks (list pystr) half_scores argsort_stable.

Definition indexed : MultiFileQAAgent (list pystr) :=
  prepare_multi_file_index fit (new_agent (list pystr)) extracted.

Example retrieve_none :
  retrieve indexed (str "none") 5 = [].
Proof. vm_compute. reflexivity. Qed.

Example retrieve_without_index :
  retrieve (new_agent (list pystr)) (str "first") 5 = [].
Proof. vm_compute. reflexivity. Qed.

Example retrieve_one :
  map (fun r => Chunk.content (chunk r)) (retrieve indexed (str "first") 1)
  = [str "second"].
Proof. vm_compute. reflexivity. Qed.

Lemma retrieve_witness :
  length (retrieve indexed (str "first") 2) <= 2
  /\ exists kept,
       Forall2 (linked [first_chunk; second_chunk] [(1 # 2)%Q; (1 # 2)%Q])
               kept (retrieve indexed (str "first") 2)
       /\ Permutation kept [1; 0]
       /\ (forall i j,
              before kept i j ->
              (score_at [(1 # 2)%Q; (1 # 2)%Q] i
               == score_at [(1 # 2)%Q; (1 # 2)%Q] j)%Q ->
              j < i).
Proof.
  assert (Hk : (0 < 2)%Z) by reflexivity.
  destruct (retrieve_bounded_sorted (list pystr) half_scores argsort_stable
                                    indexed (str "first") 2%Z Hk)
    as [H [_ [_ [_ [_ Hties]]]]].
  split; [exact H|].
  destruct (Hties [first_chunk; second_chunk] [str "first"; str "second"]
                  [(1 # 2)%Q; (1 # 2)%Q])
    as [kept [Hl [Hp [_ Hs]]]].
  - discriminate.
  - reflexivity.
  - reflexivity.
  - reflexivity.
  - reflexivity.
  - exact (Permutation_refl [0; 1]).
  - exists kept. split; [exact Hl|]. split; [exact Hp|]. apply Hs.
    intros i j [l1 [l2 [l3 Hb]]] _.
    change (argsort_stable [(1 # 2)%Q; (1 # 2)%Q]) with [0; 1] in Hb.
    destruct l1 as [|a [|b l1]]; cbn [app] in Hb.
    + injection Hb as <- Hb.
      destruct l2 as [|c l2]; cbn [app] in Hb;
        [injection Hb as <- _; apply Nat.lt_0_1|].
      injection Hb as _ Hb. destruct l2; discriminate.
    + injection Hb as _ _ Hb. destruct l2; discriminate.
    + injection Hb as _ _ Hb. destruct l1; discriminate.
Defined.

(** C2, as the spec words it, fails on ties: two chunks with the same
    score come out with the later chunk of the corpus first. *)
Lemma ties_are_not_in_corpus_order :
  map (fun r => (Chunk.chunk_index (chunk r), similarity_score r))
      (retrieve indexed (str "first") 2)
  = [(1, (1 # 2)%Q); (0, (1 # 2)%Q)].
Proof. vm_compute. reflexivity. Qed.

Definition ask (init : option pystr) (llm : pystr -> result pystr)
  : MultiFileDocumentState -> MultiFileDocumentState :=
  @process_multi_document_question
    AsciiTables.is_space same same init llm
    (fun question context summary file_list num_files combined_text => question)
    (list pystr) fit half_scores argsort_stable.

Definition summarized_with (question : pystr) : MultiFileDocumentState :=
  set_current_query (Some question)
    (summarize None llm_echo extracted).

Example ask_with_model :
  let st' := ask None llm_echo (summarized_with (str "what?")) in
  response st' = Some (str "fine")
  /\ chat_history st'
     = [ {| role := user; entry_content := str "what?" |};
         {| role := assistant; entry_content := str "fine" |} ]
  /\ length (relevant_chunks st') = 2.
Proof. vm_compute. repeat split. Qed.

Example ask_with_model_down :
  chat_history (ask None llm_down (summarized_with (str "what?")))
  = [ {| role := user; entry_content := str "what?" |};
      {| role := assistant;
         entry_content := apology ++ str "quota exceeded" |} ].
Proof. vm_compute. reflexivity. Qed.

Lemma not_ready_witness :
  chat_history (ask None llm_echo
                    (set_current_query (Some (str "what?")) extracted))
  = chat_history (set_current_query (Some (str "what?")) extracted).
Proof.
  apply (not_ready_leaves_state
           AsciiTables.is_space same same None llm_echo
           (fun question context summary file_list num_files combined_text =>
              question)
           (list pystr) fit half_scores argsort_stable
           (set_current_query (Some (str "what?")) extracted) (str "what?")).
  - reflexivity.
  - discriminate.
  - discriminate.
Defined.

Lemma answer_witness :
  length (chat_history (ask None llm_down (summarized_with (str "what?"))))
  = 2
  /\ chat_history (ask (Some (str "API key missing")) llm_echo
                       (summarized_with (str "what?")))
     = chat_history (summarized_with (str "what?")).
Proof.
  assert (Hne : str "what?" <> []) by discriminate.
  destruct (answer_appends_exchange
              AsciiTables.is_space same same None llm_down
              (fun question context summary file_list num_files combined_text =>
                 question)
              (list pystr) fit half_scores argsort_stable
              (summarized_with (str "what?")) (str "what?")
              eq_refl Hne eq_refl)
    as [H _].
  destruct (H eq_refl) as [H1 _].
  destruct (answer_appends_exchange
              AsciiTables.is_space same same (Some (str "API key missing"))
              llm_echo
              (fun question context summary file_list num_files combined_text =>
                 question)
              (list pystr) fit half_scores argsort_stable
              (summarized_with (str "what?")) (str "what?")
              eq_refl Hne eq_refl)
    as [_ H'].
  destruct (H' (str "API key missing") eq_refl) as [_ [_ H2]].
  split; [|exact H2].
  unfold ask. rewrite H1. reflexivity.
Defined.

(** C7, as the spec words it, fails: when the agent cannot be built the
    call fails, the response is an apology, and nothing is appended to
    [chat_history]. *)
Lemma failed_call_without_history :
  let st := summarized_with (str "what?") in
  let st' := ask (Some (str "API key missing")) llm_echo st in
  overall_status st = SUMMARIZED
  /\ chat_history st' = chat_history st
  /\ response st'
     = Some (str "I apologize, but I encountered an error while processing your question: API key missing").
Proof. vm_compute. repeat split. Qed.

End PipelineChecks.

(** * Further properties

    What follows covers the functions around the ones above: the rest of
    the text processor and of the file handler, the dispatch of the OCR
    engine, the parsing of the suggested questions, the invariants of
    the upload and extraction stages, and the graph that chains the
    nodes. *)

(** ** The text processor *)

Module TextProcessorMore.
Import TextProcessor TextProcessorFacts.

Section Shape.
Variable is_space : N -> bool.
Variable is_word : N -> bool.

Local Abbreviation sub_ws_from := (TextProcessor.sub_ws_from is_space).
Local Abbreviation sub_special := (TextProcessor.sub_special is_space is_word).
Local Abbreviation sub_lone := (TextProcessor.sub_lone is_word).
Local Abbreviation lstrip := (TextProcessor.lstrip is_space).
Local Abbreviation rstrip := (TextProcessor.rstrip is_space).
Local Abbreviation allowed := (TextProcessor.allowed is_space is_word).
Local Abbreviation clean_text := (TextProcessor.clean_text is_space is_word).
Local Abbreviation ws_ok := (TextProcessorFacts.ws_ok is_space).

(** *** Lengths *)

Lemma sub_ws_from_length : forall s b, length (sub_ws_from b s) <= length s.
Proof.
  induction s as [|c t IH]; intros b; simpl; [apply Nat.le_refl|].
  destruct (is_space c); [destruct b|]; simpl;
    specialize (IH true) as H1; specialize (IH false) as H2; lia.
Qed.

Lemma sub_lone_length : forall d r s pw, length (sub_lone d r pw s) = length s.
Proof.
  intros d r. induction s as [|c t IH]; intros pw; simpl; [reflexivity|].
  now rewrite IH.
Qed.

Lemma lstrip_length : forall s, length (lstrip s) <= length s.
Proof.
  induction s as [|c t IH]; simpl; [apply Nat.le_refl|].
  destruct (is_space c); simpl; lia.
Qed.

Lemma rstrip_length : forall s, length (rstrip s) <= length s.
Proof.
  induction s as [|c t IH]; [apply Nat.le_refl|].
  rewrite rstrip_cons. destruct (is_space c && _); simpl; lia.
Qed.

(** Cleaning never makes a text longer. *)
Theorem clean_text_length : forall x, length (clean_text x) <= length x.
Proof.
  intros x. unfold TextProcessor.clean_text.
  destruct (truthy x); [|apply Nat.le_0_l].
  unfold TextProcessor.strip, TextProcessor._fix_common_ocr_errors,
    TextProcessor.sub_ws.
  etransitivity; [apply rstrip_length|].
  etransitivity; [apply lstrip_length|].
  etransitivity; [apply sub_ws_from_length|].
  rewrite !sub_lone_length. unfold TextProcessor.sub_special.
  rewrite length_map. apply sub_ws_from_length.
Qed.

(** *** The shape of a cleaned text *)

Lemma ws_ok_only_spaces : forall s b,
  ws_ok b s = true -> Forall (fun c => is_space c = true -> c = SP) s.
Proof.
  induction s as [|c t IH]; intros b H; [constructor|].
  simpl in H. destruct (is_space c) eqn:Ec.
  - apply andb_true_iff in H as [H Ht]. apply andb_true_iff in H as [Hc _].
    apply N.eqb_eq in Hc. constructor; [now intros _ | now apply (IH true)].
  - constructor; [congruence | now apply (IH false)].
Qed.

Lemma ws_ok_no_run : forall l b a c r,
  ws_ok b (l ++ a :: c :: r) = true ->
  is_space a = true -> is_space c = true -> False.
Proof.
  induction l as [|x l IH]; intros b a c r H Ha Hc; simpl in H.
  - rewrite Ha, Hc in H. rewrite !andb_false_r in H. discriminate.
  - destruct (is_space x).
    + apply andb_true_iff in H as [_ H]. now apply (IH true a c r).
    + now apply (IH false a c r).
Qed.

Lemma rstrip_drops_space : forall l c,
  is_space c = true -> rstrip (l ++ [c]) = rstrip l.
Proof.
  induction l as [|x l IH]; intros c Hc.
  - simpl. now rewrite Hc.
  - cbn [app]. rewrite !rstrip_cons. now rewrite IH.
Qed.

Lemma rstrip_fixed_last : forall l c,
  rstrip (l ++ [c]) = l ++ [c] -> is_space c = false.
Proof.
  intros l c H. destruct (is_space c) eqn:Ec; [|reflexivity].
  rewrite rstrip_drops_space in H by assumption.
  pose proof (rstrip_length l) as Hlen. rewrite H, length_app in Hlen.
  simpl in Hlen. lia.
Qed.

Hypothesis space_is_space : is_space SP = true.
Hypothesis space_not_word : forall c, is_space c = true -> is_word c = false.
Hypothesis word_zero : is_word ZERO = true.
Hypothesis word_one : is_word ONE = true.
Hypothesis word_O : is_word LETTER_O = true.
Hypothesis word_I : is_word LETTER_I = true.

(** A cleaned text holds only word characters, spaces and the eleven
    punctuation marks; its only white space is the space, never two in a
    row and never at either end. *)
Theorem clean_text_shape : forall x,
  let y := clean_text x in
  Forall (fun c => allowed c = true /\ (is_space c = true -> c = SP)) y
  /\ (forall l a c r, y = l ++ a :: c :: r ->
                      ~ (is_space a = true /\ is_space c = true))
  /\ (forall c t, y = c :: t -> is_space c = false)
  /\ (forall l c, y = l ++ [c] -> is_space c = false).
Proof.
  intros x y.
  destruct (clean_text_normal is_space is_word space_is_space space_not_word
              word_zero word_one word_O word_I x)
    as [Hws Hal _ _ Hh Ht].
  fold y in Hws, Hal, Hh, Ht. split; [|split; [|split]].
  - apply Forall_forall. intros c Hc. split.
    + rewrite forallb_forall in Hal. now apply Hal.
    + pose proof (ws_ok_only_spaces y false Hws) as H.
      rewrite Forall_forall in H. now apply H.
  - intros l a c r Hy [Ha Hc]. rewrite Hy in Hws.
    exact (ws_ok_no_run l false a c r Hws Ha Hc).
  - intros c t Hy. rewrite Hy in Hh. simpl in Hh. now apply negb_true_iff.
  - intros l c Hy. rewrite Hy in Ht. now apply rstrip_fixed_last in Ht.
Qed.

End Shape.

(** *** Metadata and chunks *)

Section Counting.
Variable is_space : N -> bool.
Variable split_text : Z -> Z -> pystr -> list pystr.

Local Abbreviation count_words_from := (TextProcessor.count_words_from is_space).
Local Abbreviation count_words := (TextProcessor.count_words is_space).
Local Abbreviation get_document_metadata :=
  (TextProcessor.get_document_metadata is_space).
Local Abbreviation create_chunks :=
  (TextProcessor.create_chunks is_space split_text).

Lemma count_words_from_bound : forall s b,
  2 * count_words_from b s + (if b then 1 else 0) <= length s + 1.
Proof.
  induction s as [|c t IH]; intros b; simpl; [destruct b; lia|].
  destruct (is_space c).
  - specialize (IH false). simpl in IH. destruct b; lia.
  - specialize (IH true). simpl in IH. destruct b; lia.
Qed.

Lemma count_runs_bound : forall p s b,
  2 * count_runs p b s + (if b then 1 else 0) <= length s + 1.
Proof.
  intros p. induction s as [|c t IH]; intros b; simpl; [destruct b; lia|].
  destruct (p c).
  - specialize (IH true). simpl in IH. destruct b; lia.
  - specialize (IH false). simpl in IH. destruct b; lia.
Qed.

Lemma count_blank_lines_bound : forall n s,
  length s <= n -> 2 * count_blank_lines s <= length s.
Proof.
  induction n as [|n IH]; intros s Hn.
  - destruct s; [simpl; lia | simpl in Hn; lia].
  - destruct s as [|c [|c' t']]; [simpl; lia | simpl; lia |].
    change (count_blank_lines (c :: c' :: t'))
      with (if N.eqb c 10 && N.eqb c' 10 then S (count_blank_lines t')
            else count_blank_lines (c' :: t')).
    cbn [length] in *.
    destruct (N.eqb c 10 && N.eqb c' 10).
    + assert (H : 2 * count_blank_lines t' <= length t') by (apply IH; lia).
      lia.
    + assert (H : 2 * count_blank_lines (c' :: t') <= length (c' :: t'))
        by (apply IH; cbn [length]; lia).
      cbn [length] in H. lia.
Qed.

(** The metadata of a text: none for the empty text; otherwise counts
    that fit the text (words and sentences are runs separated by at least
    one character, paragraphs are separated by two), at least one
    paragraph and at least one minute of reading. *)
Theorem metadata_bounds : forall text,
  (get_document_metadata text = None <-> text = [])
  /\ (forall m, get_document_metadata text = Some m ->
        character_count m = length text
        /\ 2 * md_word_count m <= character_count m + 1
        /\ 2 * sentence_count m <= character_count m + 1
        /\ 1 <= paragraph_count m
        /\ 2 * (paragraph_count m - 1) <= character_count m
        /\ 1 <= estimated_reading_time m
        /\ estimated_reading_time m <= Nat.max 1 (md_word_count m)).
Proof.
  intros text. unfold TextProcessor.get_document_metadata. split.
  - destruct text; simpl; split; congruence.
  - intros m Hm. destruct (truthy text); [|discriminate].
    injection Hm as <-.
    cbn [md_word_count character_count sentence_count paragraph_count
         estimated_reading_time].
    pose proof (count_words_from_bound text false) as Hw.
    pose proof (count_runs_bound is_terminal text false) as Hs.
    pose proof (count_blank_lines_bound (length text) text (Nat.le_refl _)) as Hp.
    unfold TextProcessor.count_words. cbn beta iota in Hw, Hs.
    pose proof (Nat.Div0.div_le_upper_bound
                  (count_words_from false text) 200
                  (count_words_from false text)) as Hd.
    repeat split; try lia;
      change (fst (Nat.divmod (count_words_from false text) 199 0 199))
        with (count_words_from false text / 200);
      destruct (count_words_from false text / 200) eqn:E; lia.
Qed.

Lemma enumerate_from_ids : forall (A : Type) (l : list A) k,
  map fst (enumerate_from k l) = seq k (length l).
Proof.
  intros A. induction l as [|x l IH]; intros k; simpl; [reflexivity|].
  now rewrite IH.
Qed.

(** [create_chunks] returns no chunk for the empty text; otherwise one
    record per piece of the splitter, numbered from 0 in order, each with
    the length and the number of words of its own content. *)
Theorem create_chunks_records : forall chunk_size chunk_overlap text,
  let chunks := create_chunks chunk_size chunk_overlap text in
  (text = [] -> chunks = [])
  /\ (text <> [] ->
      length chunks = length (split_text chunk_size chunk_overlap text)
      /\ map chunk_id chunks = seq 0 (length chunks))
  /\ Forall (fun c => char_count c = length (content c)
                      /\ word_count c = count_words (content c)) chunks.
Proof.
  intros cs co text chunks. subst chunks. unfold TextProcessor.create_chunks.
  destruct text as [|c t]; cbn [truthy].
  - split; [reflexivity|]. split; [congruence | constructor].
  - split; [discriminate|]. split.
    + intros _.
      assert (Hlen : length (enumerate (split_text cs co (c :: t)))
                     = length (split_text cs co (c :: t))).
      { unfold enumerate.
        rewrite <- (length_map fst), enumerate_from_ids. apply length_seq. }
      rewrite length_map, Hlen. split; [reflexivity|].
      rewrite map_map. cbn [chunk_id].
      exact (enumerate_from_ids _ (split_text cs co (c :: t)) 0).
    + apply Forall_forall. intros ch Hch. apply in_map_iff in Hch as [ic [<- _]].
      now split.
Qed.

End Counting.
End TextProcessorMore.

(** ** src/core/ocr_engine.py *)

Module OCREngine.
Section Engine.
Variable is_space : N -> bool.
(** [page.extract_text()] for the pages of [PyPDF2.PdfReader(file)], or
    the exception that opening or reading the file raises. *)
Variable read_pdf_pages : pystr -> result (list pystr).
(** [_extract_from_image]: OpenCV, Tesseract and a mean on floats. *)
Variable _extract_from_image : pystr -> result (pystr * Q).

(** [_extract_from_pdf]: the pages whose text is not blank, one per
    line. *)
Definition _extract_from_pdf (file_path : pystr) : result (pystr * Q) :=
  match read_pdf_pages file_path with
  | Raise e => Raise e
  | Ok pages =>
      let text_content :=
        filter (fun text => truthy (TextProcessor.strip is_space text)) pages in
      let full_text := join [NL] text_content in
      let confidence :=
        if truthy (TextProcessor.strip is_space full_text) then 1%Q else 0%Q in
      Ok (full_text, confidence)
  end.

(** [extract_text].  The class defines no [_extract_from_docx], so that
    branch raises the [AttributeError] of the missing attribute; the
    handler logs and raises again. *)
Definition extract_text (file_path file_type : pystr) : result (pystr * Q) :=
  if pystr_eqb file_type (str "pdf") then _extract_from_pdf file_path
  else if pystr_eqb file_type (str "image") then _extract_from_image file_path
  else if pystr_eqb file_type (str "docx")
  then Raise (str "'OCREngine' object has no attribute '_extract_from_docx'")
  else Raise (str "Unsupported file type: " ++ file_type).

End Engine.
End OCREngine.

(** ** The file handler and the OCR engine *)

Module FileFacts.
Import FileHandler.

Lemma mem_In : forall x xs, mem x xs = true <-> In x xs.
Proof.
  intros x xs. unfold mem. rewrite existsb_exists. split.
  - intros [y [Hy He]]. apply pystr_eqb_eq in He. now subst.
  - intros H. exists x. split; [exact H | apply pystr_eqb_refl].
Qed.

Section Validation.
Variable stat_size : pystr -> option Z.
Variable suffix : pystr -> pystr.
Variable lower : pystr -> pystr.
Variable format_mb : Z -> pystr.

Local Abbreviation validate_file :=
  (FileHandler.validate_file stat_size suffix lower format_mb).
Local Abbreviation _determine_file_type :=
  (FileHandler._determine_file_type suffix lower).

(** A file is accepted exactly when its path resolves, its size is at
    most the limit and its suffix, in lower case, is in the allow-set;
    the message is empty exactly when the file is accepted. *)
Theorem validate_file_accepts : forall file_path max_size allowed_extensions,
  let verdict := validate_file file_path max_size allowed_extensions in
  (fst verdict = true <->
   exists size, stat_size file_path = Some size
                /\ (size <= max_size)%Z
                /\ In (lower (suffix file_path)) allowed_extensions)
  /\ (snd verdict = [] <-> fst verdict = true).
Proof.
  intros p m a verdict. subst verdict. unfold FileHandler.validate_file.
  destruct (stat_size p) as [size|].
  - destruct (m <? size)%Z eqn:Es.
    + apply Z.ltb_lt in Es. split; split; try discriminate.
      intros [size' [[= <-] [Hle _]]]. lia.
    + apply Z.ltb_ge in Es.
      destruct (mem (lower (suffix p)) a) eqn:Em; cbn [negb fst snd].
      * apply mem_In in Em. split; [|now split].
        split; [intros _; now exists size | reflexivity].
      * split; split; try discriminate.
        intros [size' [_ [_ Hin]]]. apply mem_In in Hin. congruence.
  - split; split; try discriminate. intros [size [H _]]. discriminate.
Qed.

(** The file type is one of four names, and a path whose suffix is in
    the allow-set of [Config] never gets the type [unknown]. *)
Theorem determine_file_type_known : forall file_path,
  let file_type := _determine_file_type file_path in
  In file_type [str "pdf"; str "image"; str "docx"; str "unknown"]
  /\ (In (lower (suffix file_path)) Config.ALLOWED_EXTENSIONS ->
      In file_type [str "pdf"; str "image"; str "docx"]).
Proof.
  intros p file_type. subst file_type. unfold FileHandler._determine_file_type.
  split.
  - destruct (pystr_eqb _ (str ".pdf")); [now left|].
    destruct (mem _ _); [right; now left|].
    destruct (pystr_eqb _ (str ".docx")); [right; right; now left|].
    right; right; right; now left.
  - intros Hin. unfold Config.ALLOWED_EXTENSIONS in Hin. cbn [In] in Hin.
    destruct Hin as [H|[H|[H|[H|[H|[H|[]]]]]]]; rewrite <- H;
      vm_compute; auto.
Qed.

End Validation.

Section SafeNames.
Variable is_word : N -> bool.
Variable splitext : pystr -> pystr * pystr.

(** [os.path.splitext] cuts the path in two: [root + ext == path]. *)
Hypothesis splitext_join : forall p, fst (splitext p) ++ snd (splitext p) = p.

Definition safe_char (c : N) : bool :=
  is_word c || existsb (N.eqb c) [45; 95; 46]%N.

(** A safe file name holds only word characters, hyphens, underscores
    and dots, as long as the time stamp does, and it is longer than the
    name it comes from by the time stamp and one underscore. *)
Theorem safe_filename_chars : forall timestamp filename,
  forallb safe_char timestamp = true ->
  let safe := _generate_safe_filename is_word splitext timestamp filename in
  forallb safe_char safe = true
  /\ length safe = length filename + 1 + length timestamp.
Proof.
  intros timestamp filename Hts safe. subst safe.
  unfold _generate_safe_filename.
  set (safe_name := map _ filename).
  assert (Hsafe : forallb safe_char safe_name = true).
  { subst safe_name. apply forallb_forall. intros c Hc.
    apply in_map_iff in Hc as [c0 [<- _]]. fold (safe_char c0).
    destruct (safe_char c0) eqn:E; [exact E|].
    unfold safe_char. simpl. now rewrite orb_true_r. }
  pose proof (splitext_join safe_name) as Hj.
  destruct (splitext safe_name) as [name ext]. cbn [fst snd] in Hj.
  rewrite <- Hj, forallb_app in Hsafe. apply andb_true_iff in Hsafe as [Hn He].
  split.
  - rewrite !forallb_app, Hn, Hts, He. simpl.
    unfold safe_char. simpl. now rewrite orb_true_r.
  - rewrite !length_app. cbn [str length map list_ascii_of_string].
    assert (Hlen : length filename = length name + length ext).
    { rewrite <- length_app, Hj. subst safe_name. now rewrite length_map. }
    simpl. lia.
Qed.

End SafeNames.

Section Engine.
Variable is_space : N -> bool.
Variable read_pdf_pages : pystr -> result (list pystr).

Local Abbreviation strip := (TextProcessor.strip is_space).
Local Abbreviation lstrip := (TextProcessor.lstrip is_space).
Local Abbreviation rstrip := (TextProcessor.rstrip is_space).
Local Abbreviation _extract_from_pdf :=
  (OCREngine._extract_from_pdf is_space read_pdf_pages).

Lemma lstrip_empty : forall s,
  lstrip s = [] <-> forallb is_space s = true.
Proof.
  induction s as [|c t IH]; simpl; [tauto|].
  destruct (is_space c); simpl; [exact IH|]. split; discriminate.
Qed.

(** A text strips to nothing exactly when it is white space only. *)
Lemma strip_empty : forall s,
  strip s = [] <-> forallb is_space s = true.
Proof.
  intros s. unfold TextProcessor.strip. rewrite <- lstrip_empty.
  pose proof (TextProcessorFacts.head_ok_lstrip is_space s) as Hh.
  destruct (lstrip s) as [|c t]; [tauto|].
  simpl in Hh. apply negb_true_iff in Hh.
  rewrite TextProcessorFacts.rstrip_cons, Hh. simpl. split; discriminate.
Qed.

Lemma blank_join : forall sep parts,
  forallb is_space (join sep parts) = true ->
  Forall (fun part => forallb is_space part = true) parts.
Proof.
  intros sep. induction parts as [|p rest IH]; intros H; [constructor|].
  destruct rest as [|q rest'].
  - simpl in H. now repeat constructor.
  - change (join sep (p :: q :: rest')) with (p ++ sep ++ join sep (q :: rest'))
      in H.
    rewrite !forallb_app in H.
    apply andb_true_iff in H as [Hp H]. apply andb_true_iff in H as [_ H].
    constructor; [exact Hp | now apply IH].
Qed.

(** Reading a PDF gives the confidence 1 with a text that is not blank,
    or the confidence 0 with the empty text (when no page has text):
    nothing in between. *)
Theorem extract_from_pdf_confidence : forall file_path text confidence,
  _extract_from_pdf file_path = Ok (text, confidence) ->
  (confidence = 1%Q /\ strip text <> [])
  \/ (confidence = 0%Q /\ text = []).
Proof.
  intros p text confidence. unfold OCREngine._extract_from_pdf.
  destruct (read_pdf_pages p) as [pages|e]; [|discriminate].
  set (content := filter _ pages). intros [= <- <-].
  destruct (truthy (strip (join [NL] content))) eqn:E.
  - left. split; [reflexivity|]. now destruct (strip _).
  - right. split; [reflexivity|].
    assert (Hs : strip (join [NL] content) = []) by (now destruct (strip _)).
    apply strip_empty, blank_join in Hs.
    destruct content as [|part rest] eqn:Ec; [reflexivity|]. exfalso.
    assert (Hin : In part content) by (rewrite Ec; now left).
    subst content. apply filter_In in Hin as [_ Hpart].
    inversion Hs as [|? ? Hblank _]; subst. apply strip_empty in Hblank.
    rewrite Hblank in Hpart. discriminate.
Qed.

Variable _extract_from_image : pystr -> result (pystr * Q).

Local Abbreviation extract_text :=
  (OCREngine.extract_text is_space read_pdf_pages _extract_from_image).

(** Only the types [pdf] and [image] are ever extracted: every other
    type, [docx] included, makes [extract_text] raise. *)
Theorem extract_text_supported_types : forall file_path file_type,
  file_type <> str "pdf" ->
  file_type <> str "image" ->
  exists e, extract_text file_path file_type = Raise e.
Proof.
  intros p ty Hpdf Himg. unfold OCREngine.extract_text.
  rewrite (pystr_eqb_neq _ _ Hpdf), (pystr_eqb_neq _ _ Himg).
  destruct (pystr_eqb ty (str "docx")); eexists; reflexivity.
Qed.

End Engine.
End FileFacts.

(** ** Invariants of the extraction stage *)

Module ExtractionFacts.
Import Processor ProcessorFacts.

Section Stage.
Variable is_space : N -> bool.
Variable is_word : N -> bool.
Variable split_text : Z -> Z -> pystr -> list pystr.
Variable extract_text : pystr -> pystr -> result (pystr * Q).
Variable loop_progress : nat -> nat -> Z.

Local Abbreviation strip := (TextProcessor.strip is_space).
Local Abbreviation clean_text := (TextProcessor.clean_text is_space is_word).
Local Abbreviation create_chunks :=
  (TextProcessor.create_chunks is_space split_text).
Local Abbreviation process_single_file :=
  (Processor.process_single_file is_space is_word split_text extract_text).
Local Abbreviation process_files :=
  (Processor.process_files is_space is_word split_text extract_text
                           loop_progress).
Local Abbreviation process_all_files_ocr :=
  (Processor.process_all_files_ocr is_space is_word split_text extract_text
                                   loop_progress).
Local Abbreviation after_loop :=
  (ProcessorFacts.after_loop is_space is_word split_text extract_text
                             loop_progress).
Local Abbreviation process_entry :=
  (ProcessorFacts.process_entry is_space is_word split_text extract_text).

(** *** What the loop leaves alone *)

Ltac loop_frame :=
  let IH := fresh "IH" in
  intros cs co items; induction items as [|[? ?] ? IH]; intros k n st;
  simpl; [reflexivity | now rewrite IH].

Lemma process_files_combined_text : forall cs co items k n st,
  combined_text (process_files cs co items k n st) = combined_text st.
Proof. loop_frame. Qed.

Lemma process_files_combined_chunks : forall cs co items k n st,
  combined_chunks (process_files cs co items k n st) = combined_chunks st.
Proof. loop_frame. Qed.

Lemma process_files_upload_order : forall cs co items k n st,
  file_upload_order (process_files cs co items k n st) = file_upload_order st.
Proof. loop_frame. Qed.

Lemma process_files_files_completed : forall cs co items k n st,
  files_completed (process_files cs co items k n st) = files_completed st.
Proof. loop_frame. Qed.

Lemma process_files_error_message : forall cs co items k n st,
  error_message (process_files cs co items k n st) = error_message st.
Proof. loop_frame. Qed.

Lemma process_files_chat_history : forall cs co items k n st,
  chat_history (process_files cs co items k n st) = chat_history st.
Proof. loop_frame. Qed.

(** *** The stage in one equation *)

Lemma stage_unfold : forall st,
  files st <> [] ->
  process_all_files_ocr st =
  if forallb is_complete (values (files (after_loop st)))
  then gate_passed (after_loop st)
  else ocr_failed (gate_message (failed_names (after_loop st))) (after_loop st).
Proof.
  intros st Hne. rewrite process_all_files_ocr_nonempty by assumption.
  now rewrite gate_decides.
Qed.

Lemma stage_files : forall st,
  files (process_all_files_ocr st) =
  match files st with
  | [] => []
  | _ :: _ => files (after_loop st)
  end.
Proof.
  intros st. destruct (files st) as [|kv rest] eqn:E.
  - rewrite process_all_files_ocr_empty by assumption. exact E.
  - rewrite stage_unfold by congruence. now destruct (forallb _ _).
Qed.

Lemma after_loop_files : forall st,
  NoDup (keys (files st)) ->
  files (after_loop st) = map (process_entry 2000 250) (files st).
Proof.
  intros st Hnd. unfold ProcessorFacts.after_loop.
  now rewrite (process_files_files _ _ _ _ _ _ _ _ []).
Qed.

Lemma after_loop_keys : forall st, keys (files (after_loop st)) = keys (files st).
Proof.
  intros st. unfold ProcessorFacts.after_loop. rewrite process_files_keys.
  - reflexivity.
  - intros kv Hkv. unfold keys. now apply in_map.
Qed.

(** *** One file *)

(** The fields that say which file a record is about. *)
Definition same_file (f0 f : FileInfo.t) : Prop :=
  FileInfo.file_id f = FileInfo.file_id f0
  /\ FileInfo.file_name f = FileInfo.file_name f0
  /\ FileInfo.file_path f = FileInfo.file_path f0
  /\ FileInfo.file_type f = FileInfo.file_type f0
  /\ FileInfo.file_size f = FileInfo.file_size f0
  /\ FileInfo.upload_timestamp f = FileInfo.upload_timestamp f0.

(** The engine returned a text that is not blank for this file. *)
Definition readable (f0 : FileInfo.t) : Prop :=
  exists raw confidence,
    extract_text (FileInfo.file_path f0) (FileInfo.file_type f0)
    = Ok (raw, confidence)
    /\ strip raw <> [].

Lemma process_single_file_outcome : forall cs co f0,
  let f := process_single_file cs co f0 in
  same_file f0 f
  /\ (FileInfo.processing_status f = OCR_COMPLETE
      \/ FileInfo.processing_status f = ERROR)
  /\ (FileInfo.processing_status f = OCR_COMPLETE <-> readable f0)
  /\ (FileInfo.processing_status f = ERROR ->
      FileInfo.error_message f <> None
      /\ FileInfo.raw_text f = FileInfo.raw_text f0
      /\ FileInfo.processed_text f = FileInfo.processed_text f0
      /\ FileInfo.document_chunks f = FileInfo.document_chunks f0).
Proof.
  intros cs co f0 f. subst f. unfold Processor.process_single_file, readable.
  cbn [FileInfo.file_path FileInfo.file_type FileInfo.set_processing_status].
  destruct (extract_text _ _) as [[raw confidence]|e].
  - destruct (truthy (strip raw)) eqn:Et; cbn [negb].
    + split; [now repeat split|]. split; [now left|]. split; [|discriminate].
      split; [|reflexivity]. intros _. exists raw, confidence.
      split; [reflexivity|]. now destruct (strip raw).
    + split; [now repeat split|]. split; [now right|]. split.
      * split; [discriminate|]. intros [raw' [c' [[= <- <-] Hne]]].
        now destruct (strip raw).
      * intros _. now repeat split.
  - split; [now repeat split|]. split; [now right|]. split.
    + split; [discriminate|]. intros [raw [c [H _]]]. discriminate.
    + intros _. now repeat split.
Qed.

(** A file that is [ocr_complete] carries the cleaned text of what the
    engine returned, the chunks of that text made with the sizes given,
    and one metadata record per chunk. *)
Lemma process_single_file_complete : forall cs co f0,
  let f := process_single_file cs co f0 in
  FileInfo.processing_status f = OCR_COMPLETE ->
  exists raw,
    FileInfo.raw_text f = Some raw
    /\ FileInfo.processed_text f = Some (clean_text raw)
    /\ FileInfo.chunk_metadata f = create_chunks cs co (clean_text raw)
    /\ FileInfo.document_chunks f
       = map TextProcessor.content (FileInfo.chunk_metadata f).
Proof.
  intros cs co f0 f. subst f. unfold Processor.process_single_file.
  destruct (extract_text _ _) as [[raw confidence]|e]; [|discriminate].
  destruct (truthy (strip raw)); cbn [negb]; [|discriminate].
  intros _. exists raw. now repeat split.
Qed.

(** Extraction treats every file by itself.  With distinct ids, after
    the stage each entry keeps its key and the fields that identify the
    file; it is [ocr_complete] exactly when the engine returned a text
    that is not blank for that file, and [error] otherwise, with a
    message and with its texts and chunks as they were. *)
Theorem extraction_is_per_file : forall st,
  NoDup (keys (files st)) ->
  Forall2 (fun kv0 kv =>
             fst kv = fst kv0
             /\ same_file (snd kv0) (snd kv)
             /\ (FileInfo.processing_status (snd kv) = OCR_COMPLETE
                 \/ FileInfo.processing_status (snd kv) = ERROR)
             /\ (FileInfo.processing_status (snd kv) = OCR_COMPLETE
                 <-> readable (snd kv0))
             /\ (FileInfo.processing_status (snd kv) = ERROR ->
                 FileInfo.error_message (snd kv) <> None
                 /\ FileInfo.raw_text (snd kv) = FileInfo.raw_text (snd kv0)
                 /\ FileInfo.document_chunks (snd kv)
                    = FileInfo.document_chunks (snd kv0)))
          (files st) (files (process_all_files_ocr st)).
Proof.
  intros st Hnd. rewrite stage_files.
  destruct (files st) as [|kv rest] eqn:E; [constructor|].
  rewrite <- E in Hnd. rewrite (after_loop_files st Hnd), E.
  clear E Hnd. generalize (kv :: rest) as l. clear kv rest.
  induction l as [|[id f0] l IH]; [constructor|].
  cbn [map]. constructor; [|exact IH].
  unfold ProcessorFacts.process_entry. cbn [fst snd].
  destruct (process_single_file_outcome 2000 250 f0) as [H1 [H2 [H3 H4]]].
  split; [reflexivity|]. split; [exact H1|]. split; [exact H2|].
  split; [exact H3|]. intros He. destruct (H4 He) as [Ha [Hb [_ Hc]]].
  now repeat split.
Qed.

(** *** The stage as a whole *)

(** The stage ends in [ocr_complete] or in [error], in [ocr_complete]
    exactly when there are files and all of them are [ocr_complete].  On
    [error] there is a message and the combined text and chunks are as
    they were; on [ocr_complete] every file is counted.  In both cases
    the keys of [files], the upload order and the chat history stay. *)
Theorem extraction_outcome : forall st,
  let st' := process_all_files_ocr st in
  (overall_status st' = OCR_COMPLETE \/ overall_status st' = ERROR)
  /\ (overall_status st' = OCR_COMPLETE <->
      files st <> []
      /\ Forall (fun f => FileInfo.processing_status f = OCR_COMPLETE)
                (values (files st')))
  /\ (overall_status st' = ERROR ->
      error_message st' <> None
      /\ combined_text st' = combined_text st
      /\ combined_chunks st' = combined_chunks st
      /\ files_completed st' = files_completed st)
  /\ (overall_status st' = OCR_COMPLETE ->
      files_completed st' = length (files st')
      /\ error_message st' = error_message st)
  /\ keys (files st') = keys (files st)
  /\ file_upload_order st' = file_upload_order st
  /\ chat_history st' = chat_history st.
Proof.
  intros st st'. subst st'.
  destruct (files st) as [|kv rest] eqn:E.
  - rewrite process_all_files_ocr_empty by assumption.
    cbn [overall_status error_message combined_text combined_chunks
         files_completed files file_upload_order chat_history ocr_failed
         set_error_message set_overall_status set_current_step].
    rewrite E. split; [now right|]. split.
    + split; [discriminate|]. now intros [H _].
    + split; [intros _; repeat split; discriminate|].
      split; [discriminate|]. now repeat split.
  - assert (Hne : files st <> []) by congruence.
    rewrite stage_unfold by assumption. rewrite <- E.
    pose proof (after_loop_keys st) as Hk.
    destruct (forallb is_complete (values (files (after_loop st)))) eqn:Ea.
    + unfold gate_passed.
      cbn [overall_status error_message combined_text combined_chunks
           files_completed files file_upload_order chat_history
           set_processing_progress set_overall_status set_files_completed
           set_combined_chunks set_combined_text].
      split; [now left|]. split.
      * split; [|reflexivity]. intros _. split; [exact Hne|].
        apply Forall_forall. intros f Hf. apply is_complete_iff.
        rewrite forallb_forall in Ea. now apply Ea.
      * split; [discriminate|]. split.
        -- intros _. rewrite (filter_all _ _ _ Ea), values_length.
           split; [reflexivity|].
           unfold ProcessorFacts.after_loop. now rewrite process_files_error_message.
        -- split; [exact Hk|].
           unfold ProcessorFacts.after_loop.
           now rewrite process_files_upload_order, process_files_chat_history.
    + cbn [overall_status error_message combined_text combined_chunks
           files_completed files file_upload_order chat_history ocr_failed
           set_error_message set_overall_status].
      split; [now right|]. split.
      * split; [discriminate|]. intros [_ Hall]. exfalso.
        assert (forallb is_complete (values (files (after_loop st))) = true);
          [|congruence].
        apply forallb_forall. intros f Hf. apply is_complete_iff.
        rewrite Forall_forall in Hall. now apply Hall.
      * unfold ProcessorFacts.after_loop.
        rewrite process_files_combined_text, process_files_combined_chunks,
          process_files_files_completed, process_files_upload_order,
          process_files_chat_history.
        split; [intros _; repeat split; discriminate|].
        split; [discriminate|]. split; [exact Hk|]. now split.
Qed.

End Stage.
End ExtractionFacts.

(** ** What the gate lets through, and what it never does *)

Module GateFacts.
Import Processor ProcessorFacts ExtractionFacts.

Lemma dict_get_set_other : forall (V : Type) (d : dict V) k k' v,
  k <> k' -> dict_get k (dict_set k' v d) = dict_get k d.
Proof.
  intros V. induction d as [|[k0 v0] d IH]; intros k k' v Hne; simpl.
  - now rewrite (pystr_eqb_neq _ _ Hne).
  - destruct (pystr_eqb k' k0) eqn:E; simpl.
    + apply pystr_eqb_eq in E. subst k0.
      now rewrite (pystr_eqb_neq _ _ Hne).
    + destruct (pystr_eqb k k0); [reflexivity | now apply IH].
Qed.

Lemma nth_error_numbered : forall (A B : Type) (f : nat * A -> B) (l : list A) k i y,
  nth_error (map f (enumerate_from k l)) i = Some y ->
  exists x, nth_error l i = Some x /\ y = f (k + i, x).
Proof.
  intros A B f. induction l as [|x l IH]; intros k i y H.
  - destruct i; discriminate.
  - destruct i as [|i]; simpl in H.
    + injection H as <-. exists x. now rewrite Nat.add_0_r.
    + destruct (IH _ _ _ H) as [x' [Hx Hy]]. exists x'. split; [exact Hx|].
      now rewrite Nat.add_succ_r.
Qed.

Section Gate.
Variable is_space : N -> bool.
Variable is_word : N -> bool.
Variable split_text : Z -> Z -> pystr -> list pystr.
Variable extract_text : pystr -> pystr -> result (pystr * Q).
Variable loop_progress : nat -> nat -> Z.

Local Abbreviation create_chunks :=
  (TextProcessor.create_chunks is_space split_text).
Local Abbreviation process_single_file :=
  (Processor.process_single_file is_space is_word split_text extract_text).
Local Abbreviation process_files :=
  (Processor.process_files is_space is_word split_text extract_text
                           loop_progress).
Local Abbreviation process_all_files_ocr :=
  (Processor.process_all_files_ocr is_space is_word split_text extract_text
                                   loop_progress).
Local Abbreviation after_loop :=
  (ProcessorFacts.after_loop is_space is_word split_text extract_text
                             loop_progress).
Local Abbreviation process_entry :=
  (ProcessorFacts.process_entry is_space is_word split_text extract_text).

(** A chunk of [create_chunks] found at position [i] has the id [i]. *)
Lemma create_chunks_nth : forall cs co text i m,
  nth_error (create_chunks cs co text) i = Some m ->
  TextProcessor.chunk_id m = i
  /\ TextProcessor.char_count m = length (TextProcessor.content m).
Proof.
  intros cs co text i m. unfold TextProcessor.create_chunks.
  destruct (truthy text); [|destruct i; discriminate].
  unfold enumerate. intros H.
  apply nth_error_numbered in H as [x [_ ->]]. now split.
Qed.

(** Every chunk of [combined_chunks] that the stage builds comes with
    the metadata record of that very chunk: same content, and an id that
    is its index in the file.  The empty metadata of line 210 never
    shows. *)
Theorem combined_chunks_have_metadata : forall st,
  NoDup (keys (files st)) ->
  let st' := process_all_files_ocr st in
  overall_status st' = OCR_COMPLETE ->
  Forall (fun c =>
            exists m, Chunk.metadata c = Some m
                      /\ TextProcessor.content m = Chunk.content c
                      /\ TextProcessor.chunk_id m = Chunk.chunk_index c
                      /\ TextProcessor.char_count m = length (Chunk.content c))
         (combined_chunks st').
Proof.
  intros st Hnd st' Hst. subst st'.
  destruct (files st) as [|kv rest] eqn:E.
  { rewrite process_all_files_ocr_empty in Hst by assumption. discriminate. }
  assert (Hne : files st <> []) by congruence.
  rewrite <- E in Hnd.
  rewrite stage_unfold in * by assumption.
  destruct (forallb is_complete _) eqn:Ea; [|discriminate].
  unfold gate_passed.
  cbn [combined_chunks set_processing_progress set_overall_status
       set_files_completed set_combined_chunks set_combined_text].
  rewrite (filter_all _ _ _ Ea).
  apply Forall_forall. intros c Hc. apply in_flat_map in Hc as [f [Hf Hc]].
  assert (Hcomplete : FileInfo.processing_status f = OCR_COMPLETE).
  { apply is_complete_iff. rewrite forallb_forall in Ea. now apply Ea. }
  rewrite after_loop_files in Hf by assumption.
  unfold values in Hf. rewrite map_map in Hf.
  apply in_map_iff in Hf as [[id f0] [Hf _]].
  unfold ProcessorFacts.process_entry in Hf. cbn [fst snd] in Hf. subst f.
  destruct (process_single_file_complete is_space is_word split_text
              extract_text 2000 250 f0 Hcomplete)
    as [raw [_ [_ [Hcm Hdc]]]].
  apply in_file_chunks in Hc as [i [text [Hi ->]]].
  rewrite Hdc, nth_error_map in Hi.
  unfold ProcessorFacts.tagged.
  cbn [Chunk.metadata Chunk.content Chunk.chunk_index].
  destruct (nth_error (FileInfo.chunk_metadata _) i) as [m|] eqn:Em;
    [|discriminate].
  cbn [option_map] in Hi. injection Hi as Hi. exists m.
  rewrite Hcm in Em. destruct (create_chunks_nth _ _ _ _ _ Em) as [Hid Hlen].
  subst text. now repeat split.
Qed.

(** *** The progress map *)

Lemma process_files_progress_other : forall cs co items k n st id,
  ~ In id (keys items) -> id <> str "overall" ->
  dict_get id (processing_progress (process_files cs co items k n st))
  = dict_get id (processing_progress st).
Proof.
  intros cs co. induction items as [|[id0 f0] rest IH];
    intros k n st id Hnot Hov; [reflexivity|].
  cbn [Processor.process_files]. rewrite IH.
  - cbn [processing_progress set_processing_progress set_files].
    rewrite !dict_get_set_other; [reflexivity | exact Hov |].
    intros ->. apply Hnot. now left.
  - intros Hin. apply Hnot. now right.
  - exact Hov.
Qed.

Lemma process_files_progress : forall cs co items k n st id f0,
  NoDup (keys items) -> ~ In (str "overall") (keys items) ->
  In (id, f0) items ->
  dict_get id (processing_progress (process_files cs co items k n st))
  = Some (if is_complete (process_single_file cs co f0) then 100%Z else 0%Z).
Proof.
  intros cs co. induction items as [|[id0 g0] rest IH];
    intros k n st id f0 Hnd Hov Hin; [contradiction|].
  cbn [keys map fst] in Hnd, Hov. apply NoDup_cons_iff in Hnd as [Hfresh Hnd].
  cbn [Processor.process_files]. destruct Hin as [[= -> ->]|Hin].
  - rewrite process_files_progress_other.
    + cbn [processing_progress set_processing_progress set_files].
      apply dict_get_set_same.
    + exact Hfresh.
    + intros ->. apply Hov. now left.
  - apply IH; [exact Hnd | | exact Hin].
    intros H. apply Hov. now right.
Qed.

(** After the stage the progress map has, for every file, 100 when the
    file is [ocr_complete] and 0 when it is not, whether the gate passed
    or not (ids are distinct and none is the word [overall]). *)
Theorem progress_is_per_file : forall st id f,
  NoDup (keys (files st)) ->
  ~ In (str "overall") (keys (files st)) ->
  let st' := process_all_files_ocr st in
  In (id, f) (files st') ->
  dict_get id (processing_progress st')
  = Some (if is_complete f then 100%Z else 0%Z).
Proof.
  intros st id f Hnd Hov st' Hin. subst st'.
  destruct (files st) as [|kv rest] eqn:E.
  { rewrite process_all_files_ocr_empty in Hin by assumption.
    cbn [files ocr_failed set_error_message set_overall_status
         set_current_step] in Hin.
    rewrite E in Hin. contradiction. }
  assert (Hne : files st <> []) by congruence.
  rewrite <- E in Hnd, Hov.
  rewrite stage_unfold in * by assumption.
  assert (Hloop : In (id, f) (files (after_loop st))).
  { destruct (forallb is_complete _); exact Hin. }
  rewrite after_loop_files in Hloop by assumption.
  apply in_map_iff in Hloop as [[id0 f0] [Heq Hin0]].
  unfold ProcessorFacts.process_entry in Heq. cbn [fst snd] in Heq.
  injection Heq as -> <-.
  assert (Hget : dict_get id (processing_progress (after_loop st))
                 = Some (if is_complete (process_single_file 2000 250 f0)
                         then 100%Z else 0%Z)).
  { unfold ProcessorFacts.after_loop. now apply process_files_progress. }
  assert (Hid : id <> str "overall").
  { intros ->. apply Hov. unfold keys. apply in_map_iff.
    now exists (str "overall", f0). }
  destruct (forallb is_complete _); unfold gate_passed;
    cbn [processing_progress ocr_failed set_error_message
         set_processing_progress set_overall_status set_files_completed
         set_combined_chunks set_combined_text];
    [rewrite dict_get_set_other by exact Hid|]; exact Hget.
Qed.

End Gate.

(** *** With the OCR engine of the repository *)

Section Engine.
Variable is_space : N -> bool.
Variable is_word : N -> bool.
Variable split_text : Z -> Z -> pystr -> list pystr.
Variable read_pdf_pages : pystr -> result (list pystr).
Variable _extract_from_image : pystr -> result (pystr * Q).
Variable loop_progress : nat -> nat -> Z.

Local Abbreviation extract_text :=
  (OCREngine.extract_text is_space read_pdf_pages _extract_from_image).
Local Abbreviation process_all_files_ocr :=
  (Processor.process_all_files_ocr is_space is_word split_text extract_text
                                   loop_progress).

(** A batch with a file whose type is neither [pdf] nor [image] never
    passes the gate: the engine raises for it (for [docx] too, which the
    configuration admits), and the stage ends in [error] with the name of
    that file among the failed ones. *)
Theorem unsupported_type_fails_the_batch : forall st id f0,
  NoDup (keys (files st)) ->
  In (id, f0) (files st) ->
  FileInfo.file_type f0 <> str "pdf" ->
  FileInfo.file_type f0 <> str "image" ->
  let st' := process_all_files_ocr st in
  overall_status st' = ERROR
  /\ exists names,
       error_message st' =
       Some (str "OCR processing failed: All files must be successfully processed. Failed files: "
               ++ join (str ", ") names)
       /\ In (FileInfo.file_name f0) names.
Proof.
  intros st id f0 Hnd Hin Hpdf Himg st'. subst st'.
  assert (Hne : files st <> []) by (intros H; rewrite H in Hin; contradiction).
  rewrite (stage_unfold is_space is_word split_text extract_text loop_progress)
    by assumption.
  set (f := Processor.process_single_file is_space is_word split_text
              extract_text 2000 250 f0).
  assert (Hf : In f (values (files (ProcessorFacts.after_loop
                                      is_space is_word split_text extract_text
                                      loop_progress st)))).
  { rewrite (after_loop_files is_space is_word split_text extract_text
               loop_progress) by assumption.
    unfold values. rewrite map_map. apply in_map_iff. now exists (id, f0). }
  assert (Hbad : is_complete f = false).
  { destruct (is_complete f) eqn:Ec; [|reflexivity]. exfalso.
    apply is_complete_iff in Ec.
    destruct (process_single_file_outcome is_space is_word split_text
                extract_text 2000 250 f0) as [_ [_ [Hiff _]]].
    apply Hiff in Ec. destruct Ec as [raw [confidence [Hok _]]].
    unfold OCREngine.extract_text in Hok.
    rewrite (pystr_eqb_neq _ _ Hpdf), (pystr_eqb_neq _ _ Himg) in Hok.
    destruct (pystr_eqb _ (str "docx")); discriminate. }
  destruct (forallb is_complete _) eqn:Ea.
  { rewrite forallb_forall in Ea. rewrite (Ea f Hf) in Hbad. discriminate. }
  split; [reflexivity|].
  eexists. split; [reflexivity|].
  unfold failed_names. apply in_map_iff. exists f. split.
  - destruct (process_single_file_outcome is_space is_word split_text
                extract_text 2000 250 f0) as [[_ [Hname _]] _].
    exact Hname.
  - apply filter_In. split; [exact Hf | now rewrite Hbad].
Qed.

End Engine.
End GateFacts.

(** ** Invariants of the upload stage *)

Module UploadFacts.
Import Processor ProcessorFacts.

Section Upload.
Variable is_word : N -> bool.
Variable stat_size : pystr -> option Z.
Variable suffix : pystr -> pystr.
Variable lower : pystr -> pystr.
Variable splitext : pystr -> pystr * pystr.
Variable format_mb : Z -> pystr.
Variable upload_dir_join : pystr -> pystr.
Variable copy2 : pystr -> pystr -> result Z.
Variable uuid4 : nat -> pystr.
Variable save_clock : nat -> pystr.
Variable upload_clock : nat -> Q.

Hypothesis uuid4_fresh : forall i j, uuid4 i = uuid4 j -> i = j.

Local Abbreviation new_file_info :=
  (Processor.new_file_info is_word stat_size suffix lower splitext format_mb
                           upload_dir_join copy2 uuid4 save_clock upload_clock).
Local Abbreviation upload_loop :=
  (Processor.upload_loop is_word stat_size suffix lower splitext format_mb
                         upload_dir_join copy2 uuid4 save_clock upload_clock).
Local Abbreviation upload_multiple_files :=
  (Processor.upload_multiple_files is_word stat_size suffix lower splitext
                                   format_mb upload_dir_join copy2 uuid4
                                   save_clock upload_clock).
Local Abbreviation admitted_from :=
  (ProcessorFacts.admitted_from is_word stat_size suffix lower splitext
                                format_mb upload_dir_join copy2 uuid4
                                save_clock upload_clock).

(** A record as the upload stage makes it: nothing extracted yet. *)
Definition fresh_record (id : pystr) (f : FileInfo.t) : Prop :=
  FileInfo.file_id f = id
  /\ FileInfo.processing_status f = UPLOADED
  /\ FileInfo.error_message f = None
  /\ FileInfo.raw_text f = None
  /\ FileInfo.processed_text f = None
  /\ FileInfo.document_chunks f = []
  /\ FileInfo.chunk_metadata f = [].

Lemma new_file_info_fresh : forall i p n fi,
  new_file_info i p n = Some fi ->
  fresh_record (uuid4 i) fi /\ FileInfo.file_name fi = n.
Proof.
  intros i p n fi. unfold Processor.new_file_info.
  destruct (Processor.validate_file _ _ _ _ _ _ _) as [[|] msg]; simpl;
    [|discriminate].
  destruct (Processor.save_uploaded_file _ _ _ _ _ _ _ _ _)
    as [[[saved ftype] fsize]|e]; [|discriminate].
  intros [= <-]. now repeat split.
Qed.

Lemma admitted_from_records : forall items i,
  Forall (fun kv => (exists j, i <= j /\ fst kv = uuid4 j)
                    /\ fresh_record (fst kv) (snd kv)
                    /\ In (FileInfo.file_name (snd kv)) (map snd items))
         (admitted_from i items).
Proof.
  induction items as [|[p n] rest IH]; intros i; [constructor|].
  cbn [ProcessorFacts.admitted_from].
  assert (Hrest : Forall (fun kv => (exists j, i <= j /\ fst kv = uuid4 j)
                    /\ fresh_record (fst kv) (snd kv)
                    /\ In (FileInfo.file_name (snd kv)) (map snd ((p, n) :: rest)))
                         (admitted_from (S i) rest)).
  { eapply Forall_impl; [|apply (IH (S i))].
    intros kv [[j [Hj Hk]] [Hf Hn]]. split; [exists j; split; [lia|exact Hk]|].
    split; [exact Hf | now right]. }
  destruct (new_file_info i p n) as [fi|] eqn:E; [|exact Hrest].
  constructor; [|exact Hrest].
  destruct (new_file_info_fresh _ _ _ _ E) as [Hf Hn].
  split; [exists i; now split|]. split; [exact Hf | left; now symmetry].
Qed.

Lemma admitted_from_nodup : forall items i, NoDup (keys (admitted_from i items)).
Proof.
  induction items as [|[p n] rest IH]; intros i; [constructor|].
  cbn [ProcessorFacts.admitted_from].
  destruct (new_file_info i p n) as [fi|]; [|apply IH].
  cbn [keys map fst]. constructor; [|apply IH].
  intros Hin. unfold keys in Hin. apply in_map_iff in Hin as [kv [Hk Hkv]].
  pose proof (admitted_from_records rest (S i)) as Hall.
  rewrite Forall_forall in Hall. destruct (Hall kv Hkv) as [[j [Hj Heq]] _].
  rewrite Heq in Hk. apply uuid4_fresh in Hk. lia.
Qed.

Lemma admitted_from_length : forall items i,
  length (admitted_from i items) <= length items.
Proof.
  induction items as [|[p n] rest IH]; intros i; [apply Nat.le_refl|].
  cbn [ProcessorFacts.admitted_from].
  destruct (new_file_info i p n); simpl; specialize (IH (S i)); lia.
Qed.

Lemma upload_loop_counts : forall items i st,
  total_files (upload_loop i items st) = total_files st
  /\ files_completed (upload_loop i items st) = files_completed st.
Proof.
  induction items as [|[p n] rest IH]; intros i st; [now split|].
  cbn [Processor.upload_loop]. destruct (IH (S i) (Processor.upload_one
    is_word stat_size suffix lower splitext format_mb upload_dir_join copy2
    uuid4 save_clock upload_clock i p n st)) as [H1 H2].
  rewrite H1, H2. unfold Processor.upload_one.
  destruct (new_file_info i p n); now split.
Qed.

(** The files and the order the stage ends with, when something was
    submitted. *)
Lemma upload_result : forall st,
  overall_status st <> SUMMARIZED ->
  uploaded_file_paths st <> [] ->
  let st' := upload_multiple_files st in
  files st' = admitted_from 0 (uploaded_file_paths st)
  /\ file_upload_order st' = keys (files st')
  /\ total_files st' = length (uploaded_file_paths st)
  /\ files_completed st' = 0
  /\ (overall_status st' = UPLOADED \/ overall_status st' = ERROR)
  /\ (overall_status st' = UPLOADED <-> files st' <> []).
Proof.
  intros st Hst Hne st'. subst st'. unfold Processor.upload_multiple_files.
  destruct (status_eqb (overall_status st) SUMMARIZED) eqn:Es.
  { apply status_eqb_eq in Es. contradiction. }
  cbn [uploaded_file_paths set_current_step set_overall_status].
  destruct (uploaded_file_paths st) as [|item rest] eqn:Eu; [contradiction|].
  match goal with
  | |- context [Processor.upload_loop _ _ _ _ _ _ _ _ _ _ _ 0 _ ?s] =>
      destruct (upload_loop_files is_word stat_size suffix lower splitext
                  format_mb upload_dir_join copy2 uuid4 save_clock
                  upload_clock uuid4_fresh (item :: rest) 0 s) as [H1 H2];
      [intros k [] |];
      destruct (upload_loop_counts (item :: rest) 0 s) as [H3 H4]
  end.
  cbn [files file_upload_order total_files files_completed
       set_file_upload_order set_files set_files_completed set_total_files
       set_current_step set_overall_status app] in H1, H2, H3, H4.
  match type of H1 with files ?l = _ => set (looped := l) in * end.
  rewrite <- H1 in H2.
  destruct (files looped) as [|r rs] eqn:Ef;
    unfold Processor.upload_failed;
    cbn [overall_status files file_upload_order total_files files_completed
         set_error_message set_overall_status set_processing_progress];
    rewrite ?Ef, <- ?H1, ?H3, ?H4.
  - repeat split; try assumption; try reflexivity; try (now right);
      try discriminate. congruence.
  - repeat split; try assumption; try reflexivity; try (now left);
      try discriminate.
Qed.

(** After the upload stage, run on a submission that is not empty: the
    upload order lists the keys of [files], which are distinct; every
    record has its key as id, is [uploaded] and has nothing extracted;
    every record bears the name of a submitted file; [total_files] counts
    the submitted files, admitted or not; and the stage ends in
    [uploaded] exactly when some file was admitted. *)
Theorem upload_invariants : forall st,
  overall_status st <> SUMMARIZED ->
  uploaded_file_paths st <> [] ->
  let st' := upload_multiple_files st in
  file_upload_order st' = keys (files st')
  /\ NoDup (keys (files st'))
  /\ Forall (fun kv => fresh_record (fst kv) (snd kv)
                       /\ In (FileInfo.file_name (snd kv))
                             (map snd (uploaded_file_paths st)))
            (files st')
  /\ length (files st') <= length (uploaded_file_paths st)
  /\ total_files st' = length (uploaded_file_paths st)
  /\ (overall_status st' = UPLOADED <-> files st' <> []).
Proof.
  intros st Hst Hne st'.
  destruct (upload_result st Hst Hne) as [Hf [Ho [Ht [_ [_ Hs]]]]].
  fold st' in Hf, Ho, Ht, Hs.
  split; [exact Ho|]. rewrite Hf.
  split; [apply admitted_from_nodup|].
  split.
  - eapply Forall_impl; [|apply admitted_from_records].
    intros kv [_ H]. exact H.
  - split; [apply admitted_from_length|]. split; [exact Ht|].
    now rewrite <- Hf.
Qed.

End Upload.
End UploadFacts.

(** ** src/agents/multi_file_summarizer.py: the parsing of the questions *)

Module QuestionParser.

Definition DOT : N := 46.            (* '.' *)
Definition HYPHEN : N := 45.         (* '-' *)
Definition BULLET : N := 8226.       (* U+2022 *)
Definition QUESTION_MARK : N := 63.  (* '?' *)

(** [s.split(sep)] for a separator of one character. *)
Fixpoint split_on (sep : N) (s : pystr) : list pystr :=
  match s with
  | [] => [[]]
  | c :: t =>
      if N.eqb c sep then [] :: split_on sep t
      else match split_on sep t with
           | [] => [[c]]
           | piece :: pieces => (c :: piece) :: pieces
           end
  end.

(** [c in s] *)
Definition contains (c : N) (s : pystr) : bool := existsb (N.eqb c) s.

(** [s.split(sep, 1)[-1]]: what follows the first separator, the whole
    text when there is none. *)
Fixpoint after_first (sep : N) (s : pystr) : option pystr :=
  match s with
  | [] => None
  | c :: t =>
      if N.eqb c sep then Some t
      else after_first sep t
  end.

Definition split_once_last (sep : N) (s : pystr) : pystr :=
  match after_first sep s with
  | Some rest => rest
  | None => s
  end.

(** [s.lstrip(chars)] *)
Fixpoint lstrip_chars (chars : list N) (s : pystr) : pystr :=
  match s with
  | [] => []
  | c :: t => if existsb (N.eqb c) chars then lstrip_chars chars t else s
  end.

(** [s.endswith(c)] *)
Fixpoint ends_with (c : N) (s : pystr) : bool :=
  match s with
  | [] => false
  | [x] => N.eqb x c
  | _ :: t => ends_with c t
  end.

(** The characters of ['- •1234567890']. *)
Definition numbering : list N :=
  [45; 32; 8226; 49; 50; 51; 52; 53; 54; 55; 56; 57; 48]%N.

Section Parser.
Variable is_space : N -> bool.
(** [str.isdigit] *)
Variable is_digit : N -> bool.

Local Abbreviation strip := (TextProcessor.strip is_space).

(** [line and (line[0].isdigit() or line.startswith('-') or
    line.startswith('•'))] *)
Definition is_item (line : pystr) : bool :=
  match line with
  | [] => false
  | c :: _ => is_digit c || N.eqb c HYPHEN || N.eqb c BULLET
  end.

(** The body of the loop for one line: the question it appends, if
    any. *)
Definition parse_line (line : pystr) : option pystr :=
  let line := strip line in
  if is_item line
  then
    let question :=
      if contains DOT line then strip (split_once_last DOT line)
      else strip (lstrip_chars numbering line) in
    if truthy question
       && (contains QUESTION_MARK question || Nat.ltb 10 (length question))
    then Some (if ends_with QUESTION_MARK question then question
               else question ++ [QUESTION_MARK])
    else None
  else None.

Definition collect_questions (lines : list pystr) : list pystr :=
  flat_map (fun line => match parse_line line with
                        | Some question => [question]
                        | None => []
                        end) lines.

(** [_parse_questions] *)
Definition _parse_questions (response_text : pystr) : list pystr :=
  let lines := split_on NL (strip response_text) in
  slice_to 8 (collect_questions lines).

End Parser.
End QuestionParser.

(** ** Documents and questions of the summarizer *)

Module SummarizerMore.
Import Summarizer QuestionParser.

Lemma dict_get_middle : forall (V : Type) (pre : dict V) k v rest,
  ~ In k (keys pre) -> dict_get k (pre ++ (k, v) :: rest) = Some v.
Proof.
  intros V. induction pre as [|[k0 v0] pre IH]; intros k v rest Hnot; simpl.
  - now rewrite pystr_eqb_refl.
  - rewrite pystr_eqb_neq by (intros ->; apply Hnot; now left).
    apply IH. intros Hin. apply Hnot. now right.
Qed.

Lemma dict_get_none : forall (V : Type) (d : dict V) k,
  ~ In k (keys d) -> dict_get k d = None.
Proof.
  intros V. induction d as [|[k0 v0] d IH]; intros k Hnot; simpl; [reflexivity|].
  rewrite pystr_eqb_neq by (intros ->; apply Hnot; now left).
  apply IH. intros Hin. apply Hnot. now right.
Qed.

Lemma dict_get_in : forall (V : Type) (d : dict V) k,
  In k (keys d) -> exists v, dict_get k d = Some v.
Proof.
  intros V. induction d as [|[k0 v0] d IH]; intros k Hin; simpl in *;
    [contradiction|].
  destruct (pystr_eqb k k0) eqn:E; [now exists v0|].
  apply IH. destruct Hin as [Hk|Hin]; [|exact Hin].
  subst k0. now rewrite pystr_eqb_refl in E.
Qed.

Section Documents.
Variable upper : pystr -> pystr.
Variable repr : pystr -> pystr.

Local Abbreviation docs_info := (Summarizer.docs_info repr).

Lemma docs_info_suffix : forall line suf pre,
  NoDup (keys (pre ++ suf)) ->
  docs_info line (pre ++ suf) (keys suf)
  = Ok (map line (filter is_complete (values suf))).
Proof.
  intros line. induction suf as [|[id f] suf IH]; intros pre Hnd; [reflexivity|].
  cbn [keys map fst Summarizer.docs_info].
  assert (Hfresh : ~ In id (keys pre)).
  { unfold keys in *. rewrite map_app in Hnd. simpl in Hnd.
    apply NoDup_remove_2 in Hnd. intros H. apply Hnd, in_or_app. now left. }
  rewrite dict_get_middle by assumption.
  change (pre ++ (id, f) :: suf) with (pre ++ [(id, f)] ++ suf).
  rewrite app_assoc. fold (keys suf). rewrite IH.
  - cbn [values map snd filter]. now destruct (is_complete f).
  - now rewrite <- app_assoc.
Qed.

(** The list of documents that goes into the prompts.  When the upload
    order lists the keys of [files], which are distinct, there is one
    line per [ocr_complete] file, in order, and no [KeyError]; and an
    id of the order that is not a key makes the list fail with the
    [KeyError] of the first such id. *)
Theorem docs_info_of_batch : forall line files,
  (NoDup (keys files) ->
   docs_info line files (keys files)
   = Ok (map line (filter is_complete (values files))))
  /\ (forall known id rest,
        (forall k, In k known -> In k (keys files)) ->
        ~ In id (keys files) ->
        docs_info line files (known ++ id :: rest) = Raise (repr id)).
Proof.
  intros line files. split.
  - intros Hnd. exact (docs_info_suffix line files [] Hnd).
  - induction known as [|k known IH]; intros id rest Hknown Hid.
    + cbn [app Summarizer.docs_info]. now rewrite dict_get_none.
    + cbn [app Summarizer.docs_info].
      destruct (dict_get_in _ files k (Hknown k (or_introl eq_refl))) as [v ->].
      rewrite IH; [reflexivity | | exact Hid].
      intros k' Hk'. apply Hknown. now right.
Qed.

(** The file list of the QA prompt is the list of documents of the
    summarizer's question prompt: the two comprehensions agree, in what
    they return and in what they raise. *)
Theorem file_names_agree : forall files order,
  QA.file_names upper repr files order
  = docs_info (question_line upper) files order.
Proof.
  intros files. induction order as [|id rest IH]; [reflexivity|].
  cbn [QA.file_names Summarizer.docs_info].
  destruct (dict_get id files) as [f|]; [|reflexivity].
  now rewrite IH.
Qed.

End Documents.

Section Parsing.
Variable is_space : N -> bool.
Variable is_digit : N -> bool.

Local Abbreviation strip := (TextProcessor.strip is_space).
Local Abbreviation parse_line := (QuestionParser.parse_line is_space is_digit).
Local Abbreviation _parse_questions :=
  (QuestionParser._parse_questions is_space is_digit).

Lemma ends_with_app : forall c s,
  ends_with c s = true -> exists body, s = body ++ [c].
Proof.
  intros c. induction s as [|x [|y t] IH]; intros H.
  - discriminate.
  - simpl in H. apply N.eqb_eq in H. subst x. now exists [].
  - change (ends_with c (x :: y :: t)) with (ends_with c (y :: t)) in H.
    destruct (IH H) as [body Hb]. exists (x :: body). now rewrite Hb.
Qed.

Lemma strip_head : forall s c t, strip s = c :: t -> is_space c = false.
Proof.
  intros s c t H.
  pose proof (TextProcessorFacts.head_ok_rstrip is_space _
                (TextProcessorFacts.head_ok_lstrip is_space s)) as Hh.
  fold (strip s) in Hh. rewrite H in Hh. now apply negb_true_iff.
Qed.

(** A question of one character is not kept unless it is long enough or
    holds a question mark; a lone question mark is kept as it is. *)
Lemma parse_line_question : forall line q,
  parse_line line = Some q ->
  (exists body, q = body ++ [QUESTION_MARK])
  /\ 1 <= length q
  /\ (forall c t, q = c :: t -> is_space c = false).
Proof.
  intros line q. unfold QuestionParser.parse_line.
  destruct (is_item _ _); [|discriminate].
  set (question := if contains DOT _ then _ else _).
  assert (Hhead : forall c t, question = c :: t -> is_space c = false).
  { subst question. destruct (contains DOT _); intros c t; apply strip_head. }
  destruct (truthy question) eqn:Et; [|discriminate]. simpl.
  destruct (_ || _); [|discriminate].
  destruct question as [|c0 t0] eqn:Eq; [discriminate|].
  destruct (ends_with QUESTION_MARK (c0 :: t0)) eqn:Ee; intros [= <-].
  - split; [now apply ends_with_app|]. split; [simpl; lia|].
    intros c t [= <- <-]. now apply (Hhead c0 t0).
  - split; [now exists (c0 :: t0)|]. split; [simpl; lia|].
    intros c t [= <- _]. now apply (Hhead c0 t0).
Qed.

Lemma parse_questions_shape : forall response_text,
  let questions := _parse_questions response_text in
  length questions <= 8
  /\ Forall (fun q => (exists body, q = body ++ [QUESTION_MARK])
                      /\ q <> []
                      /\ (forall c t, q = c :: t -> is_space c = false))
            questions.
Proof.
  intros response_text questions. subst questions.
  unfold QuestionParser._parse_questions.
  change (slice_to 8 ?l) with (firstn 8 l).
  split.
  - rewrite length_firstn. lia.
  - apply Forall_forall. intros q Hq.
    assert (Hq' : In q (QuestionParser.collect_questions
                          is_space is_digit
                          (split_on NL (strip response_text)))).
    { rewrite <- (firstn_skipn 8). apply in_or_app. now left. }
    clear Hq. rename Hq' into Hq.
    unfold QuestionParser.collect_questions in Hq.
    apply in_flat_map in Hq as [line [_ Hq]].
    destruct (parse_line line) as [q'|] eqn:E; [|contradiction].
    destruct Hq as [<-|[]].
    destruct (parse_line_question _ _ E) as [H1 [H2 H3]].
    split; [exact H1|]. split; [|exact H3].
    intros ->. simpl in H2. lia.
Qed.

(** The parser returns at most eight questions, each ending with a
    question mark, none empty and none beginning with white space. *)
Theorem parse_questions_bounded : forall response_text,
  let questions := _parse_questions response_text in
  length questions <= 8
  /\ Forall (fun q => (exists body, q = body ++ [QUESTION_MARK])
                      /\ q <> []
                      /\ (forall c t, q = c :: t -> is_space c = false))
            questions.
Proof. exact parse_questions_shape. Qed.

End Parsing.

Section Node.
Variable is_space : N -> bool.
Variable is_digit : N -> bool.
Variable upper : pystr -> pystr.
Variable repr : pystr -> pystr.
Variable init_chat_model : option pystr.
Variable llm_invoke : pystr -> result pystr.
Variable format_summary_prompt : nat -> pystr -> pystr -> pystr.
Variable format_questions_prompt : nat -> pystr -> pystr -> pystr.
Variable _parse_questions : pystr -> list pystr.

Local Abbreviation generate_multi_document_summary :=
  (Summarizer.generate_multi_document_summary
     is_space upper repr init_chat_model llm_invoke format_summary_prompt
     format_questions_prompt _parse_questions).

(** The summary node never touches the files, the combined text and
    chunks or the chat; when it ends in [error] it leaves the summary,
    the questions and the progress as they were, and when it ends in
    [summarized] there is a summary and the progress is 100. *)
Theorem summary_leaves_batch : forall st,
  let st' := generate_multi_document_summary st in
  files st' = files st
  /\ file_upload_order st' = file_upload_order st
  /\ combined_text st' = combined_text st
  /\ combined_chunks st' = combined_chunks st
  /\ chat_history st' = chat_history st
  /\ response st' = response st
  /\ (overall_status st' = SUMMARIZED \/ overall_status st' = ERROR)
  /\ (overall_status st' = ERROR ->
      combined_summary st' = combined_summary st
      /\ suggested_questions st' = suggested_questions st
      /\ processing_progress st' = processing_progress st
      /\ error_message st' <> None)
  /\ (overall_status st' = SUMMARIZED ->
      overall_status st = OCR_COMPLETE
      /\ combined_summary st' <> None
      /\ error_message st' = error_message st
      /\ dict_get (str "overall") (processing_progress st') = Some 100%Z).
Proof.
  intros st st'. subst st'. unfold Summarizer.generate_multi_document_summary.
  cbn [overall_status set_current_step].
  destruct (status_eqb (overall_status st) OCR_COMPLETE) eqn:E; cbn [negb].
  - apply ProcessorFacts.status_eqb_eq in E. destruct init_chat_model as [e|].
    + repeat split; try discriminate. now right.
    + cbn [files file_upload_order combined_text combined_chunks chat_history
           response overall_status combined_summary suggested_questions
           processing_progress error_message set_processing_progress
           set_overall_status set_document_relationships
           set_suggested_questions set_combined_summary set_current_step].
      repeat split; try discriminate; try assumption.
      * now left.
      * apply dict_get_set_same.
  - repeat split; try discriminate. now right.
Qed.

(** With the parser of the class, the questions suggested for a
    collection are never more than eight and each ends with a question
    mark, whether they come from the model or are the default ones. *)
Theorem suggested_questions_bounded : forall combined_summary st,
  let questions :=
    Summarizer.generate_collection_questions
      upper repr llm_invoke format_questions_prompt
      (QuestionParser._parse_questions is_space is_digit)
      combined_summary st in
  length questions <= 8
  /\ Forall (fun q => exists body, q = body ++ [QUESTION_MARK]) questions.
Proof.
  intros summary st questions. subst questions.
  unfold Summarizer.generate_collection_questions.
  assert (Hdefault : length default_questions <= 8
                     /\ Forall (fun q => exists body, q = body ++ [QUESTION_MARK])
                               default_questions).
  { split; [vm_compute; lia|].
    apply Forall_forall. intros q Hq. apply ends_with_app.
    revert q Hq. apply forallb_forall. vm_compute. reflexivity. }
  destruct (docs_info _ _ _ _); [|exact Hdefault].
  destruct (llm_invoke _) as [content|e]; [|exact Hdefault].
  destruct (parse_questions_shape is_space is_digit content) as [H1 H2].
  split; [exact H1|]. eapply Forall_impl; [|exact H2].
  intros q [H _]. exact H.
Qed.

End Node.
End SummarizerMore.

(** ** Retrieval and the question node, further *)

Module QAMore.
Import QA QAFacts.

(** *** The context of the prompt *)

(** The context made of the retrieved chunks never exceeds 4000
    characters by more than the 24 of the truncation mark; without
    truncation it is the chunks joined by blank lines, and with no chunk
    it is the text that says so. *)
Theorem relevant_context_budget : forall relevant_chunks,
  let context := relevant_context relevant_chunks in
  length context <= 4024
  /\ (relevant_chunks = [] ->
      context = str "No specific relevant context found.")
  /\ (relevant_chunks <> [] ->
      length (join [NL; NL] (map context_part relevant_chunks)) <= 4000 ->
      context = join [NL; NL] (map context_part relevant_chunks)).
Proof.
  intros rs context. subst context. unfold relevant_context.
  split; [|split].
  - match goal with |- context [Nat.ltb 4000 (length ?c)] =>
      destruct (Nat.ltb 4000 (length c)) eqn:E
    end.
    + rewrite !length_app, length_firstn.
      change (length [NL; NL]) with 2.
      change (length (str "[Context truncated...]")) with 22. lia.
    + apply Nat.ltb_ge in E. lia.
  - intros ->. reflexivity.
  - intros Hne Hlen. destruct rs as [|r rs]; [contradiction|].
    cbn [map] in *.
    destruct (Nat.ltb _ _) eqn:E; [|reflexivity].
    apply Nat.ltb_lt in E. lia.
Qed.

Section Retrieval.
Variable Vectors : Type.
Variable similarities : Vectors -> pystr -> result (list Q).
Variable argsort : list Q -> list nat.

Local Abbreviation retrieve_relevant_chunks :=
  (@QA.retrieve_relevant_chunks Vectors similarities argsort).

(** Retrieval returns the best chunks.  Take an index that was built
    over [chunks], a query whose scores are [sims], one score per chunk,
    and an [argsort] that returns the indices in ascending order of
    score.  Then the results are, in some order, the chunks at a set
    [kept] of distinct indices, each with its own score, above the
    threshold; and a chunk above the threshold that is left out is left
    out only because [top_k] chunks that score at least as much were
    returned. *)
Theorem retrieve_returns_the_best :
  forall agent query top_k chunks vectors sims,
  chunks_with_metadata agent = Some chunks ->
  chunk_vectors agent = Some vectors ->
  similarities vectors query = Ok sims ->
  chunks <> [] ->
  length chunks = length sims ->
  (0 <= top_k)%Z ->
  Permutation (argsort sims) (seq 0 (length sims)) ->
  StronglySorted (fun i j => (score_at sims i <= score_at sims j)%Q)
                 (argsort sims) ->
  exists kept entries,
    Permutation (retrieve_relevant_chunks agent query top_k) entries
    /\ NoDup kept
    /\ Forall2 (fun i r => nth_error chunks i = Some (chunk r)
                           /\ nth_error sims i = Some (similarity_score r)
                           /\ (threshold < similarity_score r)%Q)
               kept entries
    /\ (forall j, j < length sims ->
                  (threshold < score_at sims j)%Q ->
                  In j kept
                  \/ (length kept = Z.to_nat top_k
                      /\ forall i, In i kept ->
                                   (score_at sims j <= score_at sims i)%Q)).
Proof.
  intros agent query top_k chunks vectors sims Hch Hv Hs Hne Hlen Hk Hperm Hsorted.
  set (order := rev (argsort sims)).
  assert (Hporder : Permutation order (seq 0 (length sims))).
  { subst order. etransitivity; [|exact Hperm].
    apply Permutation_sym, Permutation_rev. }
  assert (Hsorder : StronglySorted
                      (fun i j => (score_at sims j <= score_at sims i)%Q) order).
  { subst order. now apply sorted_rev. }
  assert (Hnd : NoDup order).
  { apply (Permutation_NoDup (Permutation_sym Hporder)), seq_NoDup. }
  assert (Hslice : slice_to top_k order = firstn (Z.to_nat top_k) order).
  { unfold slice_to. destruct (0 <=? top_k)%Z eqn:E; [reflexivity|].
    apply Z.leb_gt in E. lia. }
  set (top := firstn (Z.to_nat top_k) order).
  set (rest := skipn (Z.to_nat top_k) order).
  assert (Hsplit : order = top ++ rest)
    by (symmetry; apply firstn_skipn).
  assert (Hrange : forall i, In i top -> i < length sims).
  { intros i Hi. assert (Hio : In i order)
      by (rewrite Hsplit; apply in_or_app; now left).
    apply (Permutation_in _ Hporder), in_seq in Hio. lia. }
  destruct (collect_total sims chunks top Hlen Hrange) as [entries Hcol].
  set (keep := fun i => match nth_error sims i with
                        | Some s => above_threshold s
                        | None => false
                        end).
  exists (filter keep top), entries.
  assert (Hres : retrieve_relevant_chunks agent query top_k = sort_desc entries).
  { unfold QA.retrieve_relevant_chunks. rewrite Hch, Hv, Hs.
    destruct chunks as [|c cs]; [contradiction|].
    fold order. rewrite Hslice. fold top. now rewrite Hcol. }
  split; [rewrite Hres; apply sort_desc_perm|].
  assert (Hndtop : NoDup top).
  { rewrite Hsplit in Hnd. now apply NoDup_app_remove_r in Hnd. }
  split; [now apply NoDup_filter|].
  split.
  { pose proof (collect_entries _ _ _ _ Hcol) as Hent.
    destruct (collect_above _ _ _ _ Hcol) as [Habove _].
    fold keep in Hent.
    eapply Forall2_impl; [|exact (forall2_and_right _ _ _ _ _ _ Hent Habove)].
    intros i r [[H1 H2] H3]. split; [exact H1|]. split; [exact H2|].
    now apply above_threshold_iff. }
  intros j Hj Hscore.
  assert (Hjo : In j order).
  { apply (Permutation_in _ (Permutation_sym Hporder)), in_seq. lia. }
  assert (Hkeep : forall i, i < length sims ->
                  (threshold < score_at sims i)%Q -> keep i = true).
  { intros i Hi Hsc. unfold keep.
    destruct (nth_error sims i) as [s|] eqn:Es;
      [|apply nth_error_None in Es; lia].
    apply above_threshold_iff. now rewrite <- (score_at_nth_error _ _ _ Es). }
  rewrite Hsplit in Hjo. apply in_app_or in Hjo as [Hjt|Hjr].
  - left. apply filter_In. split; [exact Hjt | now apply Hkeep].
  - right.
    assert (Hdom : forall i, In i top ->
                   (score_at sims j <= score_at sims i)%Q).
    { intros i Hi. rewrite Hsplit in Hsorder.
      exact (sorted_app_cross _ _ _ _ Hsorder i j Hi Hjr). }
    assert (Hall : filter keep top = top).
    { apply ProcessorFacts.filter_all. apply forallb_forall. intros i Hi.
      apply Hkeep; [now apply Hrange|].
      eapply Qlt_le_trans; [exact Hscore | now apply Hdom]. }
    rewrite Hall. split.
    + subst top. rewrite length_firstn. apply Nat.min_l.
      assert (Hlr : rest <> []) by (intros Hr; rewrite Hr in Hjr; contradiction).
      destruct (Nat.le_gt_cases (Z.to_nat top_k) (length order)) as [H|H];
        [exact H|].
      exfalso. apply Hlr. subst rest. apply skipn_all2. lia.
    + exact Hdom.
Qed.

End Retrieval.
End QAMore.

(** ** What a question changes *)

Module QuestionFacts.
Import QA QAFacts QAMore.

Section Questions.
Variable is_space : N -> bool.
Variable upper : pystr -> pystr.
Variable repr : pystr -> pystr.
Variable init_chat_model : option pystr.
Variable llm_invoke : pystr -> result pystr.
Variable format_qa_prompt :
  pystr -> pystr -> option pystr -> pystr -> nat -> option pystr -> pystr.
Variable Vectors : Type.
Variable fit_transform : list pystr -> result Vectors.
Variable similarities : Vectors -> pystr -> result (list Q).
Variable argsort : list Q -> list nat.

Local Abbreviation retrieve_relevant_chunks :=
  (@QA.retrieve_relevant_chunks Vectors similarities argsort).
Local Abbreviation prepare_multi_file_index :=
  (@QA.prepare_multi_file_index Vectors fit_transform).
Local Abbreviation answer_multi_document_question :=
  (@QA.answer_multi_document_question is_space upper repr llm_invoke
     format_qa_prompt Vectors fit_transform similarities argsort).
Local Abbreviation process_multi_document_question :=
  (@QA.process_multi_document_question is_space upper repr init_chat_model
     llm_invoke format_qa_prompt Vectors fit_transform similarities argsort).

(** The question node never touches the batch: files, statuses, combined
    text and chunks, summary, questions, progress and error stay as they
    were.  It always leaves a response, and the chat history is either
    as it was or longer by one exchange. *)
Theorem question_leaves_batch : forall st,
  let st' := process_multi_document_question st in
  files st' = files st
  /\ file_upload_order st' = file_upload_order st
  /\ overall_status st' = overall_status st
  /\ processing_progress st' = processing_progress st
  /\ error_message st' = error_message st
  /\ combined_text st' = combined_text st
  /\ combined_chunks st' = combined_chunks st
  /\ combined_summary st' = combined_summary st
  /\ suggested_questions st' = suggested_questions st
  /\ response st' <> None
  /\ (chat_history st' = chat_history st
      \/ exists question answer,
           current_query st = Some question
           /\ chat_history st' =
              chat_history st
                ++ [ {| role := user; entry_content := question |};
                     {| role := assistant; entry_content := answer |} ]).
Proof.
  intros st st'. subst st'. unfold QA.process_multi_document_question.
  destruct (current_query st) as [[|c t]|] eqn:Eq;
    try (repeat split; try discriminate; now left).
  destruct (negb (status_eqb (overall_status st) SUMMARIZED));
    [repeat split; try discriminate; now left|].
  destruct init_chat_model as [e|];
    [repeat split; try discriminate; now left|].
  destruct (answer_multi_document_question _ _ _) as [answer agent].
  destruct (truthy_chunks _);
    (repeat split; try discriminate; right; now exists (c :: t), answer).
Qed.

Lemma prepared_chunks : forall st,
  let agent := prepare_multi_file_index (new_agent Vectors) st in
  chunks_with_metadata agent = None
  \/ chunks_with_metadata agent = Some (combined_chunks st).
Proof.
  intros st. unfold QA.prepare_multi_file_index.
  destruct (combined_chunks st) as [|c cs]; [now left|].
  destruct (fit_transform _); now right.
Qed.

Lemma answering_agent_chunks : forall question st,
  let agent := snd (answer_multi_document_question (new_agent Vectors)
                                                   question st) in
  chunks_with_metadata agent = None
  \/ chunks_with_metadata agent = Some (combined_chunks st).
Proof.
  intros question st. unfold QA.answer_multi_document_question.
  cbn [truthy_chunks chunks_with_metadata new_agent].
  destruct (file_names _ _ _ _); [destruct (llm_invoke _)|];
    exact (prepared_chunks st).
Qed.

Lemma retrieved_from : forall agent query top_k chunks,
  (0 <= top_k)%Z ->
  chunks_with_metadata agent = None \/ chunks_with_metadata agent = Some chunks ->
  let results := retrieve_relevant_chunks agent query top_k in
  length results <= Z.to_nat top_k
  /\ Forall (fun r => In (chunk r) chunks
                      /\ (threshold < similarity_score r)%Q) results.
Proof.
  intros agent query top_k chunks Hk Hagent results. subst results.
  destruct (retrieve_cases Vectors similarities argsort agent query top_k)
    as [Hnil | [sims [chunks' [vectors [l [_ [Hch [_ [_ [Hc Hr]]]]]]]]]].
  - rewrite Hnil. split; [apply Nat.le_0_l | constructor].
  - rewrite Hr. destruct Hagent as [Hnone|Hsome]; [congruence|].
    rewrite Hsome in Hch. injection Hch as <-.
    destruct (collect_above _ _ _ _ Hc) as [Habove Hlen].
    pose proof (collect_entries _ _ _ _ Hc) as Hent.
    split.
    + rewrite (Permutation_length (sort_desc_perm l)).
      etransitivity; [exact Hlen | now apply slice_to_length].
    + apply (Permutation_Forall (Permutation_sym (sort_desc_perm l))).
      clear Hc Hr Hlen. revert Habove.
      induction Hent as [|i r kept l' [H1 _] Hrest IH]; intros Habove;
        [constructor|].
      inversion Habove; subst. constructor; [|now apply IH].
      split; [now apply nth_error_In in H1 | now apply above_threshold_iff].
Qed.

(** The chunks a question is grounded on come from the batch: after an
    answered question, [relevant_chunks] holds at most five chunks, each
    one of [combined_chunks] and each with a score above the
    threshold. *)
Theorem grounding_chunks_from_batch : forall st question,
  current_query st = Some question ->
  question <> [] ->
  overall_status st = SUMMARIZED ->
  init_chat_model = None ->
  let st' := process_multi_document_question st in
  length (relevant_chunks st') <= 5
  /\ Forall (fun r => In (chunk r) (combined_chunks st)
                      /\ (threshold < similarity_score r)%Q)
            (relevant_chunks st').
Proof.
  intros st question Hq Hne Hst Hinit st'. subst st'.
  unfold QA.process_multi_document_question. rewrite Hq, Hst, Hinit.
  destruct question as [|c t]; [contradiction|].
  cbn [status_eqb negb].
  pose proof (answering_agent_chunks (c :: t) st) as Hagent.
  destruct (answer_multi_document_question _ _ _) as [answer agent].
  cbn [snd] in Hagent.
  assert (H5 : (0 <= 5)%Z) by lia.
  pose proof (retrieved_from agent (c :: t) 5 (combined_chunks st) H5 Hagent)
    as Hres.
  destruct (truthy_chunks _); exact Hres.
Qed.

End Questions.
End QuestionFacts.

(** ** src/agents/main_multi_file_graph.py *)

Module Workflow.

(** [state.get("overall_status") == "error"]: the value is a member of
    [ProcessingStatus], an [Enum] that does not derive from [str], and
    such a member is never equal to a string. *)
Definition equals_text (status : ProcessingStatus) (text : pystr) : bool :=
  false.

(** [_decide_after_upload] compares with members of the enumeration. *)
Definition _decide_after_upload (state : MultiFileDocumentState) : pystr :=
  if status_eqb (overall_status state) ERROR then str "error"
  else if status_eqb (overall_status state) SUMMARIZED
  then str "answer_question"
  else str "continue".

(** [_decide_after_ocr] and [_decide_after_summarization] compare with
    the text ["error"]. *)
Definition _decide_after_ocr (state : MultiFileDocumentState) : pystr :=
  if equals_text (overall_status state) (str "error") then str "error"
  else str "continue".

Definition _decide_after_summarization (state : MultiFileDocumentState)
  : pystr :=
  if equals_text (overall_status state) (str "error") then str "error"
  else str "ready".

(** [get_processing_status] *)
Record ProcessingReport : Type := {
  report_status : ProcessingStatus;
  report_step : pystr;
  report_progress : dict Z;
  report_error : option pystr;
  ready_for_qa : bool
}.

Definition get_processing_status (state : MultiFileDocumentState)
  : ProcessingReport :=
  {| report_status := overall_status state;
     report_step := current_step state;
     report_progress := processing_progress state;
     report_error := error_message state;
     ready_for_qa := equals_text (overall_status state) (str "summarized") |}.

Section Graph.
(** The four nodes of [_create_workflow]. *)
Variable upload_files : MultiFileDocumentState -> MultiFileDocumentState.
Variable process_ocr : MultiFileDocumentState -> MultiFileDocumentState.
Variable generate_summary : MultiFileDocumentState -> MultiFileDocumentState.
Variable answer_question : MultiFileDocumentState -> MultiFileDocumentState.

(** [self.app.invoke(state)]: the graph run from its entry point along
    the conditional edges; both routes out of [generate_summary] and the
    edge out of [answer_question] end the run. *)
Definition invoke (state : MultiFileDocumentState) : MultiFileDocumentState :=
  let state := upload_files state in
  let route := _decide_after_upload state in
  if pystr_eqb route (str "continue")
  then
    let state := process_ocr state in
    if pystr_eqb (_decide_after_ocr state) (str "continue")
    then generate_summary state
    else state
  else if pystr_eqb route (str "answer_question")
  then answer_question state
  else state.

End Graph.
End Workflow.

(** ** The graph of the multi-file workflow *)

Module WorkflowFacts.
Import Workflow.

Section Run.
Variable is_space : N -> bool.
Variable is_word : N -> bool.
Variable split_text : Z -> Z -> pystr -> list pystr.
Variable stat_size : pystr -> option Z.
Variable suffix : pystr -> pystr.
Variable lower : pystr -> pystr.
Variable upper : pystr -> pystr.
Variable repr : pystr -> pystr.
Variable splitext : pystr -> pystr * pystr.
Variable format_mb : Z -> pystr.
Variable upload_dir_join : pystr -> pystr.
Variable copy2 : pystr -> pystr -> result Z.
Variable uuid4 : nat -> pystr.
Variable save_clock : nat -> pystr.
Variable upload_clock : nat -> Q.
Variable extract_text : pystr -> pystr -> result (pystr * Q).
Variable loop_progress : nat -> nat -> Z.
(** The model is built once by the summarizer and once by the QA
    agent. *)
Variable init_summary_model : option pystr.
Variable init_qa_model : option pystr.
Variable llm_invoke : pystr -> result pystr.
Variable format_summary_prompt : nat -> pystr -> pystr -> pystr.
Variable format_questions_prompt : nat -> pystr -> pystr -> pystr.
Variable _parse_questions : pystr -> list pystr.
Variable format_qa_prompt :
  pystr -> pystr -> option pystr -> pystr -> nat -> option pystr -> pystr.
Variable Vectors : Type.
Variable fit_transform : list pystr -> result Vectors.
Variable similarities : Vectors -> pystr -> result (list Q).
Variable argsort : list Q -> list nat.

Definition upload_files : MultiFileDocumentState -> MultiFileDocumentState :=
  Processor.upload_multiple_files is_word stat_size suffix lower splitext
                                  format_mb upload_dir_join copy2 uuid4
                                  save_clock upload_clock.

Definition process_ocr : MultiFileDocumentState -> MultiFileDocumentState :=
  Processor.process_all_files_ocr is_space is_word split_text extract_text
                                  loop_progress.

Definition generate_summary : MultiFileDocumentState -> MultiFileDocumentState :=
  Summarizer.generate_multi_document_summary
    is_space upper repr init_summary_model llm_invoke format_summary_prompt
    format_questions_prompt _parse_questions.

Definition answer_question : MultiFileDocumentState -> MultiFileDocumentState :=
  @QA.process_multi_document_question
    is_space upper repr init_qa_model llm_invoke format_qa_prompt
    Vectors fit_transform similarities argsort.

(** The compiled graph of [MultiFileDocumentWorkflow]. *)
Definition app_invoke : MultiFileDocumentState -> MultiFileDocumentState :=
  Workflow.invoke upload_files process_ocr generate_summary answer_question.

(** [ask_question]: the question is stored and the graph is run. *)
Definition ask_question (state : MultiFileDocumentState) (question : pystr)
  : MultiFileDocumentState :=
  app_invoke (set_current_query (Some question) state).

(** *** The nodes, as the graph needs them *)

Lemma upload_status_cases : forall st,
  overall_status st <> SUMMARIZED ->
  overall_status (upload_files st) = UPLOADED
  \/ (overall_status (upload_files st) = ERROR
      /\ exists e, error_message (upload_files st)
                   = Some (str "File upload failed: " ++ e)).
Proof.
  intros st Hst. unfold upload_files, Processor.upload_multiple_files.
  destruct (status_eqb (overall_status st) SUMMARIZED) eqn:Es.
  { apply ProcessorFacts.status_eqb_eq in Es. contradiction. }
  cbn [uploaded_file_paths set_current_step set_overall_status].
  destruct (uploaded_file_paths st) as [|item rest].
  - right. split; [reflexivity|]. eexists. reflexivity.
  - destruct (files _) as [|r rs].
    + right. split; [reflexivity|]. eexists. reflexivity.
    + now left.
Qed.

Lemma summary_rejects : forall st,
  overall_status st <> OCR_COMPLETE ->
  generate_summary st =
  Summarizer.summarization_failed
    (str "OCR processing must be complete before summarization")
    (set_current_step (str "summarize") st).
Proof.
  intros st Hst. unfold generate_summary,
    Summarizer.generate_multi_document_summary.
  cbn [overall_status set_current_step].
  destruct (status_eqb (overall_status st) OCR_COMPLETE) eqn:E; [|reflexivity].
  apply ProcessorFacts.status_eqb_eq in E. contradiction.
Qed.

Lemma summary_status_cases : forall st,
  overall_status (generate_summary st) = SUMMARIZED
  \/ (overall_status (generate_summary st) = ERROR
      /\ exists e, error_message (generate_summary st)
                   = Some (str "Summarization failed: " ++ e)).
Proof.
  intros st. unfold generate_summary,
    Summarizer.generate_multi_document_summary.
  cbn [overall_status set_current_step].
  destruct (negb _).
  - right. split; [reflexivity|]. eexists. reflexivity.
  - destruct init_summary_model as [e|].
    + right. split; [reflexivity|]. now exists e.
    + now left.
Qed.

Lemma invoke_continues : forall st,
  overall_status (upload_files st) = UPLOADED ->
  app_invoke st = generate_summary (process_ocr (upload_files st)).
Proof.
  intros st Hup. unfold app_invoke, Workflow.invoke, _decide_after_upload.
  now rewrite Hup.
Qed.

Lemma answer_keeps_batch : forall st,
  files (answer_question st) = files st
  /\ overall_status (answer_question st) = overall_status st.
Proof.
  intros st. unfold answer_question, QA.process_multi_document_question.
  destruct (current_query st) as [[|c t]|]; try (now split).
  destruct (negb _); [now split|].
  destruct init_qa_model; [now split|].
  destruct (QA.answer_multi_document_question _ _ _ _ _ _ _ _ _ _ _)
    as [answer agent].
  destruct (QA.truthy_chunks _); now split.
Qed.

(** When extraction fails the gate, the graph does not stop: the text
    ["error"] never equals a member of the enumeration, so the summary
    node runs, finds that extraction is not complete, and replaces the
    message that named the failed files by its own. *)
Theorem gate_failure_reaches_summary : forall st,
  overall_status (upload_files st) = UPLOADED ->
  overall_status (process_ocr (upload_files st)) = ERROR ->
  let final := app_invoke st in
  overall_status final = ERROR
  /\ error_message final =
     Some (str "Summarization failed: OCR processing must be complete before summarization")
  /\ current_step final = str "summarize"
  /\ files final = files (process_ocr (upload_files st)).
Proof.
  intros st Hup Hocr final. subst final.
  rewrite (invoke_continues st Hup).
  rewrite summary_rejects by congruence. now repeat split.
Qed.

(** A run that starts on a batch that is not [summarized] ends in
    [summarized] or in [error]; in [summarized] exactly when the upload
    admitted a file, extraction passed the gate and the summarizer could
    be built; and the message of an [error] is that of the upload or that
    of the summary, never that of the extraction. *)
Theorem workflow_outcome : forall st,
  overall_status st <> SUMMARIZED ->
  let final := app_invoke st in
  (overall_status final = SUMMARIZED \/ overall_status final = ERROR)
  /\ (overall_status final = SUMMARIZED <->
      overall_status (upload_files st) = UPLOADED
      /\ overall_status (process_ocr (upload_files st)) = OCR_COMPLETE
      /\ init_summary_model = None)
  /\ (overall_status final = ERROR ->
      exists e, error_message final = Some (str "File upload failed: " ++ e)
                \/ error_message final
                   = Some (str "Summarization failed: " ++ e)).
Proof.
  intros st Hst final. subst final.
  destruct (upload_status_cases st Hst) as [Hup | [Hup [e He]]].
  - rewrite (invoke_continues st Hup).
    set (st2 := process_ocr (upload_files st)).
    destruct (summary_status_cases st2) as [Hs | [Hs [e He]]].
    + split; [now left|]. split.
      * split; [|intros _; exact Hs]. intros _. split; [exact Hup|].
        revert Hs. unfold generate_summary,
          Summarizer.generate_multi_document_summary.
        cbn [overall_status set_current_step].
        destruct (status_eqb (overall_status st2) OCR_COMPLETE) eqn:E;
          [|discriminate].
        apply ProcessorFacts.status_eqb_eq in E. cbn [negb].
        destruct init_summary_model; [discriminate | now split].
      * rewrite Hs. discriminate.
    + split; [now right|]. split.
      * split; [rewrite Hs; discriminate|]. intros [_ [Hocr Hinit]].
        revert Hs. unfold generate_summary,
          Summarizer.generate_multi_document_summary.
        cbn [overall_status set_current_step].
        fold st2. rewrite Hocr, Hinit. discriminate.
      * intros _. exists e. now right.
  - assert (Hfinal : app_invoke st = upload_files st).
    { unfold app_invoke, Workflow.invoke, _decide_after_upload.
      now rewrite Hup. }
    rewrite Hfinal. split; [now right|]. split.
    + split; [rewrite Hup; discriminate|]. intros [H _]. congruence.
    + intros _. exists e. now left.
Qed.

(** On a [summarized] batch the graph goes straight to the question
    node: nothing is uploaded or extracted again, [ask_question] is the
    question node on the state with the question stored, and the files
    are those of the batch. *)
Theorem ask_goes_to_the_question_node : forall st question,
  overall_status st = SUMMARIZED ->
  ask_question st question
  = answer_question (set_current_query (Some question) st)
  /\ files (ask_question st question) = files st
  /\ overall_status (ask_question st question) = SUMMARIZED.
Proof.
  intros st question Hst.
  assert (Heq : ask_question st question
                = answer_question (set_current_query (Some question) st)).
  { unfold ask_question, app_invoke, Workflow.invoke.
    assert (Hup : upload_files (set_current_query (Some question) st)
                  = set_current_query (Some question) st).
    { unfold upload_files, Processor.upload_multiple_files.
      cbn [overall_status set_current_query]. now rewrite Hst. }
    rewrite Hup. unfold _decide_after_upload.
    cbn [overall_status set_current_query]. now rewrite Hst. }
  split; [exact Heq|]. rewrite Heq.
  destruct (answer_keeps_batch (set_current_query (Some question) st))
    as [Hf Hs].
  now rewrite Hf, Hs.
Qed.

End Run.
End WorkflowFacts.

(** ** Upload, then extraction, then the list of documents *)

Module PipelineFacts.
Import Processor ProcessorFacts ExtractionFacts UploadFacts.

Section Pipeline.
Variable is_space : N -> bool.
Variable is_word : N -> bool.
Variable split_text : Z -> Z -> pystr -> list pystr.
Variable stat_size : pystr -> option Z.
Variable suffix : pystr -> pystr.
Variable lower : pystr -> pystr.
Variable repr : pystr -> pystr.
Variable splitext : pystr -> pystr * pystr.
Variable format_mb : Z -> pystr.
Variable upload_dir_join : pystr -> pystr.
Variable copy2 : pystr -> pystr -> result Z.
Variable uuid4 : nat -> pystr.
Variable save_clock : nat -> pystr.
Variable upload_clock : nat -> Q.
Variable extract_text : pystr -> pystr -> result (pystr * Q).
Variable loop_progress : nat -> nat -> Z.

Hypothesis uuid4_fresh : forall i j, uuid4 i = uuid4 j -> i = j.

Local Abbreviation upload_multiple_files :=
  (Processor.upload_multiple_files is_word stat_size suffix lower splitext
                                   format_mb upload_dir_join copy2 uuid4
                                   save_clock upload_clock).
Local Abbreviation process_all_files_ocr :=
  (Processor.process_all_files_ocr is_space is_word split_text extract_text
                                   loop_progress).

Lemma stage_keeps_keys : forall st,
  keys (files (process_all_files_ocr st)) = keys (files st)
  /\ file_upload_order (process_all_files_ocr st) = file_upload_order st.
Proof.
  intros st. split.
  - rewrite (stage_files is_space is_word split_text extract_text loop_progress).
    destruct (files st) as [|kv rest] eqn:E; [reflexivity|].
    rewrite <- E. apply after_loop_keys.
  - destruct (files st) as [|kv rest] eqn:E.
    + now rewrite process_all_files_ocr_empty by assumption.
    + rewrite (stage_unfold is_space is_word split_text extract_text
                 loop_progress) by congruence.
      destruct (forallb _ _); unfold gate_passed, ProcessorFacts.after_loop;
        cbn [file_upload_order ocr_failed set_error_message
             set_processing_progress set_overall_status set_files_completed
             set_combined_chunks set_combined_text];
        now rewrite process_files_upload_order.
Qed.

(** After upload and extraction the list of documents of the prompts
    never fails on a missing key: it has one line for each file that is
    [ocr_complete], in the order of the upload. *)
Theorem pipeline_lists_documents : forall st line,
  overall_status st <> SUMMARIZED ->
  uploaded_file_paths st <> [] ->
  let extracted := process_all_files_ocr (upload_multiple_files st) in
  Summarizer.docs_info repr line (files extracted)
                       (file_upload_order extracted)
  = Ok (map line (filter Summarizer.is_complete (values (files extracted)))).
Proof.
  intros st line Hst Hne extracted. subst extracted.
  destruct (upload_result is_word stat_size suffix lower splitext format_mb
              upload_dir_join copy2 uuid4 save_clock upload_clock uuid4_fresh
              st Hst Hne) as [Hf [Ho _]].
  destruct (stage_keeps_keys (upload_multiple_files st)) as [Hk Hord].
  rewrite Hord, Ho, <- Hk.
  apply (SummarizerMore.docs_info_suffix repr line _ []).
  change (NoDup (keys (files (process_all_files_ocr
                                (upload_multiple_files st))))).
  rewrite Hk, Hf.
  apply (admitted_from_nodup is_word stat_size suffix lower splitext format_mb
           upload_dir_join copy2 uuid4 save_clock upload_clock uuid4_fresh).
Qed.

End Pipeline.
End PipelineFacts.
